(** * eBay listing manager: a shallow embedding of the backend

    The development follows the layout of the Python backend:

    - [backend/models/schemas.py] and the pydantic models of
      [backend/agents/ebay_agent.py]: payload validation;
    - [backend/services/ebay_service.py]: the marketplace adapter;
    - [backend/services/database_service.py] and
      [backend/models/database.py]: the persistence layer;
    - [backend/agents/ebay_agent.py]: the seven tool handlers;
    - [backend/mcp/server.py]: the tool dispatch of the protocol server;
    - [backend/main.py]: the routes and the bulk helper of the REST layer;
    - [backend/mcp/handlers.py]: the webhook in front of the protocol server.

    Python values are dynamically typed, so SDK payloads, handler envelopes
    and ORM attribute values are all elements of one type [value].
    Handlers run in a state-and-exception monad over a [World] that holds
    the marketplace state, the listings table, the clock and a log of the
    SDK calls made so far. *)

From Stdlib Require Import ZArith List String Ascii Bool Floats Lia DecimalString.
Import ListNotations.

Local Open Scope string_scope.
Local Open Scope list_scope.
Local Open Scope Z_scope.

Set Warnings "-register-all".

(** ** Python values *)

(** [VDateTime] is a [datetime] (a point on the time line), [VObj] an
    instance of a class with its attribute store: ORM rows are such
    objects. A [VDict] keeps its items in insertion order, keys distinct. *)
Inductive value : Type :=
| VNone
| VBool (b : bool)
| VInt (z : Z)
| VFloat (f : float)
| VStr (s : string)
| VDateTime (t : Z)
| VList (l : list value)
| VDict (items : list (string * value))
| VObj (cls : string) (attrs : list (string * value)).

Definition dict := list (string * value).

(** Exceptions: the class name and the text that [str(e)] returns. Every
    exception of the model derives from [Exception], so [except Exception]
    catches it; cancellation and interpreter exits are not modelled. *)
Record exn := Raise { exn_class : string; exn_str : string }.

Definition Exception (msg : string) : exn := Raise "Exception" msg.
Definition ValueError (msg : string) : exn := Raise "ValueError" msg.
Definition TypeError (msg : string) : exn := Raise "TypeError" msg.
Definition AttributeError (msg : string) : exn := Raise "AttributeError" msg.
Definition OverflowError (msg : string) : exn := Raise "OverflowError" msg.
Definition ZeroDivisionError (msg : string) : exn := Raise "ZeroDivisionError" msg.
(** [str(KeyError(k))] is the [repr] of the key. *)
Definition KeyError (k : string) : exn := Raise "KeyError" ("'" ++ k ++ "'").

(** ** Fallible pure computations *)

Definition result (A : Type) : Type := exn + A.

Definition rbind {A B} (r : result A) (k : A -> result B) : result B :=
  match r with
  | inl e => inl e
  | inr a => k a
  end.

Notation "'let?' x ':=' r 'in' k" := (rbind r (fun x => k))
  (at level 10, x name, r at level 100, k at level 200).

Fixpoint rmap {A B} (f : A -> result B) (l : list A) : result (list B) :=
  match l with
  | [] => inr []
  | x :: xs =>
      let? y := f x in
      let? ys := rmap f xs in
      inr (y :: ys)
  end.

(** ** Dictionaries *)

Fixpoint lookup (k : string) (d : dict) : option value :=
  match d with
  | [] => None
  | (k', v) :: rest => if String.eqb k k' then Some v else lookup k rest
  end.

Definition has_key (k : string) (d : dict) : bool :=
  match lookup k d with Some _ => true | None => false end.

(** [d[k] = v]: an existing key keeps its position, a new one goes last. *)
Fixpoint dict_set (k : string) (v : value) (d : dict) : dict :=
  match d with
  | [] => [(k, v)]
  | (k', v') :: rest =>
      if String.eqb k k' then (k, v) :: rest else (k', v') :: dict_set k v rest
  end.

(** Dictionary unpacking of [a] then [b] into one literal: [b] wins. *)
Definition dict_merge (a b : dict) : dict :=
  fold_left (fun acc kv => dict_set (fst kv) (snd kv) acc) b a.

Definition keys (d : dict) : list string := map fst d.

(** [d.get(k, default)] on a dictionary. *)
Definition get (d : dict) (k : string) (default : value) : value :=
  match lookup k d with Some v => v | None => default end.

(** [d[k]] on a dictionary. *)
Definition getitem (d : dict) (k : string) : result value :=
  match lookup k d with Some v => inr v | None => inl (KeyError k) end.

(** ** The operations of the language on arbitrary values *)

(** [v.get(k, default)]: only dictionaries have the method. *)
Definition py_get (v : value) (k : string) (default : value) : result value :=
  match v with
  | VDict items => inr (get items k default)
  | _ => inl (AttributeError "object has no attribute 'get'")
  end.

(** [v[k]] with a string key. *)
Definition py_getitem (v : value) (k : string) : result value :=
  match v with
  | VDict items => getitem items k
  | VObj _ _ | VNone | VBool _ | VInt _ | VFloat _ | VDateTime _ =>
      inl (TypeError "object is not subscriptable")
  | VStr _ | VList _ => inl (TypeError "indices must be integers or slices")
  end.

Definition chars (s : string) : list value :=
  map (fun c => VStr (String c EmptyString)) (list_ascii_of_string s).

(** Iteration, as in [for x in v]: a dictionary yields its keys. *)
Definition py_iter (v : value) : result (list value) :=
  match v with
  | VList l => inr l
  | VDict items => inr (map (fun kv => VStr (fst kv)) items)
  | VStr s => inr (chars s)
  | _ => inl (TypeError "object is not iterable")
  end.

(** [v[:n]] followed by iteration; a dictionary cannot be sliced. *)
Definition py_iter_prefix (n : nat) (v : value) : result (list value) :=
  match v with
  | VList l => inr (firstn n l)
  | VStr s => inr (firstn n (chars s))
  | VDict _ => inl (TypeError "unhashable type: 'slice'")
  | _ => inl (TypeError "object is not subscriptable")
  end.

(** [len(v)] *)
Definition py_len (v : value) : result nat :=
  match v with
  | VList l => inr (List.length l)
  | VDict items => inr (List.length items)
  | VStr s => inr (String.length s)
  | _ => inl (TypeError "object has no len()")
  end.

(** Truth value, as tested by [if v:]. *)
Definition truthy (v : value) : bool :=
  match v with
  | VNone => false
  | VBool b => b
  | VInt z => negb (z =? 0)
  | VFloat f => negb (PrimFloat.eqb f 0%float)
  | VStr s => negb (String.eqb s "")
  | VDateTime _ => true
  | VList l => match l with [] => false | _ => true end
  | VDict items => match items with [] => false | _ => true end
  | VObj _ _ => true
  end.

(** [v == s] for a string literal [s]. *)
Definition eq_str (v : value) (s : string) : bool :=
  match v with
  | VStr s' => String.eqb s' s
  | _ => false
  end.

(** Dictionary keys must be hashable: lists and dictionaries are not. *)
Definition hashable (v : value) : bool :=
  match v with
  | VList _ | VDict _ => false
  | _ => true
  end.

(** *** Numbers *)

(** [float(z)] for an integer: nearest binary64, overflow raises. *)
Definition Z_to_float (z : Z) : result float :=
  let f := SF2Prim (binary_normalize prec emax z 0 false) in
  if PrimFloat.is_infinity f
  then inl (OverflowError "int too large to convert to float")
  else inr f.

(** [int(f)] for a float: truncation towards zero. *)
Definition float_to_Z (f : float) : result Z :=
  match Prim2SF f with
  | S754_zero _ => inr 0
  | S754_finite s m e =>
      let a := if 0 <=? e then Z.pos m * 2 ^ e else Z.pos m / 2 ^ (- e) in
      inr (if s then - a else a)
  | S754_infinity _ => inl (OverflowError "cannot convert float infinity to integer")
  | S754_nan => inl (ValueError "cannot convert float NaN to integer")
  end.

Definition bool_to_Z (b : bool) : Z := if b then 1 else 0.

(** [a / b] for two integers, [b] not zero: the exact quotient rounded once
    to the nearest binary64 (ties to even). The quotient is taken with
    enough bits and a sticky bit for what is left, then rounded; a result
    beyond the largest float raises. *)
Definition Z_truediv (a b : Z) : result float :=
  let negative := xorb (a <? 0) (b <? 0) in
  let n := Z.abs a in
  let d := Z.abs b in
  let k := Z.max 0 (Z.log2 d + 56 - Z.log2 n) in
  let q := (n * 2 ^ k) / d in
  let sticky := if (n * 2 ^ k) mod d =? 0 then 0 else 1 in
  let m := 2 * q + sticky in
  let f := SF2Prim (binary_normalize prec emax (if negative then - m else m)
                                     (- k - 1) negative) in
  if PrimFloat.is_infinity f
  then inl (OverflowError "integer division result too large for a float")
  else inr f.

(** A float that is a whole number strictly between -2^63 and 2^63, as
    that number. *)
Definition whole (f : float) : option Z :=
  match Prim2SF f with
  | S754_zero _ => Some 0
  | S754_finite s m e =>
      let a := if 0 <=? e then Some (Z.pos m * 2 ^ e)
               else if Z.pos m mod 2 ^ (- e) =? 0 then Some (Z.pos m / 2 ^ (- e))
               else None in
      match a with
      | Some a => if a <? 2 ^ 63 then Some (if s then - a else a) else None
      | None => None
      end
  | _ => None
  end.

(** ASCII lower case. *)
Definition lower_ascii (c : ascii) : ascii :=
  let n := nat_of_ascii c in
  if Nat.leb 65 n && Nat.leb n 90 then ascii_of_nat (n + 32) else c.

Fixpoint lower (s : string) : string :=
  match s with
  | EmptyString => EmptyString
  | String c rest => String (lower_ascii c) (lower rest)
  end.

Definition str_of_nat (n : nat) : string := NilZero.string_of_uint (Nat.to_uint n).
Definition str_of_Z (z : Z) : string := NilZero.string_of_int (Z.to_int z).

(** ** What the backend takes from its environment

    The marketplace SDK, the wall clock, the identifier generator and a few
    functions of the language runtime are outside the repository; the model
    is parametric in them. [sdk_execute api verb data] is
    [api.execute(verb, data)] followed by [response.dict()]: the call either
    raises or yields the response, and moves the marketplace to a new state.
    [http_url s] tells whether pydantic accepts [s] as an [HttpUrl].
    [float_of_str s] and [int_of_str s] are the numbers that [float(s)] and
    [int(s)] read in a text, if any; the validator of the payload models is
    taken to read the text of a number in the same way.
    [utc_clock n] and [local_clock n] are what the [n]-th reading of the
    clock returns through [datetime.utcnow()] and [datetime.now()].
    [commit_error old new] is the verdict of the relational store on a
    commit that turns the listings table [old] into [new]: [None] when it
    is accepted, the raised error otherwise (a violated constraint, a value
    the driver refuses). [inherited key] tells whether [key] names an
    attribute that a mapped object has from the declarative base or from
    [object], besides the columns and relationships its class declares.
    [orm_load row key] is the error, if any, raised when the relationship
    [key] of a mapped object whose columns are [row] is read before it was
    loaded (in an asynchronous session, a relationship that needs a query
    cannot be loaded by reading it).
    [orm_assign row key v] is what the ORM makes of assigning [v] to a
    relationship or inherited attribute [key] of a mapped object whose
    columns are [row], when [v] is of a kind the attribute can take: the
    columns as the assignment leaves them for the next flush, or the error
    raised. *)
Class Platform : Type := {
  Market : Type;
  sdk_execute : string -> string -> value -> Market -> result value * Market;
  utc_clock : nat -> Z;
  local_clock : nat -> Z;
  uuid4 : nat -> string;
  isoformat : Z -> string;
  py_repr : value -> string;
  json_text : option nat -> value -> string;
  float_of_str : string -> option float;
  int_of_str : string -> option Z;
  ilike : string -> string -> bool;
  http_url : string -> bool;
  commit_error : list dict -> list dict -> option exn;
  inherited : string -> bool;
  orm_load : dict -> string -> option exn;
  orm_assign : dict -> string -> value -> result dict
}.

Section Runtime.

Context {P : Platform}.

(** [str(v)]: a string is itself, any other value prints as its [repr]. *)
Definition py_str (v : value) : string :=
  match v with
  | VStr s => s
  | _ => py_repr v
  end.

(** [float(v)] *)
Definition py_float (v : value) : result float :=
  match v with
  | VFloat f => inr f
  | VInt z => Z_to_float z
  | VBool b => Z_to_float (bool_to_Z b)
  | VStr s =>
      match float_of_str s with
      | Some f => inr f
      | None => inl (ValueError ("could not convert string to float: " ++ py_repr v))
      end
  | _ => inl (TypeError "float() argument must be a string or a real number")
  end.

(** [int(v)] *)
Definition py_int (v : value) : result Z :=
  match v with
  | VInt z => inr z
  | VBool b => inr (bool_to_Z b)
  | VFloat f => float_to_Z f
  | VStr s =>
      match int_of_str s with
      | Some z => inr z
      | None => inl (ValueError ("invalid literal for int() with base 10: " ++ py_repr v))
      end
  | _ => inl (TypeError "int() argument must be a string, a bytes-like object or a real number")
  end.

(** The real number behind a numeric operand of an arithmetic operator. *)
Definition numeric (v : value) : result float :=
  match v with
  | VFloat f => inr f
  | VInt z => Z_to_float z
  | VBool b => Z_to_float (bool_to_Z b)
  | _ => inl (TypeError "unsupported operand type(s)")
  end.

(** [v > 0] *)
Definition py_gt0 (v : value) : result bool :=
  match v with
  | VInt z => inr (0 <? z)
  | VBool b => inr b
  | VFloat f => inr (PrimFloat.ltb 0%float f)
  | _ => inl (TypeError "'>' not supported between these instances")
  end.

Definition is_zero (v : value) : bool :=
  match v with
  | VInt z => z =? 0
  | VBool b => negb b
  | VFloat f => PrimFloat.eqb f 0%float
  | _ => false
  end.

(** An operand that is an integer ([bool] is a subclass of [int]). *)
Definition integer (v : value) : option Z :=
  match v with
  | VInt z => Some z
  | VBool b => Some (bool_to_Z b)
  | _ => None
  end.

(** [a / b]: true division, the quotient is a float. Two integers are
    divided exactly and the quotient rounded once; otherwise both operands
    are converted to floats first, then divided. *)
Definition py_truediv (a b : value) : result float :=
  match integer a, integer b with
  | Some x, Some y =>
      if y =? 0 then inl (ZeroDivisionError "division by zero")
      else Z_truediv x y
  | _, _ =>
      let? x := numeric a in
      let? y := numeric b in
      if is_zero b then inl (ZeroDivisionError "float division by zero")
      else inr (PrimFloat.div x y)
  end.

(** [json.dumps(v, indent=...)]: ORM objects and datetimes are not
    serializable. *)
Fixpoint json_serializable (v : value) : bool :=
  match v with
  | VDateTime _ | VObj _ _ => false
  | VList l => forallb json_serializable l
  | VDict items => forallb (fun kv => json_serializable (snd kv)) items
  | _ => true
  end.

Definition json_dumps (indent : option nat) (v : value) : result string :=
  if json_serializable v then inr (json_text indent v)
  else inl (TypeError "Object is not JSON serializable").

(** ** The world and the monad of handlers *)

(** A row of the [listings] table is the attribute store of a [Listing]
    object. [sdk_calls] logs every SDK call (api, verb, payload) in order;
    [clock_reads] and [uuids_drawn] count the readings of the clock and of
    the identifier generator. *)
Definition row := dict.

Record World : Type := mkWorld {
  market : Market;
  listings : list row;
  sdk_calls : list (string * string * value);
  clock_reads : nat;
  uuids_drawn : nat
}.

Definition M (A : Type) : Type := World -> result A * World.

Definition ret {A} (a : A) : M A := fun w => (inr a, w).

Definition raise {A} (e : exn) : M A := fun w => (inl e, w).

Definition bind {A B} (m : M A) (k : A -> M B) : M B :=
  fun w =>
    match m w with
    | (inl e, w') => (inl e, w')
    | (inr a, w') => k a w'
    end.

(** [try: m except Exception as e: h e]: the effects of [m] up to the
    exception stay. *)
Definition try_except {A} (m : M A) (h : exn -> M A) : M A :=
  fun w =>
    match m w with
    | (inl e, w') => h e w'
    | (inr a, w') => (inr a, w')
    end.

Definition lift {A} (r : result A) : M A := fun w => (r, w).

(** [datetime.utcnow()] and [datetime.now()] *)
Definition utcnow : M Z :=
  fun w => (inr (utc_clock (clock_reads w)),
            mkWorld (market w) (listings w) (sdk_calls w)
                    (S (clock_reads w)) (uuids_drawn w)).

Definition now : M Z :=
  fun w => (inr (local_clock (clock_reads w)),
            mkWorld (market w) (listings w) (sdk_calls w)
                    (S (clock_reads w)) (uuids_drawn w)).

(** [str(uuid.uuid4())] *)
Definition new_uuid : M string :=
  fun w => (inr (uuid4 (uuids_drawn w)),
            mkWorld (market w) (listings w) (sdk_calls w)
                    (clock_reads w) (S (uuids_drawn w))).

End Runtime.

Notation "'let*' x ':=' m 'in' k" := (bind m (fun x => k))
  (at level 10, x name, m at level 100, k at level 200).

(** ** The marketplace adapter: [backend/services/ebay_service.py] *)

Module EbayService.
Section Adapter.

Context {P : Platform}.

(** [api.execute(verb, data)] run in the worker pool and awaited, then
    [response.dict()]. The call is logged. *)
Definition execute (api verb : string) (data : value) : M value :=
  fun w =>
    let '(r, m) := sdk_execute api verb data (market w) in
    (r, mkWorld m (listings w) (sdk_calls w ++ [(api, verb, data)])
                (clock_reads w) (uuids_drawn w)).

Definition condition_map : list (string * Z) :=
  [ ("New", 1000); ("Like New", 1500); ("Very Good", 2000); ("Good", 3000);
    ("Acceptable", 4000); ("For parts or not working", 7000) ].

Fixpoint assoc (k : string) (m : list (string * Z)) : option Z :=
  match m with
  | [] => None
  | (k', c) :: rest => if String.eqb k k' then Some c else assoc k rest
  end.

Definition _get_condition_id (condition : value) : result Z :=
  match condition with
  | VStr s => inr (match assoc s condition_map with Some c => c | None => 1000 end)
  | _ => if hashable condition then inr 1000
         else inl (TypeError "unhashable type")
  end.

Definition shipping_service (idx : nat) (option : value) : result value :=
  let? service := py_get option "service" (VStr "USPSPriority") in
  let? cost := py_get option "cost" (VInt 0) in
  let? free := py_get option "free_shipping" (VBool false) in
  inr (VDict [ ("ShippingService", service);
               ("ShippingServiceCost", cost);
               ("ShippingServicePriority", VInt (Z.of_nat idx + 1));
               ("FreeShipping", free) ]).

Fixpoint shipping_services (idx : nat) (options : list value) : result (list value) :=
  match options with
  | [] => inr []
  | option :: rest =>
      let? service := shipping_service idx option in
      let? services := shipping_services (S idx) rest in
      inr (service :: services)
  end.

Definition _prepare_shipping_details (shipping_options : value) : result value :=
  let? options := py_iter shipping_options in
  let? services := shipping_services 0 options in
  inr (VDict [ ("ShippingType", VStr "Flat");
               ("ShippingServiceOptions", VList services) ]).

Definition _prepare_item_specifics (specifics : value) : result value :=
  match specifics with
  | VDict items =>
      let name_value_list :=
        map (fun kv => VDict [("Name", VStr (fst kv)); ("Value", snd kv)]) items in
      inr (if truthy (VList name_value_list)
           then VDict [("NameValueList", VList name_value_list)]
           else VDict [])
  | _ => inl (AttributeError "object has no attribute 'items'")
  end.

(** The [AddItem] payload built from the internal field names. *)
Definition add_item_payload (listing_data : dict) : result value :=
  let? title := getitem listing_data "title" in
  let? description := getitem listing_data "description" in
  let? category_id := getitem listing_data "category_id" in
  let? price := getitem listing_data "price" in
  let? quantity := getitem listing_data "quantity" in
  let? condition := getitem listing_data "condition" in
  let? condition_id := _get_condition_id condition in
  let? shipping :=
    _prepare_shipping_details (get listing_data "shipping_options" (VList [])) in
  let? specifics :=
    _prepare_item_specifics (get listing_data "item_specifics" (VDict [])) in
  inr (VDict [ ("Item", VDict [
    ("Title", title);
    ("Description", description);
    ("PrimaryCategory", VDict [("CategoryID", category_id)]);
    ("StartPrice", price);
    ("Quantity", quantity);
    ("ConditionID", VInt condition_id);
    ("Country", VStr "US");
    ("Currency", VStr "USD");
    ("DispatchTimeMax", VInt 3);
    ("ListingDuration", VStr "Days_7");
    ("ListingType", VStr "FixedPriceItem");
    ("PaymentMethods", VList [VStr "PayPal"]);
    ("PayPalEmailAddress", VStr "your-paypal@email.com");
    ("PictureDetails", VDict [("PictureURL", get listing_data "images" (VList []))]);
    ("ReturnPolicy", VDict [
       ("ReturnsAcceptedOption", VStr "ReturnsAccepted");
       ("RefundOption", VStr "MoneyBack");
       ("ReturnsWithinOption", VStr "Days_30");
       ("ShippingCostPaidByOption", VStr "Buyer") ]);
    ("ShippingDetails", shipping);
    ("ItemSpecifics", specifics) ]) ]).

(** [raise Exception(f"eBay API error: {result.get('Errors', 'Unknown error')}")] *)
Definition api_error {A} (result : value) : M A :=
  let* errors := lift (py_get result "Errors" (VStr "Unknown error")) in
  raise (Exception ("eBay API error: " ++ py_str errors)).

Definition create_listing (listing_data : dict) : M dict :=
  try_except
    (let* item := lift (add_item_payload listing_data) in
     let* result := execute "trading" "AddItem" item in
     let* ack := lift (py_get result "Ack" VNone) in
     if eq_str ack "Success" then
       let* item_id := lift (py_getitem result "ItemID") in
       let* fees := lift (py_get result "Fees" (VDict [])) in
       ret [ ("listing_id", item_id);
             ("listing_url", VStr ("https://www.ebay.com/itm/" ++ py_str item_id));
             ("fees", fees) ]
     else api_error result)
    (fun e => raise (Exception ("Failed to create listing: " ++ exn_str e))).

(** The [ReviseItem] payload: only the five mapped fields are forwarded. *)
Definition revision (listing_id : string) (updates : dict) : value :=
  let item := [("ItemID", VStr listing_id)] in
  let item := match lookup "title" updates with
              | Some v => dict_set "Title" v item | None => item end in
  let item := match lookup "description" updates with
              | Some v => dict_set "Description" v item | None => item end in
  let item := match lookup "price" updates with
              | Some v => dict_set "StartPrice" v item | None => item end in
  let item := match lookup "quantity" updates with
              | Some v => dict_set "Quantity" v item | None => item end in
  let item := match lookup "images" updates with
              | Some v => dict_set "PictureDetails" (VDict [("PictureURL", v)]) item
              | None => item end in
  VDict [("Item", VDict item)].

Definition update_listing (listing_id : string) (updates : dict) : M dict :=
  try_except
    (let* result := execute "trading" "ReviseItem" (revision listing_id updates) in
     let* ack := lift (py_get result "Ack" VNone) in
     if eq_str ack "Success" then
       let* fees := lift (py_get result "Fees" (VDict [])) in
       ret [("success", VBool true); ("fees", fees)]
     else api_error result)
    (fun e => raise (Exception ("Failed to update listing: " ++ exn_str e))).

Definition _parse_listing (item : value) : result dict :=
  let? listing_id := py_get item "ItemID" VNone in
  let? title := py_get item "Title" VNone in
  let? description := py_get item "Description" VNone in
  let? start_price := py_get item "StartPrice" (VDict []) in
  let? price_value := py_get start_price "value" (VInt 0) in
  let? price := py_float price_value in
  let? quantity_value := py_get item "Quantity" (VInt 0) in
  let? quantity := py_int quantity_value in
  let? category := py_get item "PrimaryCategory" (VDict []) in
  let? category_id := py_get category "CategoryID" VNone in
  let? condition := py_get item "ConditionDisplayName" VNone in
  let? pictures := py_get item "PictureDetails" (VDict []) in
  let? images := py_get pictures "PictureURL" (VList []) in
  let? selling := py_get item "SellingStatus" (VDict []) in
  let? status := py_get selling "ListingStatus" VNone in
  let? views := py_get item "HitCount" (VInt 0) in
  let? watchers := py_get item "WatchCount" (VInt 0) in
  let? details := py_get item "ListingDetails" (VDict []) in
  let? listed_at := py_get details "StartTime" VNone in
  let? details' := py_get item "ListingDetails" (VDict []) in
  let? ends_at := py_get details' "EndTime" VNone in
  inr [ ("listing_id", listing_id);
        ("title", title);
        ("description", description);
        ("price", VFloat price);
        ("quantity", VInt quantity);
        ("category_id", category_id);
        ("condition", condition);
        ("images", images);
        ("status", status);
        ("views", views);
        ("watchers", watchers);
        ("listed_at", listed_at);
        ("ends_at", ends_at) ].

Definition get_listing (listing_id : string) : M dict :=
  try_except
    (let* result :=
       execute "trading" "GetItem" (VDict [("ItemID", VStr listing_id)]) in
     let* ack := lift (py_get result "Ack" VNone) in
     if eq_str ack "Success" then
       let* item := lift (py_getitem result "Item") in
       lift (_parse_listing item)
     else api_error result)
    (fun e => raise (Exception ("Failed to get listing: " ++ exn_str e))).

Definition _parse_search_result (item : value) : result value :=
  let? listing_id := py_get item "itemId" VNone in
  let? title := py_get item "title" VNone in
  let? selling := py_get item "sellingStatus" (VDict []) in
  let? current := py_get selling "currentPrice" (VDict []) in
  let? price_value := py_get current "value" (VInt 0) in
  let? price := py_float price_value in
  let? listing_url := py_get item "viewItemURL" VNone in
  let? info := py_get item "listingInfo" (VDict []) in
  let? end_time := py_get info "endTime" VNone in
  inr (VDict [ ("listing_id", listing_id);
               ("title", title);
               ("price", VFloat price);
               ("listing_url", listing_url);
               ("end_time", end_time) ]).

Definition search_params (criteria : dict) : value :=
  let params :=
    [ ("outputSelector",
       VList [VStr "ItemID"; VStr "Title"; VStr "CurrentPrice"; VStr "ListingInfo"]);
      ("paginationInput",
       VDict [("entriesPerPage", VInt 100); ("pageNumber", VInt 1)]) ] in
  let params :=
    if truthy (get criteria "keyword" VNone)
    then dict_set "keywords" (get criteria "keyword" VNone) params else params in
  let params :=
    if truthy (get criteria "category" VNone)
    then dict_set "categoryId" (get criteria "category" VNone) params else params in
  VDict params.

Definition search_listings (criteria : dict) : M (list value) :=
  try_except
    (let* result := execute "finding" "findItemsAdvanced" (search_params criteria) in
     let* found := lift (py_get result "searchResult" (VDict [])) in
     let* items := lift (py_get found "item" (VList [])) in
     let* items := lift (py_iter items) in
     lift (rmap _parse_search_result items))
    (fun e => raise (Exception ("Failed to search listings: " ++ exn_str e))).

Definition delete_listing (listing_id : string) : M bool :=
  try_except
    (let* result :=
       execute "trading" "EndItem"
         (VDict [("ItemID", VStr listing_id); ("EndingReason", VStr "NotAvailable")]) in
     let* ack := lift (py_get result "Ack" VNone) in
     ret (eq_str ack "Success"))
    (fun e => raise (Exception ("Failed to end listing: " ++ exn_str e))).

Definition _calculate_conversion_rate (item : value) : result value :=
  let? views := py_get item "HitCount" (VInt 0) in
  let? sold := py_get item "QuantitySold" (VInt 0) in
  let? positive := py_gt0 views in
  if positive then
    let? ratio := py_truediv sold views in
    inr (VFloat (PrimFloat.mul ratio 100%float))
  else inr (VFloat 0%float).

Definition get_listing_analytics (listing_id : string) : M dict :=
  try_except
    (let* traffic :=
       execute "trading" "GetItem"
         (VDict [("ItemID", VStr listing_id); ("IncludeWatchCount", VBool true)]) in
     let* item := lift (py_get traffic "Item" (VDict [])) in
     lift (let? view_count := py_get item "HitCount" (VInt 0) in
           let? watch_count := py_get item "WatchCount" (VInt 0) in
           let? question_count := py_get item "QuestionCount" (VInt 0) in
           let? bid_count := py_get item "BidCount" (VInt 0) in
           let? conversion_rate := _calculate_conversion_rate item in
           inr [ ("view_count", view_count);
                 ("watch_count", watch_count);
                 ("question_count", question_count);
                 ("bid_count", bid_count);
                 ("conversion_rate", conversion_rate) ]))
    (fun e => raise (Exception ("Failed to get analytics: " ++ exn_str e))).

Definition _get_category_path (category : value) : result value :=
  let? parent_id := py_get category "CategoryParentID" VNone in
  let? name := py_get category "CategoryName" VNone in
  if truthy name then
    let? name := py_getitem category "CategoryName" in
    inr (VList [name])
  else inr (VList []).

Definition suggestion (cat : value) : result value :=
  let? category := py_get cat "Category" (VDict []) in
  let? category_id := py_get category "CategoryID" VNone in
  let? category' := py_get cat "Category" (VDict []) in
  let? category_name := py_get category' "CategoryName" VNone in
  let? category'' := py_get cat "Category" (VDict []) in
  let? category_path := _get_category_path category'' in
  let? percent := py_get cat "PercentItemsFound" (VInt 0) in
  let? confidence := py_float percent in
  inr (VDict [ ("category_id", category_id);
               ("category_name", category_name);
               ("category_path", category_path);
               ("confidence", VFloat confidence) ]).

(** [title[:50]] *)
Definition query_of (title : string) : string := String.substring 0 50 title.

Definition get_category_suggestions (title description : string) : M (list value) :=
  try_except
    (let* result :=
       execute "trading" "GetSuggestedCategories"
         (VDict [("Query", VStr (query_of title))]) in
     let* array := lift (py_get result "SuggestedCategoryArray" (VDict [])) in
     let* categories := lift (py_get array "SuggestedCategory" (VList [])) in
     let* top := lift (py_iter_prefix 5 categories) in
     lift (rmap suggestion top))
    (fun e => raise (Exception ("Failed to get category suggestions: " ++ exn_str e))).

End Adapter.
End EbayService.

(** ** The persistence layer: [backend/models/database.py] and
       [backend/services/database_service.py] *)

Module Listing.

(** The mapped columns of class [Listing], in declaration order. *)
Definition columns : list string :=
  [ "id"; "ebay_listing_id"; "user_id";
    "title"; "description"; "price"; "quantity"; "category_id"; "condition";
    "status";
    "images"; "item_specifics"; "shipping_options";
    "views"; "watchers"; "sold_quantity";
    "created_at"; "updated_at"; "listed_at"; "ends_at" ].

(** The relationships that the class declares after its columns. *)
Definition relationships : list string := [ "user"; "analytics" ].

Fixpoint mem (k : string) (l : list string) : bool :=
  match l with
  | [] => false
  | k' :: rest => if String.eqb k k' then true else mem k rest
  end.

(** [getattr(listing, key)] for a column: one that was never set holds NULL. *)
Definition getattr (listing : row) (key : string) : value := get listing key VNone.

(** [listing.<column> = v] *)
Definition set (listing : row) (key : string) (v : value) : row :=
  dict_set key v listing.

(** The error with which a relationship refuses a value it cannot hold:
    [user] holds a mapped object or [None], [analytics] a list. *)
Definition refused (key : string) (v : value) : option exn :=
  if String.eqb key "user" then
    match v with
    | VNone | VObj _ _ => None
    | _ => Some (AttributeError "object has no attribute '_sa_instance_state'")
    end
  else if String.eqb key "analytics" then
    match v with
    | VList _ => None
    | _ => Some (TypeError "Incompatible collection type")
    end
  else None.

Section Attributes.

Context {P : Platform}.

(** A name that the class declares or inherits: a column, a relationship,
    or an attribute that every mapped object has. *)
Definition attribute (key : string) : bool :=
  mem key columns || mem key relationships || inherited key.

(** [hasattr(listing, key)] reads the attribute: a column or an inherited
    attribute is there, a name that is no attribute is not, and reading a
    relationship may raise; [hasattr] turns an [AttributeError] into
    [False] and lets any other error through. *)
Definition hasattr (listing : row) (key : string) : result bool :=
  if mem key relationships then
    match orm_load listing key with
    | Some e => if String.eqb (exn_class e) "AttributeError" then inr false else inl e
    | None => inr true
    end
  else inr (attribute key).

(** [setattr(listing, key, value)] for a [key] that is an attribute. *)
Definition setattr (listing : row) (key : string) (v : value) : result row :=
  if mem key columns then inr (set listing key v)
  else match refused key v with
       | Some e => inl e
       | None => orm_assign listing key v
       end.

(** A key whose assignment, if any, is a plain write of a column: a column,
    or a name that is not an attribute at all. *)
Definition plain (key : string) : bool :=
  mem key columns || negb (attribute key).

End Attributes.

(** [Listing(...)] with keyword arguments: every column has a slot, the ones not given are
    unset (NULL until a default fills them). *)
Definition new (kwargs : dict) : row :=
  map (fun c => (c, get kwargs c VNone)) columns.

End Listing.

Module DatabaseService.
Section Store.

Context {P : Platform}.

(** [session.commit()]: the store accepts the new table or raises, in which
    case the session is discarded and the table stays as it was. *)
Definition commit (table : list row) : M unit :=
  fun w =>
    match commit_error (listings w) table with
    | Some e => (inl e, w)
    | None => (inr tt, mkWorld (market w) table (sdk_calls w)
                               (clock_reads w) (uuids_drawn w))
    end.

Definition table : M (list row) := fun w => (inr (listings w), w).

(** The column defaults of [Listing], applied at insertion to the columns
    left unset: [id], the three counters and the two timestamps. *)
Definition unset (listing : row) (key : string) : bool :=
  match Listing.getattr listing key with VNone => true | _ => false end.

Definition with_defaults (listing : row) : M row :=
  let* listing :=
    if unset listing "id"
    then let* u := new_uuid in ret (Listing.set listing "id" (VStr u))
    else ret listing in
  let listing :=
    if unset listing "views" then Listing.set listing "views" (VInt 0)
    else listing in
  let listing :=
    if unset listing "watchers" then Listing.set listing "watchers" (VInt 0)
    else listing in
  let listing :=
    if unset listing "sold_quantity"
    then Listing.set listing "sold_quantity" (VInt 0) else listing in
  let* listing :=
    if unset listing "created_at"
    then let* t := utcnow in ret (Listing.set listing "created_at" (VDateTime t))
    else ret listing in
  if unset listing "updated_at"
  then let* t := utcnow in ret (Listing.set listing "updated_at" (VDateTime t))
  else ret listing.

Definition store_listing (listing_data : dict) : M row :=
  let* title := lift (getitem listing_data "title") in
  let* description := lift (getitem listing_data "description") in
  let* price := lift (getitem listing_data "price") in
  let* quantity := lift (getitem listing_data "quantity") in
  let* category_id := lift (getitem listing_data "category_id") in
  let* condition := lift (getitem listing_data "condition") in
  let* listed_at := utcnow in
  let listing := Listing.new
    [ ("ebay_listing_id", get listing_data "listing_id" VNone);
      ("user_id", get listing_data "user_id" VNone);
      ("title", title);
      ("description", description);
      ("price", price);
      ("quantity", quantity);
      ("category_id", category_id);
      ("condition", condition);
      ("status", VStr "active");
      ("images", get listing_data "images" (VList []));
      ("item_specifics", get listing_data "item_specifics" (VDict []));
      ("shipping_options", get listing_data "shipping_options" (VList []));
      ("listed_at", VDateTime listed_at) ] in
  let* listing := with_defaults listing in
  let* rows := table in
  let* _ := commit (rows ++ [listing]) in
  ret listing.

(** [or_(Listing.id == listing_id, Listing.ebay_listing_id == listing_id)] *)
Definition matches (listing_id : string) (listing : row) : bool :=
  eq_str (Listing.getattr listing "id") listing_id
  || eq_str (Listing.getattr listing "ebay_listing_id") listing_id.

(** [result.scalar_one_or_none()] *)
Definition scalar_one_or_none (rows : list row) : result (option row) :=
  match rows with
  | [] => inr None
  | [listing] => inr (Some listing)
  | _ => inl (Raise "MultipleResultsFound"
                    "Multiple rows were found when one or none was required")
  end.

(** The loop of [update_listing]: keys that are not attributes are
    skipped, and a reading or an assignment that raises ends the loop. *)
Fixpoint apply_updates (listing : row) (updates : dict) : result row :=
  match updates with
  | [] => inr listing
  | (key, v) :: rest =>
      let? present := Listing.hasattr listing key in
      if present then
        let? listing := Listing.setattr listing key v in
        apply_updates listing rest
      else apply_updates listing rest
  end.

Definition replace_matching (listing_id : string) (listing : row)
    (rows : list row) : list row :=
  map (fun r => if matches listing_id r then listing else r) rows.

Definition update_listing (listing_id : string) (updates : dict) : M (option row) :=
  let* rows := table in
  let* found := lift (scalar_one_or_none (filter (matches listing_id) rows)) in
  match found with
  | Some listing =>
      let* listing := lift (apply_updates listing updates) in
      let* t := utcnow in
      let listing := Listing.set listing "updated_at" (VDateTime t) in
      let* _ := commit (replace_matching listing_id listing rows) in
      ret (Some listing)
  | None => ret None
  end.

Definition delete_listing (listing_id : string) : M bool :=
  let* rows := table in
  let* found := lift (scalar_one_or_none (filter (matches listing_id) rows)) in
  match found with
  | Some _ =>
      let* _ := commit (filter (fun r => negb (matches listing_id r)) rows) in
      ret true
  | None => ret false
  end.

(** A column compared with a query parameter: only a string parameter can
    equal a string column. *)
Definition sql_eq (column parameter : value) : bool :=
  match parameter with
  | VStr s => eq_str column s
  | _ => false
  end.

Definition sql_ilike (column : value) (pattern : string) : bool :=
  match column with
  | VStr s => ilike pattern s
  | _ => false
  end.

Definition where_ (criteria : dict) (key column : string) (listing : row) : bool :=
  if truthy (get criteria key VNone)
  then sql_eq (Listing.getattr listing column) (get criteria key VNone)
  else true.

Definition selected (criteria : dict) (listing : row) : bool :=
  (if truthy (get criteria "keyword" VNone)
   then let keyword := ("%" ++ py_str (get criteria "keyword" VNone) ++ "%")%string in
        sql_ilike (Listing.getattr listing "title") keyword
        || sql_ilike (Listing.getattr listing "description") keyword
   else true)
  && where_ criteria "status" "status" listing
  && where_ criteria "category" "category_id" listing
  && where_ criteria "user_id" "user_id" listing.

Definition search_listings (criteria : dict) : M (list row) :=
  let* rows := table in
  ret (filter (selected criteria) rows).

End Store.
End DatabaseService.

(** ** Payload models: [backend/agents/ebay_agent.py] and
       [backend/models/schemas.py]

    A pydantic model is a record that exists only once its payload passed
    validation: [parse] is the constructor. Field values are converted as
    the validator of pydantic 2 does outside strict mode: a [float] field
    takes a float, an integer, a boolean or the text of a number; an [int]
    field takes an integer, a boolean, a float that is a whole number or
    the text of an integer; a [bool] field takes a boolean, 0 or 1, or one
    of the texts the validator reads as a boolean; a field declared [str]
    takes a string only. *)

Definition ValidationError (msg : string) : exn := Raise "ValidationError" msg.

Section Fields.

Context {P : Platform}.

Definition required (payload : dict) (field : string) : result value :=
  match lookup field payload with
  | Some v => inr v
  | None => inl (ValidationError (field ++ ": field required"))
  end.

Definition invalid {A} (field msg : string) : result A :=
  inl (ValidationError (field ++ ": " ++ msg)).

Definition str_field (field : string) (v : value) : result string :=
  match v with
  | VStr s => inr s
  | _ => invalid field "str type expected"
  end.

Definition float_field (field : string) (v : value) : result float :=
  match py_float v with
  | inr f => inr f
  | inl _ => invalid field "value is not a valid float"
  end.

(** A float with a fractional part, an infinity or a NaN is refused, not
    truncated. *)
Definition int_field (field : string) (v : value) : result Z :=
  match v with
  | VInt z => inr z
  | VBool b => inr (bool_to_Z b)
  | VFloat f =>
      match whole f with
      | Some z => inr z
      | None => invalid field "value is not a valid integer"
      end
  | VStr s =>
      match int_of_str s with
      | Some z => inr z
      | None => invalid field "value is not a valid integer"
      end
  | _ => invalid field "value is not a valid integer"
  end.

(** The texts that the validator reads as a boolean, whatever their case. *)
Definition bool_of_text (s : string) : option bool :=
  let t := lower s in
  if String.eqb s "0" || existsb (String.eqb t) ["f"; "n"; "no"; "off"; "false"]
  then Some false
  else if String.eqb s "1" || existsb (String.eqb t) ["t"; "y"; "on"; "yes"; "true"]
  then Some true
  else None.

Definition bool_of_Z (field : string) (z : Z) : result bool :=
  if z =? 0 then inr false
  else if z =? 1 then inr true
  else invalid field "value could not be parsed to a boolean".

Definition bool_field (field : string) (v : value) : result bool :=
  match v with
  | VBool b => inr b
  | VInt z => bool_of_Z field z
  | VFloat f =>
      match whole f with
      | Some z => bool_of_Z field z
      | None => invalid field "value could not be parsed to a boolean"
      end
  | VStr s =>
      match bool_of_text s with
      | Some b => inr b
      | None => invalid field "value could not be parsed to a boolean"
      end
  | _ => invalid field "value could not be parsed to a boolean"
  end.

Definition dict_field (field : string) (v : value) : result dict :=
  match v with
  | VDict items => inr items
  | _ => invalid field "value is not a valid dict"
  end.

Definition list_field {A} (field : string) (item : string -> value -> result A)
    (v : value) : result (list A) :=
  match v with
  | VList l => rmap (item field) l
  | _ => invalid field "value is not a valid list"
  end.

Definition str_dict_field (field : string) (v : value) : result (list (string * string)) :=
  match v with
  | VDict items =>
      rmap (fun kv => let? s := str_field field (snd kv) in inr (fst kv, s)) items
  | _ => invalid field "value is not a valid dict"
  end.

Definition optional {A} (payload : dict) (field : string)
    (conv : string -> value -> result A) : result (option A) :=
  match lookup field payload with
  | None | Some VNone => inr None
  | Some v => let? a := conv field v in inr (Some a)
  end.

(** [Field(..., gt=0)] on a float and [Field(..., ge=0)] on an integer. *)
Definition gt0 (field : string) (f : float) : result float :=
  if PrimFloat.ltb 0%float f then inr f
  else invalid field "ensure this value is greater than 0".

Definition ge0 (field : string) (z : Z) : result Z :=
  if 0 <=? z then inr z
  else invalid field "ensure this value is greater than or equal to 0".

End Fields.

Module ListingDetails.

Record t : Type := make {
  title : string;
  description : string;
  price : float;
  quantity : Z;
  category_id : string;
  condition : string;
  images : list string;
  item_specifics : list (string * string);
  shipping_options : list dict
}.

Section Validation.

Context {P : Platform}.

Definition parse (payload : dict) : result t :=
  let? title := rbind (required payload "title") (str_field "title") in
  let? description := rbind (required payload "description") (str_field "description") in
  let? price := rbind (required payload "price") (float_field "price") in
  let? price := gt0 "price" price in
  let? quantity := rbind (required payload "quantity") (int_field "quantity") in
  let? quantity := ge0 "quantity" quantity in
  let? category_id := rbind (required payload "category_id") (str_field "category_id") in
  let? condition := rbind (required payload "condition") (str_field "condition") in
  let? images := list_field "images" str_field (get payload "images" (VList [])) in
  let? item_specifics :=
    str_dict_field "item_specifics" (get payload "item_specifics" (VDict [])) in
  let? shipping_options :=
    list_field "shipping_options" dict_field (get payload "shipping_options" (VList [])) in
  inr (make title description price quantity category_id condition
            images item_specifics shipping_options).

End Validation.

(** [details.dict()] *)
Definition dict (d : t) : dict :=
  [ ("title", VStr (title d));
    ("description", VStr (description d));
    ("price", VFloat (price d));
    ("quantity", VInt (quantity d));
    ("category_id", VStr (category_id d));
    ("condition", VStr (condition d));
    ("images", VList (map VStr (images d)));
    ("item_specifics", VDict (map (fun kv => (fst kv, VStr (snd kv))) (item_specifics d)));
    ("shipping_options", VList (map VDict (shipping_options d))) ].

End ListingDetails.

Module ListingUpdate.

Record t : Type := make { listing_id : string; updates : dict }.

Section Validation.

Context {P : Platform}.

Definition parse (payload : dict) : result t :=
  let? listing_id := rbind (required payload "listing_id") (str_field "listing_id") in
  let? updates := rbind (required payload "updates") (dict_field "updates") in
  inr (make listing_id updates).

End Validation.
End ListingUpdate.

Module ListingSearchCriteria.

Record t : Type := make {
  keyword : option string;
  status : option string;
  category : option string;
  date_from : option Z;
  date_to : option Z
}.

Section Validation.

Context {P : Platform}.

Definition datetime_field (field : string) (v : value) : result Z :=
  match v with
  | VDateTime t => inr t
  | _ => invalid field "invalid datetime format"
  end.

Definition parse (payload : dict) : result t :=
  let? keyword := optional payload "keyword" str_field in
  let? status := optional payload "status" str_field in
  let? category := optional payload "category" str_field in
  let? date_from := optional payload "date_from" datetime_field in
  let? date_to := optional payload "date_to" datetime_field in
  inr (make keyword status category date_from date_to).

End Validation.

Definition item {A} (key : string) (inj : A -> value) (field : option A) : dict :=
  match field with
  | Some a => [(key, inj a)]
  | None => []
  end.

(** [criteria.dict(exclude_none=True)] *)
Definition dict_exclude_none (c : t) : dict :=
  item "keyword" VStr (keyword c) ++ item "status" VStr (status c)
  ++ item "category" VStr (category c)
  ++ item "date_from" VDateTime (date_from c) ++ item "date_to" VDateTime (date_to c).

End ListingSearchCriteria.

(** *** [backend/models/schemas.py] *)

Module ItemCondition.

Inductive t : Type := NEW | LIKE_NEW | VERY_GOOD | GOOD | ACCEPTABLE | FOR_PARTS.

Definition value_of (c : t) : string :=
  match c with
  | NEW => "New"
  | LIKE_NEW => "Like New"
  | VERY_GOOD => "Very Good"
  | GOOD => "Good"
  | ACCEPTABLE => "Acceptable"
  | FOR_PARTS => "For parts or not working"
  end.

Definition members : list t := [NEW; LIKE_NEW; VERY_GOOD; GOOD; ACCEPTABLE; FOR_PARTS].

Definition parse (field : string) (v : value) : result t :=
  match find (fun c => eq_str v (value_of c)) members with
  | Some c => inr c
  | None => inl (ValidationError (field ++ ": value is not a valid enumeration member"))
  end.

End ItemCondition.

Module ShippingOption.

Record t : Type := make {
  service : string;
  cost : float;
  estimated_days : Z;
  free_shipping : bool
}.

Section Validation.

Context {P : Platform}.

Definition parse (field : string) (v : value) : result t :=
  let? payload := dict_field field v in
  let? service := rbind (required payload "service") (str_field "service") in
  let? cost := rbind (required payload "cost") (float_field "cost") in
  let? estimated_days :=
    rbind (required payload "estimated_days") (int_field "estimated_days") in
  let? free_shipping := bool_field "free_shipping" (get payload "free_shipping" (VBool false)) in
  inr (make service cost estimated_days free_shipping).

End Validation.

Definition dict (o : t) : dict :=
  [ ("service", VStr (service o));
    ("cost", VFloat (cost o));
    ("estimated_days", VInt (estimated_days o));
    ("free_shipping", VBool (free_shipping o)) ].

End ShippingOption.

Module ListingCreate.

(** An [HttpUrl] value: an object of the validator, not a string. *)
Definition Url (s : string) : value := VObj "Url" [("url", VStr s)].

Definition as_url (v : value) : option string :=
  match v with
  | VObj cls [(key, VStr s)] =>
      if String.eqb cls "Url" && String.eqb key "url" then Some s else None
  | _ => None
  end.

Record t : Type := make {
  title : string;
  description : string;
  price : float;
  quantity : Z;
  category_id : string;
  condition : ItemCondition.t;
  images : list string;
  item_specifics : list (string * string);
  shipping_options : list ShippingOption.t
}.

Section Validation.

Context {P : Platform}.

Definition min_length (field : string) (n : nat) (s : string) : result string :=
  if Nat.leb n (String.length s) then inr s
  else invalid field "ensure this value has at least the minimum number of characters".

Definition max_length (field : string) (n : nat) (s : string) : result string :=
  if Nat.leb (String.length s) n then inr s
  else invalid field "ensure this value has at most the maximum number of characters".

Definition max_items {A} (field : string) (n : nat) (l : list A) : result (list A) :=
  if Nat.leb (List.length l) n then inr l
  else invalid field "ensure this value has at most the maximum number of items".

(** A URL is given as its text, or as a URL object. *)
Definition url_field (field : string) (v : value) : result string :=
  let? s := match as_url v with
            | Some s => inr s
            | None => str_field field v
            end in
  if http_url s then inr s else invalid field "invalid or missing URL scheme".

Definition parse (payload : dict) : result t :=
  let? title := rbind (required payload "title") (str_field "title") in
  let? title := min_length "title" 1 title in
  let? title := max_length "title" 80 title in
  let? description := rbind (required payload "description") (str_field "description") in
  let? description := min_length "description" 1 description in
  let? price := rbind (required payload "price") (float_field "price") in
  let? price := gt0 "price" price in
  let? quantity := rbind (required payload "quantity") (int_field "quantity") in
  let? quantity := ge0 "quantity" quantity in
  let? category_id := rbind (required payload "category_id") (str_field "category_id") in
  let? condition := rbind (required payload "condition") (ItemCondition.parse "condition") in
  let? images := list_field "images" url_field (get payload "images" (VList [])) in
  let? images := max_items "images" 12 images in
  let? item_specifics :=
    str_dict_field "item_specifics" (get payload "item_specifics" (VDict [])) in
  let? shipping_options :=
    list_field "shipping_options" ShippingOption.parse
      (get payload "shipping_options" (VList [])) in
  inr (make title description price quantity category_id condition
            images item_specifics shipping_options).

End Validation.

(** [listing.dict()]: an enumeration member is a string, a URL is a URL
    object. *)
Definition dict (l : t) : dict :=
  [ ("title", VStr (title l));
    ("description", VStr (description l));
    ("price", VFloat (price l));
    ("quantity", VInt (quantity l));
    ("category_id", VStr (category_id l));
    ("condition", VStr (ItemCondition.value_of (condition l)));
    ("images", VList (map Url (images l)));
    ("item_specifics", VDict (map (fun kv => (fst kv, VStr (snd kv))) (item_specifics l)));
    ("shipping_options", VList (map (fun o => VDict (ShippingOption.dict o)) (shipping_options l))) ].

End ListingCreate.

(** ** The agent facade: [backend/agents/ebay_agent.py] *)

(** The LLM-backed agent runtime: [agent.run(user_input)] may do anything
    to the world through the tools it was given. *)
Class AgentRuntime {P : Platform} : Type := {
  agent_run : value -> M value
}.

(** A registered tool: [function] receives the positional arguments of the
    call. A tool with a [parameters_model] takes one payload and validates
    it into the model before its handler runs. *)
Record Tool {P : Platform} : Type := mkTool {
  name : string;
  description : string;
  function : list value -> M dict
}.

Arguments mkTool {P} name description function.
Arguments name {P} _.
Arguments description {P} _.
Arguments function {P} _ _.

Module EbayListingAgent.
Section Agent.

Context {P : Platform} {R : AgentRuntime}.

Definition _validate_listing (details : ListingDetails.t) : M ListingDetails.t :=
  ret details.

Definition _analyze_pricing (listing : dict) : M value :=
  let* price := lift (getitem listing "price") in
  ret (VDict [("competitive", VBool true); ("suggested_price", price)]).

Definition _get_suggestions (listing : dict) : M value :=
  let suggestions := [] in
  let* n := lift (py_len (get listing "title" (VStr ""))) in
  let suggestions :=
    if Nat.ltb n 50
    then suggestions ++ [VStr "Consider adding more keywords to your title"]
    else suggestions in
  let* n := lift (py_len (get listing "images" (VList []))) in
  let suggestions :=
    if Nat.ltb n 3
    then suggestions ++ [VStr "Add more images to increase buyer confidence"]
    else suggestions in
  ret (VList suggestions).

Definition _analyze_competitors (listing : dict) : M value :=
  ret (VDict [("average_price", VInt 0); ("total_competitors", VInt 0)]).

Definition _merge_listings (ebay local : list value) : list value :=
  ebay ++ local.

Definition _optimize_title (title : value) : M value := ret title.

Definition _optimize_description (description : value) : M value := ret description.

Definition _extract_keywords (listing : dict) : M value := ret (VList []).

Definition _optimize_pricing (listing : dict) : M value :=
  let* price := lift (getitem listing "price") in
  ret (VDict [("suggested_price", price)]).

Definition _suggest_image_improvements (images : value) : M value :=
  ret (VList [VStr "Add more product angles"; VStr "Improve lighting"]).

(** The [except Exception as e] arm shared by the handlers. *)
Definition failure (message : string) (e : exn) : M dict :=
  ret [ ("success", VBool false);
        ("error", VStr (exn_str e));
        ("message", VStr message) ].

(** The [try] block of [create_listing]. *)
Definition create_listing_try (details : ListingDetails.t) : M dict :=
  let* validated := _validate_listing details in
  let* result := EbayService.create_listing (ListingDetails.dict validated) in
  let* _ := DatabaseService.store_listing result in
  let* listing_id := lift (getitem result "listing_id") in
  let* url := lift (getitem result "listing_url") in
  ret [ ("success", VBool true);
        ("listing_id", listing_id);
        ("url", url);
        ("message", VStr "Listing created successfully") ].

Definition create_listing (details : ListingDetails.t) : M dict :=
  try_except (create_listing_try details) (failure "Failed to create listing").

(** The [try] block of [update_listing]. *)
Definition update_listing_try (update : ListingUpdate.t) : M dict :=
  let* current := EbayService.get_listing (ListingUpdate.listing_id update) in
  let updated := dict_merge current (ListingUpdate.updates update) in
  let* result :=
    EbayService.update_listing (ListingUpdate.listing_id update) updated in
  let* _ :=
    DatabaseService.update_listing (ListingUpdate.listing_id update) updated in
  ret [ ("success", VBool true);
        ("listing_id", VStr (ListingUpdate.listing_id update));
        ("updated_fields", VList (map VStr (keys (ListingUpdate.updates update))));
        ("message", VStr "Listing updated successfully") ].

Definition update_listing (update : ListingUpdate.t) : M dict :=
  try_except (update_listing_try update) (failure "Failed to update listing").

(** The [try] block of [search_listings]. *)
Definition search_listings_try (criteria : ListingSearchCriteria.t) : M dict :=
  let* ebay_results :=
    EbayService.search_listings (ListingSearchCriteria.dict_exclude_none criteria) in
  let* local_results :=
    DatabaseService.search_listings (ListingSearchCriteria.dict_exclude_none criteria) in
  let all_listings :=
    _merge_listings ebay_results (map (VObj "Listing") local_results) in
  ret [ ("success", VBool true);
        ("count", VInt (Z.of_nat (List.length all_listings)));
        ("listings", VList all_listings);
        ("message",
         VStr ("Found " ++ str_of_nat (List.length all_listings) ++ " listings")) ].

Definition search_listings (criteria : ListingSearchCriteria.t) : M dict :=
  try_except (search_listings_try criteria) (failure "Search failed").

(** The [try] block of [analyze_listing]. *)
Definition analyze_listing_try (listing_id : string) : M dict :=
  let* listing := EbayService.get_listing listing_id in
  let* analytics := EbayService.get_listing_analytics listing_id in
  let* pricing := _analyze_pricing listing in
  let* suggestions := _get_suggestions listing in
  let* competitors := _analyze_competitors listing in
  let insights :=
    [ ("views", get analytics "view_count" (VInt 0));
      ("watchers", get analytics "watch_count" (VInt 0));
      ("conversion_rate", get analytics "conversion_rate" (VInt 0));
      ("price_competitiveness", pricing);
      ("optimization_suggestions", suggestions);
      ("competitor_analysis", competitors) ] in
  ret [ ("success", VBool true);
        ("listing_id", VStr listing_id);
        ("insights", VDict insights);
        ("message", VStr "Analysis complete") ].

Definition analyze_listing (listing_id : string) : M dict :=
  try_except (analyze_listing_try listing_id) (failure "Analysis failed").

(** One turn of the loop of [bulk_update]. *)
Definition bulk_update_item (updates : dict) (listing_id : string) : M dict :=
  try_except
    (let* result := EbayService.update_listing listing_id updates in
     ret [ ("listing_id", VStr listing_id); ("success", VBool true) ])
    (fun e =>
       ret [ ("listing_id", VStr listing_id);
             ("success", VBool false);
             ("error", VStr (exn_str e)) ]).

Fixpoint bulk_update_loop (listing_ids : list string) (updates : dict)
    (results : list dict) : M (list dict) :=
  match listing_ids with
  | [] => ret results
  | listing_id :: rest =>
      let* entry := bulk_update_item updates listing_id in
      bulk_update_loop rest updates (results ++ [entry])
  end.

(** [sum(1 for r in results if r["success"])] *)
Definition success_count (results : list dict) : nat :=
  List.length (filter (fun r => truthy (get r "success" VNone)) results).

Definition bulk_update (listing_ids : list string) (updates : dict) : M dict :=
  let* results := bulk_update_loop listing_ids updates [] in
  let success_count := success_count results in
  ret [ ("success", VBool (Nat.ltb 0 success_count));
        ("total", VInt (Z.of_nat (List.length listing_ids)));
        ("successful", VInt (Z.of_nat success_count));
        ("failed", VInt (Z.of_nat (List.length listing_ids) - Z.of_nat success_count));
        ("results", VList (map VDict results));
        ("message",
         VStr ("Updated " ++ str_of_nat success_count ++ " of "
               ++ str_of_nat (List.length listing_ids) ++ " listings")) ].

(** The [try] block of [suggest_categories]. *)
Definition suggest_categories_try (title description : string) : M dict :=
  let* suggestions := EbayService.get_category_suggestions title description in
  ret [ ("success", VBool true);
        ("suggestions", VList suggestions);
        ("message",
         VStr ("Found " ++ str_of_nat (List.length suggestions)
               ++ " category suggestions")) ].

Definition suggest_categories (title description : string) : M dict :=
  try_except (suggest_categories_try title description) (failure "Failed to get suggestions").

(** The [try] block of [optimize_listing]. *)
Definition optimize_listing_try (listing_id : string) : M dict :=
  let* listing := EbayService.get_listing listing_id in
  let* title := lift (getitem listing "title") in
  let* title := _optimize_title title in
  let* description := lift (getitem listing "description") in
  let* description := _optimize_description description in
  let* keywords := _extract_keywords listing in
  let* pricing := _optimize_pricing listing in
  let* images := lift (getitem listing "images") in
  let* images := _suggest_image_improvements images in
  let optimizations :=
    [ ("title", title);
      ("description", description);
      ("keywords", keywords);
      ("pricing", pricing);
      ("images", images) ] in
  ret [ ("success", VBool true);
        ("listing_id", VStr listing_id);
        ("optimizations", VDict optimizations);
        ("message", VStr "Optimization suggestions generated") ].

Definition optimize_listing (listing_id : string) : M dict :=
  try_except (optimize_listing_try listing_id) (failure "Optimization failed").

(** *** The tools as registered: argument validation, then the handler *)

Definition bad_call {A} : M A :=
  raise (TypeError "tool called with unexpected arguments").

Definition with_model {A} (parse : dict -> result A) (handler : A -> M dict)
    (args : list value) : M dict :=
  match args with
  | [VDict payload] => let* model := lift (parse payload) in handler model
  | _ => bad_call
  end.

Definition create_listing_tool : Tool :=
  mkTool "create_listing" "Create a new eBay listing"
    (with_model ListingDetails.parse create_listing).

Definition update_listing_tool : Tool :=
  mkTool "update_listing" "Update an existing eBay listing"
    (with_model ListingUpdate.parse update_listing).

Definition search_listings_tool : Tool :=
  mkTool "search_listings" "Search for listings based on criteria"
    (with_model ListingSearchCriteria.parse search_listings).

Definition analyze_listing_tool : Tool :=
  mkTool "analyze_listing" "Analyze listing performance and provide insights"
    (fun args =>
       match args with
       | [listing_id] =>
           let* listing_id := lift (str_field "listing_id" listing_id) in
           analyze_listing listing_id
       | _ => bad_call
       end).

Definition bulk_update_tool : Tool :=
  mkTool "bulk_update" "Update multiple listings at once"
    (fun args =>
       match args with
       | [listing_ids; updates] =>
           let* listing_ids := lift (list_field "listing_ids" str_field listing_ids) in
           let* updates := lift (dict_field "updates" updates) in
           bulk_update listing_ids updates
       | _ => bad_call
       end).

Definition get_category_suggestions_tool : Tool :=
  mkTool "suggest_categories" "Get category suggestions for a product"
    (fun args =>
       match args with
       | [title; description] =>
           let* title := lift (str_field "title" title) in
           let* description := lift (str_field "description" description) in
           suggest_categories title description
       | _ => bad_call
       end).

Definition optimize_listing_tool : Tool :=
  mkTool "optimize_listing" "Optimize listing for better visibility and sales"
    (fun args =>
       match args with
       | [listing_id] =>
           let* listing_id := lift (str_field "listing_id" listing_id) in
           optimize_listing listing_id
       | _ => bad_call
       end).

(** [self.agent.tools] *)
Definition tools : list Tool :=
  [ create_listing_tool;
    update_listing_tool;
    search_listings_tool;
    analyze_listing_tool;
    bulk_update_tool;
    get_category_suggestions_tool;
    optimize_listing_tool ].

Definition process_request (user_input : value) : M value :=
  agent_run user_input.

End Agent.
End EbayListingAgent.

(** ** The protocol server: [backend/mcp/server.py] *)

Module EbayMCPServer.

Record TextContent : Type := mkTextContent { type : string; text : string }.

(** [is_error] is [False] unless given. *)
Record ToolResult : Type := mkToolResult {
  content : list TextContent;
  is_error : bool
}.

Record CallToolRequest : Type := mkCallToolRequest {
  request_name : string;
  arguments : dict
}.

(** [self.tools]: the registered names with their descriptions (the input
    schemas are data for the client and are not consulted by the server). *)
Definition tools : list (string * string) :=
  [ ("create_listing", "Create a new eBay listing");
    ("update_listing", "Update an existing eBay listing");
    ("search_listings", "Search for eBay listings");
    ("analyze_listing", "Analyze listing performance");
    ("bulk_operations", "Perform bulk operations on listings");
    ("generate_report", "Generate sales and performance reports");
    ("ai_assistant", "Get AI assistance for eBay listing management") ].

Definition registered (tool_name : string) : bool :=
  existsb (fun t => String.eqb (fst t) tool_name) tools.

Definition newline : string := String (ascii_of_nat 10) EmptyString.

Section Server.

Context {P : Platform} {R : AgentRuntime}.

(** [next(t for t in self.ebay_agent.agent.tools if t.name == wanted)] *)
Definition agent_tool (wanted : string) : M Tool :=
  match find (fun t => String.eqb (name t) wanted) EbayListingAgent.tools with
  | Some t => ret t
  | None => raise (Raise "StopIteration" "")
  end.

Definition _create_listing (args : dict) : M dict :=
  let* title := lift (getitem args "title") in
  let* description := lift (getitem args "description") in
  let* price := lift (getitem args "price") in
  let* category_id := lift (getitem args "category_id") in
  let listing_details :=
    [ ("title", title);
      ("description", description);
      ("price", price);
      ("quantity", get args "quantity" (VInt 1));
      ("category_id", category_id);
      ("condition", get args "condition" (VStr "New"));
      ("images", get args "images" (VList [])) ] in
  let* create_tool := agent_tool "create_listing" in
  function create_tool [VDict listing_details].

Definition _update_listing (args : dict) : M dict :=
  let* listing_id := lift (getitem args "listing_id") in
  let* updates := lift (getitem args "updates") in
  let update_data := [("listing_id", listing_id); ("updates", updates)] in
  let* update_tool := agent_tool "update_listing" in
  function update_tool [VDict update_data].

Definition _search_listings (args : dict) : M dict :=
  let search_criteria :=
    [ ("keyword", get args "keyword" VNone);
      ("status", get args "status" VNone);
      ("category", get args "category" VNone) ] in
  let* search_tool := agent_tool "search_listings" in
  function search_tool [VDict search_criteria].

Definition _analyze_listing (args : dict) : M dict :=
  let* analyze_tool := agent_tool "analyze_listing" in
  let* listing_id := lift (getitem args "listing_id") in
  function analyze_tool [listing_id].

(** The loops of the delete and relist branches: the body of the [try] is
    still to be written, so every turn records a success. *)
Definition recorded (listing_ids : list value) : list value :=
  map (fun listing_id => VDict [("listing_id", listing_id); ("success", VBool true)])
      listing_ids.

Definition _bulk_operations (args : dict) : M dict :=
  let* operation := lift (getitem args "operation") in
  let* listing_ids := lift (getitem args "listing_ids") in
  let data := get args "data" (VDict []) in
  if eq_str operation "update" then
    let* bulk_tool := agent_tool "bulk_update" in
    function bulk_tool [listing_ids; data]
  else
    let* results :=
      if eq_str operation "delete" then
        let* ids := lift (py_iter listing_ids) in ret (recorded ids)
      else if eq_str operation "relist" then
        let* ids := lift (py_iter listing_ids) in ret (recorded ids)
      else ret [] in
    let* total := lift (py_len listing_ids) in
    ret [ ("operation", operation);
          ("total", VInt (Z.of_nat total));
          ("results", VList results) ].

Definition _generate_sales_report (date_range : value) : M dict :=
  ret [ ("report_type", VStr "sales");
        ("date_range", date_range);
        ("total_sales", VInt 0);
        ("items_sold", VInt 0);
        ("revenue", VInt 0) ].

Definition _generate_performance_report (date_range : value) : M dict :=
  ret [ ("report_type", VStr "performance");
        ("date_range", date_range);
        ("views", VInt 0);
        ("conversion_rate", VInt 0);
        ("average_sale_price", VInt 0) ].

Definition _generate_inventory_report : M dict :=
  ret [ ("report_type", VStr "inventory");
        ("total_items", VInt 0);
        ("active_listings", VInt 0);
        ("out_of_stock", VInt 0) ].

Definition _generate_analytics_report (date_range : value) : M dict :=
  ret [ ("report_type", VStr "analytics");
        ("date_range", date_range);
        ("top_categories", VList []);
        ("best_sellers", VList []);
        ("trends", VList []) ].

Definition _generate_report (args : dict) : M dict :=
  let* report_type := lift (getitem args "report_type") in
  let date_range := get args "date_range" (VDict []) in
  if eq_str report_type "sales" then _generate_sales_report date_range
  else if eq_str report_type "performance" then _generate_performance_report date_range
  else if eq_str report_type "inventory" then _generate_inventory_report
  else if eq_str report_type "analytics" then _generate_analytics_report date_range
  else ret [("error", VStr "Unknown report type")].

Definition _ai_assistant (args : dict) : M dict :=
  let* query := lift (getitem args "query") in
  let context := get args "context" (VDict []) in
  let* query :=
    if truthy context then
      let* dumped := lift (json_dumps None context) in
      ret (VStr ("Context: " ++ dumped ++ newline ++ newline
                 ++ "Query: " ++ py_str query))
    else ret query in
  let* response := EbayListingAgent.process_request query in
  let* original := lift (getitem args "query") in
  let* t := now in
  ret [ ("query", original);
        ("response", response);
        ("timestamp", VStr (isoformat t)) ].

(** The [if]/[elif] chain of [handle_call_tool]. *)
Definition call (tool_name : string) (arguments : dict) : M dict :=
  if String.eqb tool_name "create_listing" then _create_listing arguments
  else if String.eqb tool_name "update_listing" then _update_listing arguments
  else if String.eqb tool_name "search_listings" then _search_listings arguments
  else if String.eqb tool_name "analyze_listing" then _analyze_listing arguments
  else if String.eqb tool_name "bulk_operations" then _bulk_operations arguments
  else if String.eqb tool_name "generate_report" then _generate_report arguments
  else if String.eqb tool_name "ai_assistant" then _ai_assistant arguments
  else raise (ValueError ("Unknown tool: " ++ tool_name)).

Definition error_envelope (e : exn) (tool_name : string) (t : Z) : value :=
  VDict [ ("error", VStr (exn_str e));
          ("tool", VStr tool_name);
          ("timestamp", VStr (isoformat t)) ].

Definition handle_call_tool (request : CallToolRequest) : M ToolResult :=
  let tool_name := request_name request in
  let arguments := arguments request in
  try_except
    (let* result := call tool_name arguments in
     let* text := lift (json_dumps (Some 2%nat) (VDict result)) in
     ret (mkToolResult [mkTextContent "text" text] false))
    (fun e =>
       let* t := now in
       let* text := lift (json_dumps None (error_envelope e tool_name t)) in
       ret (mkToolResult [mkTextContent "text" text] true)).

End Server.
End EbayMCPServer.

(** ** The REST layer: [backend/main.py] *)

Module Main.

(** [HTTPException(status_code, detail)]; its text is the status followed
    by the detail. *)
Definition HTTPException (status_code : Z) (detail : string) : exn :=
  Raise "HTTPException" (str_of_Z status_code ++ ": " ++ detail).

(** What the framework answers when the body does not validate against the
    declared model: status 422, the endpoint is not entered. *)
Definition RequestValidationError (e : exn) : exn :=
  Raise "RequestValidationError" (exn_str e).

Module ListingResponse.

(** The fields of [ListingResponse] that have no default. *)
Definition required_fields : list string :=
  [ "id"; "title"; "description"; "price"; "quantity"; "category_id";
    "condition"; "status"; "images"; "views"; "watchers"; "sold_quantity";
    "created_at"; "updated_at" ].

Definition parse (kwargs : dict) : result dict :=
  match find (fun f => negb (has_key f kwargs)) required_fields with
  | Some f => inl (ValidationError (f ++ ": field required"))
  | None => inr kwargs
  end.

End ListingResponse.

Section Endpoints.

Context {P : Platform} {R : AgentRuntime}.

(** [ebay_agent.agent.tools[i]] *)
Definition tool_at (i : nat) : M Tool :=
  match nth_error EbayListingAgent.tools i with
  | Some t => ret t
  | None => raise (Raise "IndexError" "list index out of range")
  end.

(** [POST /api/listings] with the JSON body of the request. *)
Definition create_listing (body : dict) : M value :=
  match ListingCreate.parse body with
  | inl e => raise (RequestValidationError e)
  | inr listing =>
      try_except
        (let* tool := tool_at 0 in
         let* result := function tool [VDict (ListingCreate.dict listing)] in
         let* success := lift (getitem result "success") in
         if negb (truthy success) then
           let* message := lift (getitem result "message") in
           raise (HTTPException 400 (py_str message))
         else
           let* response := lift (ListingResponse.parse result) in
           ret (VDict response))
        (fun e => raise (HTTPException 500 (exn_str e)))
  end.

(** The two calls in the [try] block of the delete loop. *)
Definition delete_both (listing_id : string) : M bool :=
  let* _ := EbayService.delete_listing listing_id in
  DatabaseService.delete_listing listing_id.

(** One turn of the delete loop of [perform_bulk_operation]. *)
Definition delete_item (listing_id : string) : M dict :=
  try_except
    (let* _ := delete_both listing_id in
     ret [ ("listing_id", VStr listing_id); ("success", VBool true) ])
    (fun e =>
       ret [ ("listing_id", VStr listing_id);
             ("success", VBool false);
             ("error", VStr (exn_str e)) ]).

Fixpoint delete_loop (listing_ids : list string) (results : list dict)
    : M (list dict) :=
  match listing_ids with
  | [] => ret results
  | listing_id :: rest =>
      let* entry := delete_item listing_id in
      delete_loop rest (results ++ [entry])
  end.

Definition perform_bulk_operation (operation : string) (listing_ids : list string)
    (data : option dict) (user_id : string) : M dict :=
  if String.eqb operation "update"
     && match data with Some d => truthy (VDict d) | None => false end
  then
    let* tool := tool_at 4 in
    function tool [ VList (map VStr listing_ids);
                    match data with Some d => VDict d | None => VNone end ]
  else if String.eqb operation "delete" then
    let* results := delete_loop listing_ids [] in
    let success_count := EbayListingAgent.success_count results in
    ret [ ("operation", VStr operation);
          ("total", VInt (Z.of_nat (List.length listing_ids)));
          ("successful", VInt (Z.of_nat success_count));
          ("failed", VInt (Z.of_nat (List.length listing_ids) - Z.of_nat success_count));
          ("results", VList (map VDict results)) ]
  else raise (ValueError ("Unsupported operation: " ++ operation)).

End Endpoints.
End Main.

(** ** A marketplace to run the handlers on

    A small in-memory marketplace, store and runtime on which the handlers
    can be run: listings are kept by item id, [AddItem] numbers them from
    110, [GetItem] reports the start price as an amount with its currency,
    and a verb applied to an unknown item is acknowledged with a failure. *)

Module Fixture.

Record marketplace : Type := mkMarket {
  items : list (string * dict);
  added : nat
}.

Definition empty : marketplace := mkMarket [] 0.

Definition success (fields : dict) : value :=
  VDict (("Ack", VStr "Success") :: fields).

Definition failure (errors : string) : value :=
  VDict [("Ack", VStr "Failure"); ("Errors", VStr errors)].

Fixpoint find_item (item_id : string) (l : list (string * dict)) : option dict :=
  match l with
  | [] => None
  | (i, item) :: rest => if String.eqb i item_id then Some item else find_item item_id rest
  end.

(** The item as [GetItem] shows it. *)
Definition shown (item_id : string) (item : dict) : value :=
  VDict (dict_set "StartPrice"
           (VDict [("_currencyID", VStr "USD"); ("value", get item "StartPrice" VNone)])
           (dict_set "ItemID" (VStr item_id) item)).

Definition found (item : dict) : value :=
  VDict [ ("itemId", get item "ItemID" VNone);
          ("title", get item "Title" VNone);
          ("sellingStatus",
           VDict [("currentPrice", VDict [("value", get item "StartPrice" VNone)])]) ].

Definition item_id_of (data : value) : option string :=
  match data with
  | VDict d => match lookup "ItemID" d with Some (VStr i) => Some i | _ => None end
  | _ => None
  end.

Definition execute (api verb : string) (data : value) (m : marketplace)
    : result value * marketplace :=
  if String.eqb verb "AddItem" then
    match py_getitem data "Item" with
    | inr (VDict item) =>
        let item_id := str_of_nat (110 + added m) in
        (inr (success [("ItemID", VStr item_id); ("Fees", VDict [])]),
         mkMarket (items m ++ [(item_id, dict_set "ItemID" (VStr item_id) item)])
                  (S (added m)))
    | _ => (inr (failure "Item is missing"), m)
    end
  else if String.eqb verb "GetItem" then
    match item_id_of data with
    | Some item_id =>
        match find_item item_id (items m) with
        | Some item => (inr (success [("Item", shown item_id item)]), m)
        | None => (inr (failure "Item not found"), m)
        end
    | None => (inr (failure "ItemID is missing"), m)
    end
  else if String.eqb verb "ReviseItem" then
    match py_getitem data "Item" with
    | inr (VDict revised) =>
        match item_id_of (VDict revised) with
        | Some item_id =>
            match find_item item_id (items m) with
            | Some item =>
                (inr (success [("Fees", VDict [])]),
                 mkMarket
                   (map (fun kv => if String.eqb (fst kv) item_id
                                   then (fst kv, dict_merge (snd kv) revised) else kv)
                        (items m))
                   (added m))
            | None => (inr (failure "Item not found"), m)
            end
        | None => (inr (failure "ItemID is missing"), m)
        end
    | _ => (inr (failure "Item is missing"), m)
    end
  else if String.eqb verb "EndItem" then
    match item_id_of data with
    | Some item_id =>
        match find_item item_id (items m) with
        | Some _ =>
            (inr (success []),
             mkMarket (filter (fun kv => negb (String.eqb (fst kv) item_id)) (items m))
                      (added m))
        | None => (inr (failure "Item not found"), m)
        end
    | None => (inr (failure "ItemID is missing"), m)
    end
  else if String.eqb verb "findItemsAdvanced" then
    (inr (VDict [("searchResult", VDict [("item", VList (map (fun kv => found (snd kv)) (items m)))])]),
     m)
  else (inl (Raise "ConnectionError" ("unsupported verb " ++ verb)), m).

(** The names that every mapped object has: [metadata], [registry] and
    the names that start with an underscore. *)
Definition base_attribute (key : string) : bool :=
  existsb (String.eqb key) ["metadata"; "registry"] || String.prefix "_" key.

(** Reading a relationship that needs a query raises: [analytics] always
    does, [user] does when the row has a user. *)
Definition load (listing : dict) (key : string) : option exn :=
  if String.eqb key "user" then
    match get listing "user_id" VNone with
    | VNone => None
    | _ => Some (Raise "MissingGreenlet" "greenlet_spawn has not been called")
    end
  else Some (Raise "MissingGreenlet" "greenlet_spawn has not been called").

(** Assigning [None] or an object to [user] sets the foreign key at the
    next flush; an inherited attribute is no column. *)
Definition assign (listing : dict) (key : string) (v : value) : result dict :=
  if String.eqb key "user" then
    match v with
    | VObj _ attrs => inr (dict_set "user_id" (get attrs "id" VNone) listing)
    | _ => inr (dict_set "user_id" VNone listing)
    end
  else inr listing.

#[export] Instance platform : Platform := {|
  Market := marketplace;
  sdk_execute := execute;
  utc_clock := fun n => Z.of_nat n + 1700000000;
  local_clock := fun n => Z.of_nat n + 1700000000;
  uuid4 := fun n => ("uuid-" ++ str_of_nat n)%string;
  isoformat := str_of_Z;
  py_repr := fun _ => "<object>";
  json_text := fun _ _ => "<json>";
  float_of_str := fun _ => None;
  int_of_str := fun _ => None;
  ilike := fun _ _ => true;
  http_url := fun _ => true;
  commit_error := fun _ _ => None;
  inherited := base_attribute;
  orm_load := load;
  orm_assign := assign
|}.

#[export] Instance runtime : AgentRuntime := {|
  agent_run := fun _ => ret (VStr "Done.")
|}.

Definition world : World := mkWorld empty [] [] 0 0.

(** The binary64 float nearest to 49.99. *)
Definition price_49_99 : float := 0x1.8feb851eb851fp+5%float.

Definition camera : dict :=
  [ ("title", VStr "Vintage Camera");
    ("description", VStr "A working rangefinder");
    ("price", VFloat price_49_99);
    ("quantity", VInt 1);
    ("category_id", VStr "625");
    ("condition", VStr "Good") ].

Definition camera_details : ListingDetails.t :=
  ListingDetails.make "Vintage Camera" "A working rangefinder" price_49_99 1
                      "625" "Good" [] [] [].

(** The same camera offered for nothing. *)
Definition free_camera : dict :=
  [ ("title", VStr "Vintage Camera");
    ("description", VStr "A working rangefinder");
    ("price", VFloat 0%float);
    ("quantity", VInt 1);
    ("category_id", VStr "625");
    ("condition", VStr "Good") ].

(** The same camera with half a unit owed. *)
Definition owed_camera : dict :=
  [ ("title", VStr "Vintage Camera");
    ("description", VStr "A working rangefinder");
    ("price", VFloat price_49_99);
    ("quantity", VFloat (-0.5)%float);
    ("category_id", VStr "625");
    ("condition", VStr "Good") ].

(** The world once the camera has been listed twice, as items 110 and 111. *)
Definition stocked : World :=
  snd (EbayService.create_listing camera
         (snd (EbayService.create_listing camera world))).

End Fixture.

(** ** Reading a bulk report *)

Module Report.

(** The entry that one turn of a bulk loop records for [listing_id], given
    how the work of that turn ended. *)
Definition entry {A} (listing_id : string) (outcome : result A) : dict :=
  match outcome with
  | inr _ => [ ("listing_id", VStr listing_id); ("success", VBool true) ]
  | inl e => [ ("listing_id", VStr listing_id);
               ("success", VBool false);
               ("error", VStr (exn_str e)) ]
  end.

(** The turns of a bulk loop one after the other: each turn runs [work] in
    the world that the turn before left behind. *)
Fixpoint entries {P : Platform} {A} (work : string -> M A)
    (listing_ids : list string) (w : World) : list dict * World :=
  match listing_ids with
  | [] => ([], w)
  | listing_id :: rest =>
      let '(outcome, w1) := work listing_id w in
      let '(es, w2) := entries work rest w1 in
      (entry listing_id outcome :: es, w2)
  end.

(** The ids that the entries of a result list carry, in order. *)
Definition ids_of (results : list value) : list value :=
  map (fun r => match r with VDict d => get d "listing_id" VNone | _ => VNone end)
      results.

(** How many entries of a result list carry [listing_id]. *)
Definition occurrences (listing_id : string) (results : list value) : nat :=
  List.length (filter (fun v => eq_str v listing_id) (ids_of results)).

(** A report with counters accounts for the input list. *)
Definition counted (listing_ids : list string) (d : dict) : Prop :=
  exists (successful : nat) (failed : Z) (results : list value),
    lookup "total" d = Some (VInt (Z.of_nat (List.length listing_ids)))
    /\ lookup "successful" d = Some (VInt (Z.of_nat successful))
    /\ lookup "failed" d = Some (VInt failed)
    /\ 0 <= failed
    /\ Z.of_nat successful + failed = Z.of_nat (List.length listing_ids)
    /\ lookup "results" d = Some (VList results)
    /\ ids_of results = map VStr listing_ids
    /\ forall listing_id,
         occurrences listing_id results = count_occ string_dec listing_ids listing_id.

(** The report as the specification words it: the three counters, which
    add up, and every id of the input exactly once in the result list. *)
Definition as_specified (listing_ids : list string) (d : dict) : Prop :=
  exists (total successful failed : Z) (results : list value),
    lookup "total" d = Some (VInt total)
    /\ lookup "successful" d = Some (VInt successful)
    /\ lookup "failed" d = Some (VInt failed)
    /\ successful + failed = total
    /\ total = Z.of_nat (List.length listing_ids)
    /\ lookup "results" d = Some (VList results)
    /\ forall listing_id,
         In listing_id listing_ids -> occurrences listing_id results = 1%nat.

(** A report without counters still lists the input. *)
Definition listed (listing_ids : list string) (d : dict) : Prop :=
  exists results : list value,
    lookup "total" d = Some (VInt (Z.of_nat (List.length listing_ids)))
    /\ lookup "results" d = Some (VList results)
    /\ ids_of results = map VStr listing_ids
    /\ forall listing_id,
         occurrences listing_id results = count_occ string_dec listing_ids listing_id.

End Report.

(** ** Reading a handler envelope *)

Module Envelope.

(** The uniform shape: a boolean [success] and a string [message]. *)
Definition uniform (d : dict) : Prop :=
  exists (flag : bool) (message : string),
    lookup "success" d = Some (VBool flag)
    /\ lookup "message" d = Some (VStr message).

(** [handler] is [body] guarded by a [try]: what [body] returns is handed
    on and is a success envelope, what it raises becomes the failure
    envelope with the given message, in the world that [body] left. *)
Definition guarded {P : Platform} (body handler : M dict) (message : string) : Prop :=
  forall w,
    match body w with
    | (inr d, w') =>
        handler w = (inr d, w')
        /\ lookup "success" d = Some (VBool true)
        /\ exists s, lookup "message" d = Some (VStr s)
    | (inl e, w') =>
        handler w =
        (inr [ ("success", VBool false);
               ("error", VStr (exn_str e));
               ("message", VStr message) ], w')
    end.

(** [handler] never raises and returns the uniform shape. *)
Definition enveloped {P : Platform} (handler : M dict) : Prop :=
  forall w, exists d w', handler w = (inr d, w') /\ uniform d.

End Envelope.

(** ** Reading a listing payload *)

Module Payload.

Section Reading.

Context {P : Platform}.

(** A price at most zero: a value that the validator reads as a float at
    most zero, or an integer at most zero that is too large for a float. *)
Definition at_most_zero (v : value) : Prop :=
  match py_float v with
  | inr p => PrimFloat.leb p 0%float = true
  | inl _ => match v with VInt z => z <= 0 | _ => False end
  end.

(** The payload carries a price at most zero. *)
Definition nonpositive_price (payload : dict) : Prop :=
  exists v, lookup "price" payload = Some v /\ at_most_zero v.

(** A quantity below zero: a float below zero, whole or not, or a value
    that reads as an integer below zero. *)
Definition below_zero (v : value) : Prop :=
  match v with
  | VFloat f => PrimFloat.ltb f 0%float = true
  | _ => exists q, py_int v = inr q /\ q < 0
  end.

(** The payload carries a quantity below zero. *)
Definition negative_quantity (payload : dict) : Prop :=
  exists v, lookup "quantity" payload = Some v /\ below_zero v.

End Reading.

(** A validation step fails with a [ValidationError] only. *)
Definition rejecting {A} (r : result A) : Prop :=
  forall e, r = inl e -> exn_class e = "ValidationError".

End Payload.

(** ** What the round trip asks of the marketplace *)

Module RoundTrip.

Section Echo.

Context {P : Platform}.

(** The containers that [_parse_listing] reads through. *)
Definition nested : list string :=
  [ "PrimaryCategory"; "PictureDetails"; "SellingStatus"; "ListingDetails" ].

Definition well_formed (stored : dict) : Prop :=
  forall k, In k nested -> exists sub, get stored k (VDict []) = VDict sub.

(** The [GetItem] response [response] acknowledges success and shows an
    item that echoes the [AddItem] payload [sent]: the same title, a start
    price given as an amount whose [value] converts to the float that was
    sent, and a quantity that converts to the integer that was sent. *)
Definition echoes (sent response : value) : Prop :=
  exists (item fields stored amount : dict)
         (sent_price price_value sent_quantity quantity_value : value),
    sent = VDict [("Item", VDict item)]
    /\ response = VDict fields
    /\ lookup "Ack" fields = Some (VStr "Success")
    /\ lookup "Item" fields = Some (VDict stored)
    /\ well_formed stored
    /\ lookup "Title" stored = lookup "Title" item
    /\ lookup "StartPrice" item = Some sent_price
    /\ lookup "StartPrice" stored = Some (VDict amount)
    /\ lookup "value" amount = Some price_value
    /\ py_float price_value = py_float sent_price
    /\ lookup "Quantity" item = Some sent_quantity
    /\ lookup "Quantity" stored = Some quantity_value
    /\ py_int quantity_value = py_int sent_quantity.

End Echo.

End RoundTrip.

(** ** Who touches what *)

Module Frame.

Section Frames.

Context {P : Platform}.

(** [m] works on the marketplace only: the listings table, the clock and
    the identifier counter are as it found them, and the log of SDK calls
    has only grown. *)
Definition marketplace_only {A} (m : M A) : Prop :=
  forall w,
    listings (snd (m w)) = listings w
    /\ clock_reads (snd (m w)) = clock_reads w
    /\ uuids_drawn (snd (m w)) = uuids_drawn w
    /\ exists calls, sdk_calls (snd (m w)) = sdk_calls w ++ calls.

(** [m] works on the store only: it leaves the marketplace alone and makes
    no SDK call. *)
Definition store_only {A} (m : M A) : Prop :=
  forall w,
    market (snd (m w)) = market w
    /\ sdk_calls (snd (m w)) = sdk_calls w.

(** Every failure of [m] is an [Exception] whose text starts with [prefix]. *)
Definition rewrapped {A} (prefix : string) (m : M A) : Prop :=
  forall w e w',
    m w = (inl e, w') ->
    exists msg, e = Exception (prefix ++ msg).

(** The world after one SDK call that left the marketplace in state [m]. *)
Definition called (w : World) (api verb : string) (data : value) (m : Market)
    : World :=
  mkWorld m (listings w) (sdk_calls w ++ [(api, verb, data)])
          (clock_reads w) (uuids_drawn w).

(** [m] run in [w] makes the one SDK call [verb] with [data], which leaves
    the marketplace in state [m'], and raises an [Exception] whose text is
    [prefix] followed by [text]. *)
Definition fails_with {A} (m : M A) (w : World) (api verb : string)
    (data : value) (m' : Market) (prefix text : string) : Prop :=
  m w = (inl (Exception (prefix ++ text)), called w api verb data m').

End Frames.

End Frame.

(** ** A marketplace that answers from a script

    Its state is the list of the answers still to give: each SDK call,
    whatever its verb, takes the next one; when the script is over the
    connection fails. *)

Module Scripted.

Definition execute (api verb : string) (data : value) (script : list (result value))
    : result value * list (result value) :=
  match script with
  | answer :: rest => (answer, rest)
  | [] => (inl (Raise "ConnectionError" "no answer"), [])
  end.

Definition platform : Platform := {|
  Market := list (result value);
  sdk_execute := execute;
  utc_clock := fun n => Z.of_nat n;
  local_clock := fun n => Z.of_nat n;
  uuid4 := fun n => ("uuid-" ++ str_of_nat n)%string;
  isoformat := str_of_Z;
  py_repr := fun _ => "<object>";
  json_text := fun _ _ => "<json>";
  float_of_str := fun _ => None;
  int_of_str := fun _ => None;
  ilike := fun _ _ => true;
  http_url := fun _ => true;
  commit_error := fun _ _ => None;
  inherited := fun _ => false;
  orm_load := fun _ _ => None;
  orm_assign := fun listing _ _ => inr listing
|}.

Definition runtime : @AgentRuntime platform := {|
  agent_run := fun _ => ret (VStr "Done.")
|}.

(** The world in which the marketplace will give the answers of [script]. *)
Definition world (script : list (result value)) : @World platform :=
  @mkWorld platform script [] [] 0 0.

End Scripted.

(** ** The fields that a revision forwards *)

Module Revision.

(** The keys of an update that [update_listing] of the adapter maps to a
    marketplace field. *)
Definition mapped : list string :=
  [ "title"; "description"; "price"; "quantity"; "images" ].

Definition is_mapped (key : string) : bool := Listing.mem key mapped.

(** The part of an update that is made of mapped keys. *)
Definition forwarded (updates : dict) : dict :=
  filter (fun kv => is_mapped (fst kv)) updates.

End Revision.

(** ** The keys that [store_listing] subscripts *)

Module Stored.

(** In the order in which [store_listing] reads them. *)
Definition required_keys : list string :=
  [ "title"; "description"; "price"; "quantity"; "category_id"; "condition" ].

(** The first of them that [listing_data] does not have. *)
Definition first_missing (listing_data : dict) : option string :=
  find (fun k => negb (has_key k listing_data)) required_keys.

End Stored.

Module Written.

Section Row.

Context {P : Platform}.

(** The row that [store_listing] builds from [listing_data] when it draws
    the identifier [id] and reads the clock at [listed], [created] and
    [updated]: the keyword arguments of [Listing(...)], then the column
    defaults. *)
Definition row_of (listing_data : dict) (id : string) (listed created updated : Z)
    : row :=
  [ ("id", VStr id);
    ("ebay_listing_id", get listing_data "listing_id" VNone);
    ("user_id", get listing_data "user_id" VNone);
    ("title", get listing_data "title" VNone);
    ("description", get listing_data "description" VNone);
    ("price", get listing_data "price" VNone);
    ("quantity", get listing_data "quantity" VNone);
    ("category_id", get listing_data "category_id" VNone);
    ("condition", get listing_data "condition" VNone);
    ("status", VStr "active");
    ("images", get listing_data "images" (VList []));
    ("item_specifics", get listing_data "item_specifics" (VDict []));
    ("shipping_options", get listing_data "shipping_options" (VList []));
    ("views", VInt 0);
    ("watchers", VInt 0);
    ("sold_quantity", VInt 0);
    ("created_at", VDateTime created);
    ("updated_at", VDateTime updated);
    ("listed_at", VDateTime listed);
    ("ends_at", VNone) ].

(** The row written in the world [w]. *)
Definition row_in (listing_data : dict) (w : World) : row :=
  row_of listing_data (uuid4 (uuids_drawn w))
         (utc_clock (clock_reads w))
         (utc_clock (S (clock_reads w)))
         (utc_clock (S (S (clock_reads w)))).

(** The world after a table has been committed in place of the old one. *)
Definition with_table (table : list row) (w : World) : World :=
  mkWorld (market w) table (sdk_calls w) (clock_reads w) (uuids_drawn w).

End Row.

End Written.

(** ** The routes of the REST layer: [backend/main.py]

    Each route is entered with its parameters already validated by the
    framework against their declared types. *)

Module ReportType.

Inductive t : Type := SALES | PERFORMANCE | INVENTORY | ANALYTICS.

Definition value_of (r : t) : string :=
  match r with
  | SALES => "sales"
  | PERFORMANCE => "performance"
  | INVENTORY => "inventory"
  | ANALYTICS => "analytics"
  end.

End ReportType.

Module Routes.

(** [i] clamped to the bounds of a sequence of length [n], as slicing does:
    a negative index counts from the end. *)
Definition slice_index (n i : Z) : Z :=
  if i <? 0 then Z.max 0 (i + n) else Z.min i n.

(** [l[start:stop]] *)
Definition slice {A} (l : list A) (start stop : Z) : list A :=
  let n := Z.of_nat (List.length l) in
  let first := slice_index n start in
  let last := slice_index n stop in
  firstn (Z.to_nat (last - first)) (skipn (Z.to_nat first) l).

(** [v[start:stop]] *)
Definition py_slice (v : value) (start stop : Z) : result value :=
  match v with
  | VList l => inr (VList (slice l start stop))
  | VStr s =>
      inr (VStr (string_of_list_ascii (slice (list_ascii_of_string s) start stop)))
  | VDict _ => inl (TypeError "unhashable type: 'slice'")
  | _ => inl (TypeError "object is not subscriptable")
  end.

(** An optional query parameter. *)
Definition param (p : option string) : value :=
  match p with
  | Some s => VStr s
  | None => VNone
  end.

Section Endpoints.

Context {P : Platform} {R : AgentRuntime}.

(** The [except Exception as e] arm that closes every route. *)
Definition internal_error {A} (e : exn) : M A :=
  raise (Main.HTTPException 500 (exn_str e)).

(** [if not result["success"]: raise HTTPException(400, result["message"])] *)
Definition check (result : dict) : M unit :=
  let* success := lift (getitem result "success") in
  if negb (truthy success) then
    let* message := lift (getitem result "message") in
    raise (Main.HTTPException 400 (py_str message))
  else ret tt.

(** [PUT /api/listings/{listing_id}]; [updates] is
    [updates.dict(exclude_unset=True)]. *)
Definition update_listing (listing_id : string) (updates : dict) : M value :=
  try_except
    (let update_data :=
       [("listing_id", VStr listing_id); ("updates", VDict updates)] in
     let* tool := Main.tool_at 1 in
     let* result := function tool [VDict update_data] in
     let* _ := check result in
     ret (VDict result))
    internal_error.

(** [GET /api/listings] *)
Definition search_listings (keyword status category : option string)
    (limit offset : Z) : M value :=
  try_except
    (let criteria :=
       [ ("keyword", param keyword);
         ("status", param status);
         ("category", param category) ] in
     let* tool := Main.tool_at 2 in
     let* result := function tool [VDict criteria] in
     let* _ := check result in
     let* all := lift (getitem result "listings") in
     let* listings := lift (py_slice all offset (offset + limit)) in
     let* total := lift (getitem result "count") in
     ret (VDict [ ("total", total);
                  ("limit", VInt limit);
                  ("offset", VInt offset);
                  ("listings", listings) ]))
    internal_error.

(** [GET /api/listings/{listing_id}] *)
Definition get_listing (listing_id : string) : M value :=
  try_except
    (let* listing := EbayService.get_listing listing_id in
     if negb (truthy (VDict listing)) then
       raise (Main.HTTPException 404 "Listing not found")
     else ret (VDict listing))
    internal_error.

(** [DELETE /api/listings/{listing_id}] *)
Definition delete_listing (listing_id : string) : M value :=
  try_except
    (let* result := EbayService.delete_listing listing_id in
     let* _ := DatabaseService.delete_listing listing_id in
     ret (VDict [("success", VBool true); ("message", VStr "Listing deleted")]))
    internal_error.

(** [POST /api/listings/{listing_id}/analyze] *)
Definition analyze_listing (listing_id : string) : M value :=
  try_except
    (let* tool := Main.tool_at 3 in
     let* result := function tool [VStr listing_id] in
     let* _ := check result in
     lift (getitem result "insights"))
    internal_error.

(** [POST /api/reports]; a date range is a pair of datetimes. *)
Definition generate_report (report_type : ReportType.t)
    (date_range : option (Z * Z)) : M value :=
  try_except
    (let* result :=
       EbayMCPServer._generate_report
         [ ("report_type", VStr (ReportType.value_of report_type));
           ("date_range",
            match date_range with
            | Some (start, end_) =>
                VDict [("start", VDateTime start); ("end", VDateTime end_)]
            | None => VDict []
            end) ] in
     ret (VDict result))
    internal_error.

(** [POST /api/agent/query] *)
Definition query_agent (query : string) : M value :=
  try_except
    (let* response := EbayListingAgent.process_request (VStr query) in
     let* t := now in
     ret (VDict [ ("query", VStr query);
                  ("response", response);
                  ("timestamp", VStr (isoformat t)) ]))
    internal_error.

(** [GET /api/categories/suggest] *)
Definition suggest_categories (title description : string) : M value :=
  try_except
    (let* tool := Main.tool_at 5 in
     let* result := function tool [VStr title; VStr description] in
     let* _ := check result in
     lift (getitem result "suggestions"))
    internal_error.

(** The updates that [optimize_listing] applies when asked to. *)
Definition optimized_updates (optimizations : value) : result dict :=
  let? title := py_getitem optimizations "title" in
  let? description := py_getitem optimizations "description" in
  let? pricing := py_getitem optimizations "pricing" in
  let? price := py_getitem pricing "suggested_price" in
  inr [("title", title); ("description", description); ("price", price)].

(** [POST /api/listings/{listing_id}/optimize] *)
Definition optimize_listing (listing_id : string) (apply : bool) : M value :=
  try_except
    (let* tool := Main.tool_at 6 in
     let* result := function tool [VStr listing_id] in
     let* _ := check result in
     let* optimizations := lift (getitem result "optimizations") in
     if apply then
       let* updates := lift (optimized_updates optimizations) in
       let* update_tool := Main.tool_at 1 in
       let* update_result :=
         function update_tool
           [VDict [("listing_id", VStr listing_id); ("updates", VDict updates)]] in
       let* applied := lift (getitem update_result "success") in
       ret (VDict [("optimizations", optimizations); ("applied", applied)])
     else ret optimizations)
    internal_error.

End Endpoints.

End Routes.

(** ** The webhook of the protocol server: [backend/mcp/handlers.py]

    [json_loads] is [json.loads]; a request body is a JSON object. *)

Module MCPWebhookHandler.

Section Handler.

Context {P : Platform} {R : AgentRuntime}.

Variable json_loads : string -> result value.

(** [result.content[0].text] *)
Definition first_text (r : EbayMCPServer.ToolResult) : result string :=
  match EbayMCPServer.content r with
  | c :: _ => inr (EbayMCPServer.text c)
  | [] => inl (Raise "IndexError" "list index out of range")
  end.

(** [CallToolRequest(name=tool_name, arguments=arguments)] *)
Definition call_tool_request (tool_name arguments : value)
    : result EbayMCPServer.CallToolRequest :=
  let? name := str_field "name" tool_name in
  let? arguments := dict_field "arguments" arguments in
  inr (EbayMCPServer.mkCallToolRequest name arguments).

(** [POST /webhook/mcp] *)
Definition handle_webhook (body : dict) : M dict :=
  try_except
    (if negb (has_key "tool" body) || negb (has_key "arguments" body) then
       raise (Main.HTTPException 400 "Missing required fields: tool, arguments")
     else
       let* tool_name := lift (getitem body "tool") in
       let* arguments := lift (getitem body "arguments") in
       let* tool_request := lift (call_tool_request tool_name arguments) in
       let* result := EbayMCPServer.handle_call_tool tool_request in
       if EbayMCPServer.is_error result then
         let* detail := lift (first_text result) in
         raise (Main.HTTPException 500 detail)
       else
         let* text := lift (first_text result) in
         let* parsed := lift (json_loads text) in
         ret [("success", VBool true); ("result", parsed)])
    (fun e => raise (Main.HTTPException 500 (exn_str e))).

(** [POST /webhook/query] *)
Definition handle_natural_query (body : dict) : M dict :=
  try_except
    (let query := get body "query" (VStr "") in
     let context := get body "context" (VDict []) in
     if negb (truthy query) then
       raise (Main.HTTPException 400 "Query field is required")
     else
       let* result :=
         EbayMCPServer._ai_assistant [("query", query); ("context", context)] in
       ret [("success", VBool true); ("result", VDict result)])
    (fun e => raise (Main.HTTPException 500 (exn_str e))).

End Handler.

End MCPWebhookHandler.

(** ** How the routes answer *)

Module Status.

Section Answers.

Context {P : Platform}.

(** Every failure of [m] is an [HTTPException] with status 500. *)
Definition only_500 {A} (m : M A) : Prop :=
  forall w e w',
    m w = (inl e, w') -> exists detail, e = Main.HTTPException 500 detail.

End Answers.

End Status.

(** ** What a reading of the marketplace looks like *)

Module Reading.

(** The shape of what [_parse_listing] returns: its thirteen keys in order,
    the price a float and the quantity an integer. *)
Definition parsed (listing : dict) : Prop :=
  exists listing_id title description price quantity category_id condition
         images status views watchers listed_at ends_at,
    listing = [ ("listing_id", listing_id);
                ("title", title);
                ("description", description);
                ("price", VFloat price);
                ("quantity", VInt quantity);
                ("category_id", category_id);
                ("condition", condition);
                ("images", images);
                ("status", status);
                ("views", views);
                ("watchers", watchers);
                ("listed_at", listed_at);
                ("ends_at", ends_at) ].

(** The columns of [Listing] that a reading of the marketplace carries. *)
Definition read_columns : list string :=
  [ "title"; "description"; "price"; "quantity"; "category_id"; "condition";
    "images"; "status"; "views"; "watchers"; "listed_at"; "ends_at" ].


End Reading.

(** ** From the REST boundary to the agent *)

Module Creation.

(** The details that the agent reads in a validated creation request. *)
Definition details_of (l : ListingCreate.t) : ListingDetails.t :=
  ListingDetails.make
    (ListingCreate.title l) (ListingCreate.description l) (ListingCreate.price l)
    (ListingCreate.quantity l) (ListingCreate.category_id l)
    (ItemCondition.value_of (ListingCreate.condition l))
    (ListingCreate.images l) (ListingCreate.item_specifics l)
    (map ShippingOption.dict (ListingCreate.shipping_options l)).

End Creation.

(** ** A kept listing to run the handlers on *)

Module Shelf.

Import Fixture.

(** The camera as the persistence layer is given it for item 110. *)
Definition camera_110 : dict := ("listing_id", VStr "110") :: camera.

(** The stocked world with item 110 kept in the listings table. *)
Definition kept : World := snd (DatabaseService.store_listing camera_110 stocked).

Definition kept_row : row := Written.row_in camera_110 stocked.

(** What the marketplace shows of item 110, and the world after the reading. *)
Definition reading : dict :=
  match fst (EbayService.get_listing "110" kept) with
  | inr listing => listing
  | inl _ => []
  end.

Definition read : World := snd (EbayService.get_listing "110" kept).

(** What a search of the marketplace without criteria finds. *)
Definition found : list value :=
  match fst (EbayService.search_listings [] kept) with
  | inr results => results
  | inl _ => []
  end.

Definition searched : World := snd (EbayService.search_listings [] kept).

(** A price cut asked for item 110, and the world once the marketplace has
    revised the item. *)
Definition cheaper : ListingUpdate.t :=
  ListingUpdate.make "110" [("price", VFloat 5%float)].

Definition revised : World :=
  snd (EbayService.update_listing "110"
         (dict_merge reading (ListingUpdate.updates cheaper)) read).

Definition camera_listing : ListingCreate.t :=
  ListingCreate.make "Vintage Camera" "A working rangefinder" price_49_99 1
                     "625" ItemCondition.GOOD [] [] [].

End Shelf.

(** * Properties *)

(** ** The monad *)

Section MonadFacts.

Context {P : Platform}.

Lemma bind_ok {A B} (m : M A) (k : A -> M B) w a w1 :
  m w = (inr a, w1) -> bind m k w = k a w1.
Proof. intros H. unfold bind. now rewrite H. Qed.

Lemma bind_raise {A B} (m : M A) (k : A -> M B) w e w1 :
  m w = (inl e, w1) -> bind m k w = (inl e, w1).
Proof. intros H. unfold bind. now rewrite H. Qed.

Lemma bind_inv {A B} (m : M A) (k : A -> M B) w b w' :
  bind m k w = (inr b, w') ->
  exists a w1, m w = (inr a, w1) /\ k a w1 = (inr b, w').
Proof.
  unfold bind. destruct (m w) as [[e | a] w1]; intros H.
  - discriminate.
  - now exists a, w1.
Qed.

Lemma lift_inv {A} (r : result A) w a w' :
  lift r w = (inr a, w') -> r = inr a /\ w' = w.
Proof. unfold lift. intros H. inversion H. now split. Qed.

Lemma ret_inv {A} (a b : A) w w' :
  ret a w = (inr b, w') -> a = b /\ w' = w.
Proof. unfold ret. intros H. inversion H. now split. Qed.

Lemma try_except_ok {A} (m : M A) h w a w1 :
  m w = (inr a, w1) -> try_except m h w = (inr a, w1).
Proof. intros H. unfold try_except. now rewrite H. Qed.

Lemma try_except_caught {A} (m : M A) h w e w1 :
  m w = (inl e, w1) -> try_except m h w = h e w1.
Proof. intros H. unfold try_except. now rewrite H. Qed.

End MonadFacts.

(** Takes a successful run of a chain of binds apart, one step at a time. *)
Ltac step_inv H :=
  let a := fresh "a" in
  let w := fresh "w" in
  let H1 := fresh "Hstep" in
  apply bind_inv in H; destruct H as (a & w & H1 & H).

(** ** Bulk loops *)

Section BulkFacts.

Context {P : Platform} {R : AgentRuntime}.

Import Report.

Lemma entries_length {A} (work : string -> M A) ids w :
  List.length (fst (entries work ids w)) = List.length ids.
Proof.
  revert w. induction ids as [| id rest IH]; intros w; simpl.
  - reflexivity.
  - destruct (work id w) as [outcome w1].
    specialize (IH w1). destruct (entries work rest w1) as [es w2].
    simpl in *. now rewrite IH.
Qed.

Lemma entries_app {A} (work : string -> M A) ids1 ids2 w :
  entries work (ids1 ++ ids2) w =
  (fst (entries work ids1 w)
     ++ fst (entries work ids2 (snd (entries work ids1 w))),
   snd (entries work ids2 (snd (entries work ids1 w)))).
Proof.
  revert w. induction ids1 as [| id rest IH]; intros w; simpl.
  - now destruct (entries work ids2 w).
  - destruct (work id w) as [outcome w1].
    rewrite IH.
    destruct (entries work rest w1) as [es1 w2]. simpl.
    reflexivity.
Qed.

Lemma entries_ids {A} (work : string -> M A) ids w :
  ids_of (map VDict (fst (entries work ids w))) = map VStr ids.
Proof.
  revert w. induction ids as [| id rest IH]; intros w; simpl.
  - reflexivity.
  - destruct (work id w) as [outcome w1].
    specialize (IH w1). destruct (entries work rest w1) as [es w2].
    simpl in *. rewrite IH. now destruct outcome.
Qed.

Lemma occurrences_of_ids (ids : list string) (results : list value) listing_id :
  ids_of results = map VStr ids ->
  occurrences listing_id results = count_occ string_dec ids listing_id.
Proof.
  unfold occurrences. intros ->.
  induction ids as [| id rest IH]; simpl.
  - reflexivity.
  - destruct (string_dec id listing_id) as [-> | Hne].
    + rewrite String.eqb_refl. simpl. now rewrite IH.
    + apply String.eqb_neq in Hne. now rewrite Hne.
Qed.

Lemma success_count_le (es : list dict) :
  (EbayListingAgent.success_count es <= List.length es)%nat.
Proof. unfold EbayListingAgent.success_count. apply filter_length_le. Qed.

(** A turn of [bulk_update] never raises: it records how the marketplace
    call ended. *)
Lemma bulk_update_item_entry updates listing_id w :
  EbayListingAgent.bulk_update_item updates listing_id w =
  (inr (entry listing_id (fst (EbayService.update_listing listing_id updates w))),
   snd (EbayService.update_listing listing_id updates w)).
Proof.
  unfold EbayListingAgent.bulk_update_item, try_except, bind, ret.
  now destruct (EbayService.update_listing listing_id updates w) as [[e | d] w1].
Qed.

Lemma bulk_update_loop_entries ids updates acc w :
  EbayListingAgent.bulk_update_loop ids updates acc w =
  (inr (acc ++ fst (entries (fun id => EbayService.update_listing id updates) ids w)),
   snd (entries (fun id => EbayService.update_listing id updates) ids w)).
Proof.
  revert acc w. induction ids as [| id rest IH]; intros acc w; simpl.
  - unfold ret. now rewrite app_nil_r.
  - unfold bind. rewrite bulk_update_item_entry.
    rewrite IH.
    destruct (EbayService.update_listing id updates w) as [outcome w1]. simpl.
    destruct (entries (fun id0 => EbayService.update_listing id0 updates) rest w1)
      as [es w2]. simpl.
    now rewrite <- app_assoc.
Qed.

(** The report of [bulk_update], in full. *)
Lemma bulk_update_report ids updates w :
  let run := entries (fun id => EbayService.update_listing id updates) ids w in
  let n := EbayListingAgent.success_count (fst run) in
  EbayListingAgent.bulk_update ids updates w =
  (inr [ ("success", VBool (Nat.ltb 0 n));
         ("total", VInt (Z.of_nat (List.length ids)));
         ("successful", VInt (Z.of_nat n));
         ("failed", VInt (Z.of_nat (List.length ids) - Z.of_nat n));
         ("results", VList (map VDict (fst run)));
         ("message",
          VStr ("Updated " ++ str_of_nat n ++ " of "
                ++ str_of_nat (List.length ids) ++ " listings")) ],
   snd run).
Proof.
  intros run n. unfold EbayListingAgent.bulk_update, bind.
  rewrite bulk_update_loop_entries. reflexivity.
Qed.

Lemma delete_item_entry listing_id w :
  Main.delete_item listing_id w =
  (inr (entry listing_id (fst (Main.delete_both listing_id w))),
   snd (Main.delete_both listing_id w)).
Proof.
  unfold Main.delete_item, try_except, bind, ret.
  now destruct (Main.delete_both listing_id w) as [[e | b] w1].
Qed.

Lemma delete_loop_entries ids acc w :
  Main.delete_loop ids acc w =
  (inr (acc ++ fst (entries Main.delete_both ids w)),
   snd (entries Main.delete_both ids w)).
Proof.
  revert acc w. induction ids as [| id rest IH]; intros acc w; simpl.
  - unfold ret. now rewrite app_nil_r.
  - unfold bind. rewrite delete_item_entry.
    rewrite IH.
    destruct (Main.delete_both id w) as [outcome w1]. simpl.
    destruct (entries Main.delete_both rest w1) as [es w2]. simpl.
    now rewrite <- app_assoc.
Qed.

Lemma entry_success {A} listing_id (outcome : result A) :
  lookup "listing_id" (entry listing_id outcome) = Some (VStr listing_id)
  /\ ((exists a, outcome = inr a /\ entry listing_id outcome =
          [("listing_id", VStr listing_id); ("success", VBool true)])
      \/ (exists e, outcome = inl e /\ entry listing_id outcome =
          [("listing_id", VStr listing_id); ("success", VBool false);
           ("error", VStr (exn_str e))])).
Proof. destruct outcome as [e | a]; (split; [reflexivity |]); eauto. Qed.

Lemma entries_In {A} (work : string -> M A) ids w e :
  In e (fst (entries work ids w)) ->
  exists listing_id (outcome : result A), In listing_id ids /\ e = entry listing_id outcome.
Proof.
  revert w. induction ids as [| id rest IH]; intros w; simpl.
  - intros [].
  - destruct (work id w) as [outcome w1].
    specialize (IH w1). destruct (entries work rest w1) as [es w2]. simpl in *.
    intros [<- | Hin].
    + exists id, outcome. auto.
    + destruct (IH Hin) as (i & o & Hi & He). exists i, o. auto.
Qed.

(** An entry counts as a success exactly when its flag is [True]. *)
Lemma success_count_pos {A} (work : string -> M A) ids w :
  (1 <= EbayListingAgent.success_count (fst (entries work ids w)))%nat <->
  exists e, In e (fst (entries work ids w)) /\ lookup "success" e = Some (VBool true).
Proof.
  unfold EbayListingAgent.success_count.
  set (es := fst (entries work ids w)).
  assert (Hform : forall e, In e es ->
            truthy (get e "success" VNone) = true <-> lookup "success" e = Some (VBool true)).
  { intros e He. apply entries_In in He. destruct He as (i & o & _ & ->).
    destruct o; simpl; split; congruence. }
  clearbody es. induction es as [| e es IH]; simpl.
  - split; [lia | intros (e & [] & _)].
  - assert (IH' : forall e0, In e0 es ->
              truthy (get e0 "success" VNone) = true <->
              lookup "success" e0 = Some (VBool true))
      by (intros e0 H0; apply Hform; now right).
    specialize (IH IH').
    destruct (truthy (get e "success" VNone)) eqn:Ht; simpl.
    + split; [intros _ | lia]. exists e. split; [now left |].
      apply Hform; [now left | exact Ht].
    + rewrite IH. split.
      * intros (e0 & Hin & Hs). exists e0. split; [now right | exact Hs].
      * intros (e0 & [<- | Hin] & Hs).
        -- apply Hform in Hs; [congruence | now left].
        -- exists e0. now split.
Qed.

(** The entry recorded at a position is the entry of the id at that
    position, for the call made in the world that the turns before left. *)
Lemma entries_at {A} (work : string -> M A) ids1 id ids2 w :
  nth_error (fst (entries work (ids1 ++ id :: ids2) w)) (List.length ids1)
  = Some (entry id (fst (work id (snd (entries work ids1 w))))).
Proof.
  rewrite entries_app. cbn [fst].
  rewrite nth_error_app2 by (rewrite entries_length; lia).
  rewrite entries_length, Nat.sub_diag. cbn [entries].
  destruct (work id (snd (entries work ids1 w))) as [outcome w1].
  now destruct (entries work ids2 w1).
Qed.

(** There is a successful entry exactly when the call of some turn returned. *)
Lemma success_count_calls {A} (work : string -> M A) ids w :
  (1 <= EbayListingAgent.success_count (fst (entries work ids w)))%nat <->
  exists ids1 id ids2 r w1,
    ids = ids1 ++ id :: ids2
    /\ work id (snd (entries work ids1 w)) = (inr r, w1).
Proof.
  revert w. induction ids as [| id rest IH]; intros w.
  - cbn. split; [lia |].
    intros (ids1 & id & ids2 & r & w1 & Hsplit & _).
    now destruct ids1.
  - cbn [entries].
    destruct (work id w) as [[e | r] w1] eqn:Hcall.
    + specialize (IH w1).
      destruct (entries work rest w1) as [es w2] eqn:Hrest.
      cbn [fst] in *.
      assert (Hcount : EbayListingAgent.success_count (entry id (@inl exn A e) :: es)
                       = EbayListingAgent.success_count es) by reflexivity.
      rewrite Hcount, IH. split.
      * intros (ids1 & id' & ids2 & r & w3 & -> & Hr).
        exists (id :: ids1), id', ids2, r, w3. split; [reflexivity |].
        cbn [entries]. rewrite Hcall.
        destruct (entries work ids1 w1) as [es1 w4]. exact Hr.
      * intros (ids1 & id' & ids2 & r & w3 & Hsplit & Hr).
        destruct ids1 as [| id0 ids1].
        -- cbn in Hsplit, Hr. inversion Hsplit; subst id'. congruence.
        -- cbn [app] in Hsplit. inversion Hsplit; subst id0 rest.
           exists ids1, id', ids2, r, w3. split; [reflexivity |].
           cbn [entries] in Hr. rewrite Hcall in Hr.
           destruct (entries work ids1 w1) as [es1 w4]. exact Hr.
    + destruct (entries work rest w1) as [es w2].
      cbn [fst]. split.
      * intros _. exists [], id, rest, r, w1. split; [reflexivity | exact Hcall].
      * intros _. unfold EbayListingAgent.success_count. cbn. lia.
Qed.

End BulkFacts.

(** ** Claims about bulk operations *)

Section BulkClaims.

Context {P : Platform} {R : AgentRuntime}.

Import Report.

(** C10: [bulk_update] always returns its count report, whose entries are
    those of the calls of [update_listing] of the marketplace adapter, one
    per id and in order, each made in the world that the calls before left
    (the one in which [bulk_update] of the ids before ends).
    The top-level [success] flag of the report is true exactly when
    [successful >= 1], that is exactly when the call for at least one id
    returned; for an empty id list, or when the call raises for every id,
    the flag is [False]. *)
Theorem bulk_update_success_flag :
  forall (ids : list string) (updates : dict) (w : World),
    let work := fun id => EbayService.update_listing id updates in
    let results := fst (entries work ids w) in
    let successful := EbayListingAgent.success_count results in
    let flag := Nat.ltb 0 successful in
    EbayListingAgent.bulk_update ids updates w
    = (inr [ ("success", VBool flag);
             ("total", VInt (Z.of_nat (List.length ids)));
             ("successful", VInt (Z.of_nat successful));
             ("failed", VInt (Z.of_nat (List.length ids) - Z.of_nat successful));
             ("results", VList (map VDict results));
             ("message",
              VStr ("Updated " ++ str_of_nat successful ++ " of "
                    ++ str_of_nat (List.length ids) ++ " listings")) ],
       snd (entries work ids w))
    /\ (forall ids1,
          snd (entries work ids1 w)
          = snd (EbayListingAgent.bulk_update ids1 updates w))
    /\ List.length results = List.length ids
    /\ (forall ids1 id ids2,
          ids = ids1 ++ id :: ids2 ->
          nth_error results (List.length ids1)
          = Some (match EbayService.update_listing id updates
                          (snd (entries work ids1 w)) with
                  | (inr _, _) =>
                      [("listing_id", VStr id); ("success", VBool true)]
                  | (inl e, _) =>
                      [("listing_id", VStr id); ("success", VBool false);
                       ("error", VStr (exn_str e))]
                  end))
    /\ (flag = true <-> (1 <= successful)%nat)
    /\ (flag = true <->
        exists ids1 id ids2 r w1,
          ids = ids1 ++ id :: ids2
          /\ EbayService.update_listing id updates (snd (entries work ids1 w))
             = (inr r, w1))
    /\ (ids = [] -> flag = false)
    /\ ((forall ids1 id ids2,
           ids = ids1 ++ id :: ids2 ->
           exists e w1,
             EbayService.update_listing id updates (snd (entries work ids1 w))
             = (inl e, w1)) ->
        flag = false).
Proof.
  intros ids updates w work results successful flag.
  assert (Hcalls : flag = true <->
            exists ids1 id ids2 r w1,
              ids = ids1 ++ id :: ids2
              /\ EbayService.update_listing id updates (snd (entries work ids1 w))
                 = (inr r, w1)).
  { unfold flag, successful, results. rewrite Nat.ltb_lt.
    apply (success_count_calls work ids w). }
  split; [apply bulk_update_report |].
  split; [intros ids1; now rewrite bulk_update_report |].
  split; [apply entries_length |].
  split.
  { intros ids1 id ids2 ->. unfold results. rewrite entries_at.
    fold (work id (snd (entries work ids1 w))).
    now destruct (work id (snd (entries work ids1 w))) as [[e | r] w1]. }
  split; [unfold flag; rewrite Nat.ltb_lt; lia |].
  split; [exact Hcalls |].
  split.
  - intros ->. reflexivity.
  - intros Hfail. destruct flag eqn:Hflag; [| reflexivity].
    destruct (proj1 Hcalls eq_refl) as (ids1 & id & ids2 & r & w1 & Hsplit & Hr).
    destruct (Hfail ids1 id ids2 Hsplit) as (e & w2 & He). congruence.
Qed.

(** C5: [bulk_update] takes the ids one after the other. A turn whose
    marketplace call raises is caught and recorded as the entry of that id,
    with the id and the error text; the entries recorded before stay as they
    are and the loop goes on with the remaining ids. For three ids of which
    only the second call raises, the report has [successful = 2],
    [failed = 1], the second entry failed and the two others succeeded. *)
Theorem bulk_update_records_each_failure :
  forall updates : dict,
  let work := fun id => EbayService.update_listing id updates in
  (forall id w,
     EbayListingAgent.bulk_update_item updates id w =
     match work id w with
     | (inr _, w1) =>
         (inr [("listing_id", VStr id); ("success", VBool true)], w1)
     | (inl e, w1) =>
         (inr [("listing_id", VStr id); ("success", VBool false);
               ("error", VStr (exn_str e))], w1)
     end)
  /\ (forall ids w,
        exists d,
          EbayListingAgent.bulk_update ids updates w = (inr d, snd (entries work ids w))
          /\ lookup "results" d = Some (VList (map VDict (fst (entries work ids w))))
          /\ List.length (fst (entries work ids w)) = List.length ids)
  /\ (forall ids1 ids2 w,
        fst (entries work (ids1 ++ ids2) w) =
        fst (entries work ids1 w)
          ++ fst (entries work ids2 (snd (entries work ids1 w))))
  /\ (forall a b c w w1 w2 w3 ra e rc,
        work a w = (inr ra, w1) ->
        work b w1 = (inl e, w2) ->
        work c w2 = (inr rc, w3) ->
        EbayListingAgent.bulk_update [a; b; c] updates w =
        (inr [ ("success", VBool true);
               ("total", VInt 3);
               ("successful", VInt 2);
               ("failed", VInt 1);
               ("results",
                VList [ VDict [("listing_id", VStr a); ("success", VBool true)];
                        VDict [("listing_id", VStr b); ("success", VBool false);
                               ("error", VStr (exn_str e))];
                        VDict [("listing_id", VStr c); ("success", VBool true)] ]);
               ("message", VStr "Updated 2 of 3 listings") ],
         w3)).
Proof.
  intros updates work. repeat split.
  - intros id w. rewrite bulk_update_item_entry. fold (work id w).
    now destruct (work id w) as [[e | d] w1].
  - intros ids w. eexists. split; [apply bulk_update_report |].
    split; [reflexivity | apply entries_length].
  - intros ids1 ids2 w. now rewrite entries_app.
  - intros a b c w w1 w2 w3 ra e rc Ha Hb Hc.
    rewrite bulk_update_report. fold work. simpl.
    rewrite Ha, Hb, Hc. reflexivity.
Qed.

Lemma str_items field (ids : list string) :
  rmap (str_field field) (map VStr ids) = inr ids.
Proof.
  induction ids as [| id rest IH]; simpl.
  - reflexivity.
  - unfold rbind in *. now rewrite IH.
Qed.

Lemma bulk_update_counted ids updates w :
  exists d w',
    EbayListingAgent.bulk_update ids updates w = (inr d, w') /\ counted ids d.
Proof.
  pose proof (bulk_update_report ids updates w) as Hrep. cbv zeta in Hrep.
  set (work := fun id => EbayService.update_listing id updates) in *.
  eexists. eexists. split; [exact Hrep |].
  exists (EbayListingAgent.success_count (fst (entries work ids w))).
  eexists. eexists.
  repeat (split; [reflexivity |]).
  pose proof (success_count_le (fst (entries work ids w))) as Hle.
  rewrite entries_length in Hle.
  split; [lia |]. split; [lia |]. split; [reflexivity |].
  split; [apply entries_ids |].
  intros listing_id. apply occurrences_of_ids, entries_ids.
Qed.

Lemma recorded_ids (ids : list string) :
  ids_of (EbayMCPServer.recorded (map VStr ids)) = map VStr ids.
Proof.
  unfold EbayMCPServer.recorded, ids_of.
  rewrite !map_map. apply map_ext. reflexivity.
Qed.

(** C1, as the code has it: every bulk operation reports [total], the
    length of the input list, and a result list with one entry per position
    of the input, in order, carrying the id at that position, so that an id
    appears in the result list as often as in the input (once when the
    input does not repeat it). [bulk_update] and the delete branch of the
    REST helper also report [successful] and [failed], which add up to
    [total]; the update branches of the protocol server and of the REST
    helper hand over to [bulk_update]. *)
Theorem bulk_reports_account_for_the_input :
  (forall ids updates w,
     exists d w',
       EbayListingAgent.bulk_update ids updates w = (inr d, w') /\ counted ids d)
  /\ (forall ids data user_id w,
        exists d w',
          Main.perform_bulk_operation "delete" ids data user_id w = (inr d, w')
          /\ counted ids d)
  /\ (forall ids data user_id w,
        data <> [] ->
        Main.perform_bulk_operation "update" ids (Some data) user_id w =
        EbayListingAgent.bulk_update ids data w)
  /\ (forall args ids data w,
        lookup "operation" args = Some (VStr "update") ->
        lookup "listing_ids" args = Some (VList (map VStr ids)) ->
        get args "data" (VDict []) = VDict data ->
        EbayMCPServer._bulk_operations args w =
        EbayListingAgent.bulk_update ids data w)
  /\ (forall args operation ids w,
        operation = "delete" \/ operation = "relist" ->
        lookup "operation" args = Some (VStr operation) ->
        lookup "listing_ids" args = Some (VList (map VStr ids)) ->
        exists d,
          EbayMCPServer._bulk_operations args w = (inr d, w) /\ listed ids d).
Proof.
  repeat split.
  - apply bulk_update_counted.
  - intros ids data user_id w.
    unfold Main.perform_bulk_operation. simpl.
    unfold bind. rewrite delete_loop_entries. simpl.
    eexists. eexists. split; [reflexivity |].
    exists (EbayListingAgent.success_count (fst (entries Main.delete_both ids w))).
    eexists. eexists.
    repeat (split; [reflexivity |]).
    pose proof (success_count_le (fst (entries Main.delete_both ids w))) as Hle.
    rewrite entries_length in Hle.
    split; [lia |]. split; [lia |]. split; [reflexivity |].
    split; [apply entries_ids |].
    intros listing_id. apply occurrences_of_ids, entries_ids.
  - intros ids data user_id w Hdata.
    unfold Main.perform_bulk_operation. simpl.
    destruct data as [| kv data]; [congruence |]. simpl.
    unfold bind, Main.tool_at. simpl. unfold ret, bind, lift.
    rewrite str_items. reflexivity.
  - intros args ids data w Hop Hids Hdata.
    unfold EbayMCPServer._bulk_operations, bind, lift, getitem.
    rewrite Hop, Hids, Hdata. simpl.
    unfold bind, lift. rewrite str_items. reflexivity.
  - intros args operation ids w Hoperation Hop Hids.
    unfold EbayMCPServer._bulk_operations, bind, lift, getitem.
    rewrite Hop, Hids.
    assert (Hresults :
      (if eq_str (VStr operation) "update" then @None (list value)
       else Some (EbayMCPServer.recorded (map VStr ids)))
      = Some (EbayMCPServer.recorded (map VStr ids)))
      by (destruct Hoperation as [-> | ->]; reflexivity).
    exists [ ("operation", VStr operation);
             ("total", VInt (Z.of_nat (List.length ids)));
             ("results", VList (EbayMCPServer.recorded (map VStr ids))) ].
    split.
    + destruct Hoperation as [-> | ->]; simpl; unfold ret;
        now rewrite length_map.
    + exists (EbayMCPServer.recorded (map VStr ids)).
      repeat (split; [reflexivity |]).
      split; [apply recorded_ids |].
      intros listing_id. apply occurrences_of_ids, recorded_ids.
Qed.

End BulkClaims.

(** ** Claims about the envelopes and the dispatch *)

Section EnvelopeClaims.

Context {P : Platform} {R : AgentRuntime}.

Import Envelope.

(** Closes the success case of a guarded handler: the run of the [try]
    block is taken apart down to the dictionary it returns. *)
Ltac returned_envelope H :=
  repeat step_inv H;
  apply ret_inv in H; destruct H as [<- _];
  split; [reflexivity | eexists; reflexivity].

Ltac guarded_by_try :=
  let w := fresh "w" in
  let Hbody := fresh "Hbody" in
  intros w;
  match goal with
  | |- match ?body w with _ => _ end =>
      destruct (body w) as [[? | ?] ?] eqn:Hbody
  end;
  [ now rewrite (try_except_caught _ _ _ _ _ Hbody)
  | split; [now rewrite (try_except_ok _ _ _ _ _ Hbody) | returned_envelope Hbody] ].

Lemma create_listing_guarded details :
  guarded (EbayListingAgent.create_listing_try details)
          (EbayListingAgent.create_listing details) "Failed to create listing".
Proof. unfold EbayListingAgent.create_listing. guarded_by_try. Qed.

Lemma update_listing_guarded update :
  guarded (EbayListingAgent.update_listing_try update)
          (EbayListingAgent.update_listing update) "Failed to update listing".
Proof. unfold EbayListingAgent.update_listing. guarded_by_try. Qed.

Lemma search_listings_guarded criteria :
  guarded (EbayListingAgent.search_listings_try criteria)
          (EbayListingAgent.search_listings criteria) "Search failed".
Proof. unfold EbayListingAgent.search_listings. guarded_by_try. Qed.

Lemma analyze_listing_guarded listing_id :
  guarded (EbayListingAgent.analyze_listing_try listing_id)
          (EbayListingAgent.analyze_listing listing_id) "Analysis failed".
Proof. unfold EbayListingAgent.analyze_listing. guarded_by_try. Qed.

Lemma suggest_categories_guarded title description :
  guarded (EbayListingAgent.suggest_categories_try title description)
          (EbayListingAgent.suggest_categories title description)
          "Failed to get suggestions".
Proof. unfold EbayListingAgent.suggest_categories. guarded_by_try. Qed.

Lemma optimize_listing_guarded listing_id :
  guarded (EbayListingAgent.optimize_listing_try listing_id)
          (EbayListingAgent.optimize_listing listing_id) "Optimization failed".
Proof. unfold EbayListingAgent.optimize_listing. guarded_by_try. Qed.

Lemma guarded_enveloped body handler message :
  guarded body handler message -> enveloped handler.
Proof.
  intros Hg w. specialize (Hg w).
  destruct (body w) as [[e | d] w'].
  - eexists. eexists. split; [exact Hg |]. now exists false, message.
  - destruct Hg as (Hh & Hs & s & Hm). exists d, w'. split; [exact Hh |].
    now exists true, s.
Qed.

Lemma guarded_and_enveloped body handler message :
  guarded body handler message ->
  guarded body handler message /\ enveloped handler.
Proof. intros Hg. split; [exact Hg | exact (guarded_enveloped _ _ _ Hg)]. Qed.

Lemma bulk_update_enveloped ids updates :
  enveloped (EbayListingAgent.bulk_update ids updates).
Proof.
  intros w. eexists. eexists. split; [apply bulk_update_report |].
  eexists. eexists. split; reflexivity.
Qed.

(** C3, as the code has it: each of the seven tool handlers of the agent
    returns, for every input and in every world, a dictionary with a boolean
    [success] and a string [message], and never raises. For the six handlers
    whose body is a [try] block, an exception raised by the block becomes
    [{success: False, error: str(e), message: ...}] with the handler's own
    failure message, and a result of the block is handed on with
    [success = True]. [bulk_update] has no outer [try]: its turns catch
    their own exceptions. *)
Theorem agent_handlers_keep_the_envelope :
  (forall details,
     guarded (EbayListingAgent.create_listing_try details)
             (EbayListingAgent.create_listing details) "Failed to create listing"
     /\ enveloped (EbayListingAgent.create_listing details))
  /\ (forall update,
        guarded (EbayListingAgent.update_listing_try update)
                (EbayListingAgent.update_listing update) "Failed to update listing"
        /\ enveloped (EbayListingAgent.update_listing update))
  /\ (forall criteria,
        guarded (EbayListingAgent.search_listings_try criteria)
                (EbayListingAgent.search_listings criteria) "Search failed"
        /\ enveloped (EbayListingAgent.search_listings criteria))
  /\ (forall listing_id,
        guarded (EbayListingAgent.analyze_listing_try listing_id)
                (EbayListingAgent.analyze_listing listing_id) "Analysis failed"
        /\ enveloped (EbayListingAgent.analyze_listing listing_id))
  /\ (forall title description,
        guarded (EbayListingAgent.suggest_categories_try title description)
                (EbayListingAgent.suggest_categories title description)
                "Failed to get suggestions"
        /\ enveloped (EbayListingAgent.suggest_categories title description))
  /\ (forall listing_id,
        guarded (EbayListingAgent.optimize_listing_try listing_id)
                (EbayListingAgent.optimize_listing listing_id) "Optimization failed"
        /\ enveloped (EbayListingAgent.optimize_listing listing_id))
  /\ (forall ids updates, enveloped (EbayListingAgent.bulk_update ids updates)).
Proof.
  split; [intros; apply guarded_and_enveloped, create_listing_guarded |].
  split; [intros; apply guarded_and_enveloped, update_listing_guarded |].
  split; [intros; apply guarded_and_enveloped, search_listings_guarded |].
  split; [intros; apply guarded_and_enveloped, analyze_listing_guarded |].
  split; [intros; apply guarded_and_enveloped, suggest_categories_guarded |].
  split; [intros; apply guarded_and_enveloped, optimize_listing_guarded |].
  apply bulk_update_enveloped.
Qed.

(** The names tested by the dispatch chain are the registered ones. *)
Lemma unregistered_call tool_name arguments :
  EbayMCPServer.registered tool_name = false ->
  EbayMCPServer.call tool_name arguments =
  raise (ValueError ("Unknown tool: " ++ tool_name)).
Proof.
  unfold EbayMCPServer.registered, EbayMCPServer.tools.
  cbn [existsb fst]. intros H.
  repeat (apply orb_false_elim in H; destruct H as [? H]).
  unfold EbayMCPServer.call.
  repeat match goal with
         | Hne : String.eqb ?lit tool_name = false |- _ =>
             rewrite String.eqb_sym in Hne; rewrite Hne; clear Hne
         end.
  reflexivity.
Qed.

(** The error envelope of the dispatcher is made of strings only. *)
Lemma error_envelope_dumps e tool_name t :
  json_dumps None (EbayMCPServer.error_envelope e tool_name t) =
  inr (json_text None (EbayMCPServer.error_envelope e tool_name t)).
Proof. reflexivity. Qed.

(** Whatever the tool does, the dispatcher answers with a [ToolResult]. *)
Lemma handle_call_tool_returns request w :
  exists r w', EbayMCPServer.handle_call_tool request w = (inr r, w').
Proof.
  unfold EbayMCPServer.handle_call_tool, try_except.
  match goal with
  | |- context [match ?m w with _ => _ end] => destruct (m w) as [[e | r] w1]
  end.
  - unfold bind, now, lift. rewrite error_envelope_dumps. eexists. eexists. reflexivity.
  - eexists. eexists. reflexivity.
Qed.

(** C2: a call whose tool name is not registered is answered with a
    [ToolResult] that has [is_error] set and whose text is the dump of
    [{error: "Unknown tool: <name>", tool: <name>, timestamp: ...}]; the
    dispatcher does not raise, and only the clock has been read. *)
Theorem unknown_tool_is_an_error_result :
  forall (request : EbayMCPServer.CallToolRequest) (w : World),
    EbayMCPServer.registered (EbayMCPServer.request_name request) = false ->
    EbayMCPServer.handle_call_tool request w =
    (inr (EbayMCPServer.mkToolResult
            [ EbayMCPServer.mkTextContent "text"
                (json_text None
                   (VDict [ ("error",
                             VStr ("Unknown tool: " ++ EbayMCPServer.request_name request));
                            ("tool", VStr (EbayMCPServer.request_name request));
                            ("timestamp",
                             VStr (isoformat (local_clock (clock_reads w)))) ])) ]
            true),
     mkWorld (market w) (listings w) (sdk_calls w)
             (S (clock_reads w)) (uuids_drawn w)).
Proof.
  intros request w Hunknown.
  unfold EbayMCPServer.handle_call_tool.
  rewrite (try_except_caught _ _ w (ValueError ("Unknown tool: " ++ EbayMCPServer.request_name request)) w).
  - reflexivity.
  - unfold bind. rewrite (unregistered_call _ _ Hunknown). reflexivity.
Qed.

End EnvelopeClaims.

(** ** Claims about validation at the payload boundary *)

Section ValidationFacts.

Context {P : Platform}.

Import Payload.

Lemma rbind_inv {A B} (r : result A) (k : A -> result B) b :
  rbind r k = inr b -> exists a, r = inr a /\ k a = inr b.
Proof. destruct r as [e | a]; simpl; [discriminate | eauto]. Qed.

Lemma required_inv payload field v :
  required payload field = inr v -> lookup field payload = Some v.
Proof. unfold required. destruct (lookup field payload); congruence. Qed.

Lemma float_field_inv field v f :
  float_field field v = inr f -> py_float v = inr f.
Proof. unfold float_field. destruct (py_float v); [discriminate | congruence]. Qed.

(** A whole float is what [int] makes of it. *)
Lemma whole_float_to_Z f z : whole f = Some z -> float_to_Z f = inr z.
Proof.
  unfold whole, float_to_Z.
  destruct (Prim2SF f) as [s | s | | s m e]; try discriminate.
  - intros H. now inversion H.
  - destruct (0 <=? e).
    + destruct (Z.pos m * 2 ^ e <? 2 ^ 63); [| discriminate].
      intros H. now inversion H.
    + destruct (Z.pos m mod 2 ^ (- e) =? 0); [| discriminate].
      destruct (Z.pos m / 2 ^ (- e) <? 2 ^ 63); [| discriminate].
      intros H. now inversion H.
Qed.

(** A whole float below zero is an integer below zero. *)
Lemma whole_below_zero f z :
  whole f = Some z -> PrimFloat.ltb f 0%float = true -> z < 0.
Proof.
  rewrite ltb_spec. unfold whole, SFltb.
  replace (Prim2SF 0%float) with (S754_zero false) by reflexivity.
  destruct (Prim2SF f) as [s | s | | s m e]; cbn [SFcompare];
    try (intros H1 H2; discriminate).
  destruct s; [| intros _ H; discriminate H].
  remember (Z.pos m * 2 ^ e) as a1 eqn:Ha1.
  remember (Z.pos m / 2 ^ (- e)) as a2 eqn:Ha2.
  destruct (Z.leb_spec 0 e) as [He | He].
  - destruct (a1 <? 2 ^ 63); [| intros H; discriminate H].
    intros Hwhole _. injection Hwhole as <-.
    assert (0 < a1)
      by (subst a1; apply Z.mul_pos_pos; [lia | apply Z.pow_pos_nonneg; lia]).
    lia.
  - destruct (Z.eqb_spec (Z.pos m mod 2 ^ (- e)) 0) as [Hmod | Hmod];
      [| intros H; discriminate H].
    destruct (a2 <? 2 ^ 63); [| intros H; discriminate H].
    intros Hwhole _. injection Hwhole as <-.
    assert (Hpow : 0 < 2 ^ (- e)) by (apply Z.pow_pos_nonneg; lia).
    assert (Hle : 2 ^ (- e) <= Z.pos m).
    { destruct (Z_lt_le_dec (Z.pos m) (2 ^ (- e))) as [Hlt | Hle]; [| exact Hle].
      rewrite Z.mod_small in Hmod by lia. lia. }
    assert (0 < a2) by (subst a2; apply Z.div_str_pos; lia).
    lia.
Qed.

Lemma int_field_inv field v z :
  int_field field v = inr z -> py_int v = inr z.
Proof.
  destruct v; simpl; try discriminate; try congruence.
  - destruct (whole f) as [z' |] eqn:Hwhole; [| discriminate].
    intros H. inversion H; subst. now apply whole_float_to_Z.
  - destruct (int_of_str s); [congruence | discriminate].
Qed.

(** A quantity below zero does not validate to an integer at least zero. *)
Lemma below_zero_int_field field v z :
  Payload.below_zero v -> int_field field v = inr z -> z < 0.
Proof.
  intros Hbelow Hfield.
  destruct v; try (destruct Hbelow as (q & Hq & Hlt);
                   apply int_field_inv in Hfield; congruence).
  simpl in Hbelow, Hfield.
  destruct (whole f) as [z' |] eqn:Hwhole; [| discriminate].
  inversion Hfield; subst. now apply (whole_below_zero f).
Qed.

Lemma gt0_inv field f f' :
  gt0 field f = inr f' -> f' = f /\ PrimFloat.ltb 0%float f = true.
Proof.
  unfold gt0. destruct (PrimFloat.ltb 0%float f); [| discriminate].
  intros H. inversion H. auto.
Qed.

Lemma ge0_inv field z z' :
  ge0 field z = inr z' -> z' = z /\ 0 <= z.
Proof.
  unfold ge0. destruct (0 <=? z) eqn:Hz; [| discriminate].
  intros H. inversion H. split; [reflexivity | lia].
Qed.

(** A float at most zero is not greater than zero. *)
Lemma leb_zero_not_positive (p : float) :
  PrimFloat.leb p 0%float = true -> PrimFloat.ltb 0%float p = false.
Proof.
  rewrite leb_spec, ltb_spec. unfold SFleb, SFltb.
  replace (Prim2SF 0%float) with (S754_zero false) by reflexivity.
  destruct (Prim2SF p) as [[] | [] | | [] m e]; simpl; congruence.
Qed.

(** *** Every failure of the parsers is a validation error *)

Lemma rejecting_inr {A} (a : A) : rejecting (inr a).
Proof. intros e H. discriminate. Qed.

Lemma rejecting_invalid {A} field msg : rejecting (@invalid A field msg).
Proof. intros e H. inversion H. reflexivity. Qed.

Lemma rejecting_rbind {A B} (r : result A) (k : A -> result B) :
  rejecting r -> (forall a, rejecting (k a)) -> rejecting (rbind r k).
Proof.
  intros Hr Hk e. destruct r as [e' | a]; simpl.
  - intros H. inversion H; subst. now apply Hr.
  - apply Hk.
Qed.

Lemma rejecting_rmap {A B} (f : A -> result B) l :
  (forall a, rejecting (f a)) -> rejecting (rmap f l).
Proof.
  intros Hf. induction l as [| a l IH]; simpl.
  - apply rejecting_inr.
  - apply rejecting_rbind; [apply Hf | intros b].
    apply rejecting_rbind; [exact IH | intros bs]. apply rejecting_inr.
Qed.

Lemma rejecting_required payload field : rejecting (required payload field).
Proof.
  unfold required. destruct (lookup field payload).
  - apply rejecting_inr.
  - intros e H. inversion H. reflexivity.
Qed.

Lemma rejecting_str_field field v : rejecting (str_field field v).
Proof. destruct v; simpl; first [apply rejecting_inr | apply rejecting_invalid]. Qed.

Lemma rejecting_float_field field v : rejecting (float_field field v).
Proof.
  unfold float_field. destruct (py_float v);
    first [apply rejecting_inr | apply rejecting_invalid].
Qed.

Lemma rejecting_int_field field v : rejecting (int_field field v).
Proof.
  destruct v; simpl; try first [apply rejecting_inr | apply rejecting_invalid].
  - destruct (whole f); first [apply rejecting_inr | apply rejecting_invalid].
  - destruct (int_of_str s); first [apply rejecting_inr | apply rejecting_invalid].
Qed.

Lemma rejecting_bool_of_Z field z : rejecting (bool_of_Z field z).
Proof.
  unfold bool_of_Z. destruct (z =? 0); [apply rejecting_inr |].
  destruct (z =? 1); first [apply rejecting_inr | apply rejecting_invalid].
Qed.

Lemma rejecting_bool_field field v : rejecting (bool_field field v).
Proof.
  destruct v; simpl; try first [apply rejecting_inr | apply rejecting_invalid].
  - apply rejecting_bool_of_Z.
  - destruct (whole f); first [apply rejecting_bool_of_Z | apply rejecting_invalid].
  - destruct (bool_of_text s); first [apply rejecting_inr | apply rejecting_invalid].
Qed.

Lemma rejecting_dict_field field v : rejecting (dict_field field v).
Proof. destruct v; simpl; first [apply rejecting_inr | apply rejecting_invalid]. Qed.

Lemma rejecting_list_field {A} field (item : string -> value -> result A) v :
  (forall f x, rejecting (item f x)) -> rejecting (list_field field item v).
Proof.
  intros Hitem. destruct v; simpl; try apply rejecting_invalid.
  apply rejecting_rmap. intros a. apply Hitem.
Qed.

Lemma rejecting_str_dict_field field v : rejecting (str_dict_field field v).
Proof.
  destruct v; simpl; try apply rejecting_invalid.
  apply rejecting_rmap. intros kv.
  apply rejecting_rbind; [apply rejecting_str_field | intros s; apply rejecting_inr].
Qed.

Lemma rejecting_gt0 field f : rejecting (gt0 field f).
Proof.
  unfold gt0. destruct (PrimFloat.ltb 0%float f);
    first [apply rejecting_inr | apply rejecting_invalid].
Qed.

Lemma rejecting_ge0 field z : rejecting (ge0 field z).
Proof.
  unfold ge0. destruct (0 <=? z);
    first [apply rejecting_inr | apply rejecting_invalid].
Qed.

Lemma rejecting_condition field v : rejecting (ItemCondition.parse field v).
Proof.
  unfold ItemCondition.parse.
  destruct (find _ _); [apply rejecting_inr |].
  intros e H. inversion H. reflexivity.
Qed.

Lemma rejecting_url_field field v : rejecting (ListingCreate.url_field field v).
Proof.
  unfold ListingCreate.url_field.
  apply rejecting_rbind.
  - destruct (ListingCreate.as_url v); [apply rejecting_inr | apply rejecting_str_field].
  - intros s.
    destruct (http_url s); first [apply rejecting_inr | apply rejecting_invalid].
Qed.

Lemma rejecting_length field n s :
  rejecting (ListingCreate.min_length field n s)
  /\ rejecting (ListingCreate.max_length field n s).
Proof.
  unfold ListingCreate.min_length, ListingCreate.max_length.
  split; destruct (Nat.leb _ _); first [apply rejecting_inr | apply rejecting_invalid].
Qed.

Lemma rejecting_max_items {A} field n (l : list A) :
  rejecting (ListingCreate.max_items field n l).
Proof.
  unfold ListingCreate.max_items.
  destruct (Nat.leb _ _); first [apply rejecting_inr | apply rejecting_invalid].
Qed.

Ltac rejecting_steps :=
  repeat first
    [ apply rejecting_inr
    | apply rejecting_required
    | apply rejecting_str_field
    | apply rejecting_float_field
    | apply rejecting_int_field
    | apply rejecting_bool_field
    | apply rejecting_dict_field
    | apply rejecting_str_dict_field
    | apply rejecting_gt0
    | apply rejecting_ge0
    | apply rejecting_condition
    | apply rejecting_url_field
    | apply (proj1 (rejecting_length _ _ _))
    | apply (proj2 (rejecting_length _ _ _))
    | apply rejecting_max_items
    | apply rejecting_list_field; intros ? ?
    | apply rejecting_rbind; [| intros ?] ].

Lemma rejecting_shipping_option field v : rejecting (ShippingOption.parse field v).
Proof. unfold ShippingOption.parse. rejecting_steps. Qed.

Lemma ListingDetails_parse_rejecting payload : rejecting (ListingDetails.parse payload).
Proof. unfold ListingDetails.parse. rejecting_steps. Qed.

Lemma ListingCreate_parse_rejecting payload : rejecting (ListingCreate.parse payload).
Proof. unfold ListingCreate.parse. rejecting_steps. Qed.

(** *** What a parsed model says about the payload *)

Ltac rstep H :=
  let a := fresh "a" in
  let H1 := fresh "Hfield" in
  apply rbind_inv in H; destruct H as (a & H1 & H).

Lemma ListingDetails_parse_sound payload d :
  ListingDetails.parse payload = inr d ->
  (exists v, lookup "price" payload = Some v
             /\ py_float v = inr (ListingDetails.price d))
  /\ PrimFloat.ltb 0%float (ListingDetails.price d) = true
  /\ (exists v, lookup "quantity" payload = Some v
                /\ int_field "quantity" v = inr (ListingDetails.quantity d))
  /\ 0 <= ListingDetails.quantity d.
Proof.
  unfold ListingDetails.parse. intros H.
  rstep H. rstep H.
  rstep H. rstep Hfield1. apply required_inv in Hfield2. apply float_field_inv in Hfield1.
  rstep H. apply gt0_inv in Hfield3. destruct Hfield3 as [-> Hprice].
  rstep H. rstep Hfield3. apply required_inv in Hfield4.
  rstep H. apply ge0_inv in Hfield5. destruct Hfield5 as [-> Hquantity].
  repeat rstep H. inversion H; subst; simpl.
  eauto 10.
Qed.

Lemma ListingCreate_parse_sound payload l :
  ListingCreate.parse payload = inr l ->
  (exists v, lookup "price" payload = Some v
             /\ py_float v = inr (ListingCreate.price l))
  /\ PrimFloat.ltb 0%float (ListingCreate.price l) = true
  /\ (exists v, lookup "quantity" payload = Some v
                /\ int_field "quantity" v = inr (ListingCreate.quantity l))
  /\ 0 <= ListingCreate.quantity l.
Proof.
  unfold ListingCreate.parse. intros H.
  do 5 rstep H.
  rstep H. rstep Hfield4. apply required_inv in Hfield5. apply float_field_inv in Hfield4.
  rstep H. apply gt0_inv in Hfield6. destruct Hfield6 as [-> Hprice].
  rstep H. rstep Hfield6. apply required_inv in Hfield7.
  rstep H. apply ge0_inv in Hfield8. destruct Hfield8 as [-> Hquantity].
  repeat rstep H. inversion H; subst; simpl.
  eauto 10.
Qed.

Lemma invalid_payload_not_details payload :
  nonpositive_price payload \/ negative_quantity payload ->
  exists e, ListingDetails.parse payload = inl e /\ exn_class e = "ValidationError".
Proof.
  intros Hbad. destruct (ListingDetails.parse payload) as [e | d] eqn:Hparse.
  - exists e. split; [reflexivity |].
    now apply (ListingDetails_parse_rejecting payload).
  - exfalso. apply ListingDetails_parse_sound in Hparse.
    destruct Hparse as ((v & Hv & Hp) & Hpos & (v' & Hv' & Hq) & Hnonneg).
    destruct Hbad as [(u & Hu & Hle) | (u & Hu & Hbelow)].
    + rewrite Hu in Hv. inversion Hv; subst. unfold at_most_zero in Hle.
      rewrite Hp in Hle. apply leb_zero_not_positive in Hle. congruence.
    + rewrite Hu in Hv'. inversion Hv'; subst.
      pose proof (below_zero_int_field _ _ _ Hbelow Hq). lia.
Qed.

Lemma invalid_payload_not_create payload :
  nonpositive_price payload \/ negative_quantity payload ->
  exists e, ListingCreate.parse payload = inl e /\ exn_class e = "ValidationError".
Proof.
  intros Hbad. destruct (ListingCreate.parse payload) as [e | l] eqn:Hparse.
  - exists e. split; [reflexivity |].
    now apply (ListingCreate_parse_rejecting payload).
  - exfalso. apply ListingCreate_parse_sound in Hparse.
    destruct Hparse as ((v & Hv & Hp) & Hpos & (v' & Hv' & Hq) & Hnonneg).
    destruct Hbad as [(u & Hu & Hle) | (u & Hu & Hbelow)].
    + rewrite Hu in Hv. inversion Hv; subst. unfold at_most_zero in Hle.
      rewrite Hp in Hle. apply leb_zero_not_positive in Hle. congruence.
    + rewrite Hu in Hv'. inversion Hv'; subst.
      pose proof (below_zero_int_field _ _ _ Hbelow Hq). lia.
Qed.

End ValidationFacts.

Section ValidationClaims.

Context {P : Platform} {R : AgentRuntime}.

Import Payload.

Lemma create_tool_found :
  EbayMCPServer.agent_tool "create_listing" = ret EbayListingAgent.create_listing_tool.
Proof. reflexivity. Qed.

(** The payload that the protocol server builds has the price of its
    arguments, and their quantity when they give one. *)
Lemma invalid_arguments_invalid_payload args title description price category_id :
  lookup "price" args = Some price ->
  nonpositive_price args \/ negative_quantity args ->
  let listing_details :=
    [ ("title", title);
      ("description", description);
      ("price", price);
      ("quantity", get args "quantity" (VInt 1));
      ("category_id", category_id);
      ("condition", get args "condition" (VStr "New"));
      ("images", get args "images" (VList [])) ] in
  nonpositive_price listing_details \/ negative_quantity listing_details.
Proof.
  intros Hprice [(v & Hv & Hle) | (v & Hv & Hbelow)] listing_details.
  - left. exists price. rewrite Hprice in Hv. inversion Hv; subst. auto.
  - right. exists v. unfold listing_details, get. rewrite Hv. auto.
Qed.

(** C4: a creation request whose price is at most zero (a value that reads
    as a float at most zero, or an integer at most zero beyond the floats)
    or whose quantity is negative (a float below zero, whole or not, or a
    value that reads as an integer below zero) is rejected when its payload
    is validated, before the handler runs: the tool of the agent raises a validation error, the REST endpoint
    answers with a request validation error, the protocol server answers
    with an error result, and in each case the world is the one the request
    found (but for the clock read by the error result): the marketplace was
    not called and nothing was logged as sent. *)
Theorem invalid_listing_is_rejected_at_the_boundary :
  forall (payload : dict) (w : World),
    nonpositive_price payload \/ negative_quantity payload ->
    (exists e,
       function EbayListingAgent.create_listing_tool [VDict payload] w = (inl e, w)
       /\ exn_class e = "ValidationError")
    /\ (exists e,
          Main.create_listing payload w = (inl e, w)
          /\ exn_class e = "RequestValidationError")
    /\ (exists e, EbayMCPServer._create_listing payload w = (inl e, w))
    /\ (exists r,
          EbayMCPServer.handle_call_tool
            (EbayMCPServer.mkCallToolRequest "create_listing" payload) w
          = (inr r, mkWorld (market w) (listings w) (sdk_calls w)
                            (S (clock_reads w)) (uuids_drawn w))
          /\ EbayMCPServer.is_error r = true).
Proof.
  intros payload w Hbad.
  assert (Hmcp : exists e, EbayMCPServer._create_listing payload w = (inl e, w)).
  { unfold EbayMCPServer._create_listing, bind, lift, getitem.
    destruct (lookup "title" payload) as [title |]; [| eauto].
    destruct (lookup "description" payload) as [description |]; [| eauto].
    destruct (lookup "price" payload) as [price |] eqn:Hprice; [| eauto].
    destruct (lookup "category_id" payload) as [category_id |]; [| eauto].
    rewrite create_tool_found. unfold ret.
    destruct (invalid_payload_not_details _
                (invalid_arguments_invalid_payload payload title description
                   price category_id Hprice Hbad)) as (e & He & _).
    exists e. cbn [function EbayListingAgent.create_listing_tool
                   EbayListingAgent.with_model].
    unfold bind, lift. now rewrite He. }
  repeat split.
  - destruct (invalid_payload_not_details payload Hbad) as (e & He & Hclass).
    exists e. split; [| exact Hclass].
    cbn [function EbayListingAgent.create_listing_tool EbayListingAgent.with_model].
    unfold bind, lift. now rewrite He.
  - destruct (invalid_payload_not_create payload Hbad) as (e & He & Hclass).
    exists (Main.RequestValidationError e). split; [| reflexivity].
    unfold Main.create_listing. now rewrite He.
  - exact Hmcp.
  - destruct Hmcp as (e & He).
    unfold EbayMCPServer.handle_call_tool.
    cbn [EbayMCPServer.request_name EbayMCPServer.arguments].
    rewrite (try_except_caught _ _ w e w).
    + eexists. split; reflexivity.
    + unfold bind. change (EbayMCPServer.call "create_listing" payload)
        with (EbayMCPServer._create_listing payload). now rewrite He.
Qed.

End ValidationClaims.

(** ** Claims about the marketplace adapter *)

Section AdapterFacts.

Context {P : Platform}.

Import RoundTrip.

Lemma shipping_services_ok idx (options : list dict) :
  exists services,
    EbayService.shipping_services idx (map VDict options) = inr services.
Proof.
  revert idx. induction options as [| o rest IH]; intros idx; simpl.
  - eauto.
  - destruct (IH (S idx)) as (services & ->). simpl. eauto.
Qed.

Lemma item_specifics_ok (specifics : list (string * string)) :
  exists prepared,
    EbayService._prepare_item_specifics
      (VDict (map (fun kv => (fst kv, VStr (snd kv))) specifics)) = inr prepared.
Proof. simpl. eauto. Qed.

(** The payload sent for validated details: the title, the price and the
    quantity travel as [Title], [StartPrice] and [Quantity]. *)
Lemma add_item_payload_fields (d : ListingDetails.t) :
  exists item,
    EbayService.add_item_payload (ListingDetails.dict d) = inr (VDict [("Item", VDict item)])
    /\ lookup "Title" item = Some (VStr (ListingDetails.title d))
    /\ lookup "StartPrice" item = Some (VFloat (ListingDetails.price d))
    /\ lookup "Quantity" item = Some (VInt (ListingDetails.quantity d)).
Proof.
  unfold EbayService.add_item_payload, ListingDetails.dict, getitem, get. simpl.
  unfold EbayService._prepare_shipping_details. simpl.
  destruct (shipping_services_ok 0 (ListingDetails.shipping_options d))
    as (services & ->). simpl.
  eexists. split; [reflexivity |]. repeat split.
Qed.

(** The marketplace adapter leaves the listings table alone. *)
Lemma execute_listings api verb data w :
  listings (snd (EbayService.execute api verb data w)) = listings w.
Proof.
  unfold EbayService.execute. now destruct (sdk_execute api verb data (market w)).
Qed.

(** What [create_listing] returns has the three keys of the acknowledgement
    and the table is the one it found. *)
Lemma create_listing_returns listing_data w created w1 :
  EbayService.create_listing listing_data w = (inr created, w1) ->
  (exists item_id fees,
     created = [ ("listing_id", item_id);
                 ("listing_url", VStr ("https://www.ebay.com/itm/" ++ py_str item_id));
                 ("fees", fees) ])
  /\ listings w1 = listings w.
Proof.
  unfold EbayService.create_listing, try_except.
  match goal with
  | |- context [match ?m w with _ => _ end] => destruct (m w) as [[e | r] w'] eqn:Hrun
  end; [unfold raise; discriminate |].
  intros H. inversion H; subst. clear H.
  step_inv Hrun. apply lift_inv in Hstep. destruct Hstep as [_ ->].
  step_inv Hrun.
  assert (Hl : listings w0 = listings w).
  { rewrite <- (execute_listings "trading" "AddItem" a w). now rewrite Hstep. }
  step_inv Hrun. apply lift_inv in Hstep0. destruct Hstep0 as [_ ->].
  destruct (eq_str a1 "Success").
  - step_inv Hrun. apply lift_inv in Hstep0. destruct Hstep0 as [_ ->].
    step_inv Hrun. apply lift_inv in Hstep0. destruct Hstep0 as [_ ->].
    apply ret_inv in Hrun. destruct Hrun as [<- ->].
    split; [eauto | exact Hl].
  - unfold EbayService.api_error in Hrun. step_inv Hrun. discriminate.
Qed.

(** [_parse_listing] on an item of the expected shape. *)
Lemma parse_listing_reads stored amount title price_value quantity_value p q :
  well_formed stored ->
  lookup "Title" stored = Some title ->
  lookup "StartPrice" stored = Some (VDict amount) ->
  lookup "value" amount = Some price_value ->
  py_float price_value = inr p ->
  lookup "Quantity" stored = Some quantity_value ->
  py_int quantity_value = inr q ->
  exists listing,
    EbayService._parse_listing (VDict stored) = inr listing
    /\ lookup "title" listing = Some title
    /\ lookup "price" listing = Some (VFloat p)
    /\ lookup "quantity" listing = Some (VInt q).
Proof.
  intros Hwf Htitle Hprice Hvalue Hp Hquantity Hq.
  destruct (Hwf "PrimaryCategory") as (category & Hcategory); [simpl; auto |].
  destruct (Hwf "PictureDetails") as (pictures & Hpictures); [simpl; auto |].
  destruct (Hwf "SellingStatus") as (selling & Hselling); [simpl; auto 6 |].
  destruct (Hwf "ListingDetails") as (details & Hdetails); [simpl; auto 6 |].
  assert (Hgp : get stored "StartPrice" (VDict []) = VDict amount)
    by (unfold get; now rewrite Hprice).
  assert (Hgv : get amount "value" (VInt 0) = price_value)
    by (unfold get; now rewrite Hvalue).
  assert (Hgq : get stored "Quantity" (VInt 0) = quantity_value)
    by (unfold get; now rewrite Hquantity).
  assert (Hgt : get stored "Title" VNone = title)
    by (unfold get; now rewrite Htitle).
  unfold EbayService._parse_listing. cbn [py_get rbind].
  rewrite Hgp. cbn [py_get rbind]. rewrite Hgv, Hp. cbn [rbind].
  rewrite Hgq, Hq. cbn [rbind].
  rewrite Hcategory, Hpictures, Hselling, Hdetails. cbn [py_get rbind].
  rewrite Hgt.
  eexists. split; [reflexivity |]. repeat split.
Qed.

(** C6: a listing that the marketplace adapter created and that is read
    back by the id that came with the acknowledgement has the title, the
    price and the quantity that were submitted. The creation is one [AddItem]
    call, the last entry of the log of SDK calls; its payload carries the
    submitted title, price and quantity, and the id is the [ItemID] of the
    marketplace's answer to that call. Whenever the marketplace then answers
    the [GetItem] call for that id by showing what that logged call sent,
    [get_listing] returns the submitted title, price and quantity. *)
Theorem created_listing_reads_back :
  forall (d : ListingDetails.t) (w w1 : World) (created : dict)
         (listing_id : string),
    EbayService.create_listing (ListingDetails.dict d) w = (inr created, w1) ->
    lookup "listing_id" created = Some (VStr listing_id) ->
    exists (sent : value) (item : dict) (answer : value),
      sdk_calls w1 = sdk_calls w ++ [("trading", "AddItem", sent)]
      /\ sent = VDict [("Item", VDict item)]
      /\ lookup "Title" item = Some (VStr (ListingDetails.title d))
      /\ lookup "StartPrice" item = Some (VFloat (ListingDetails.price d))
      /\ lookup "Quantity" item = Some (VInt (ListingDetails.quantity d))
      /\ sdk_execute "trading" "AddItem" sent (market w) = (inr answer, market w1)
      /\ py_getitem answer "ItemID" = inr (VStr listing_id)
      /\ forall (response : value) (m2 : Market),
           sdk_execute "trading" "GetItem" (VDict [("ItemID", VStr listing_id)])
             (market w1)
           = (inr response, m2) ->
           echoes sent response ->
           exists listing,
             EbayService.get_listing listing_id w1
             = (inr listing,
                mkWorld m2 (listings w1)
                  (sdk_calls w1
                   ++ [("trading", "GetItem", VDict [("ItemID", VStr listing_id)])])
                  (clock_reads w1) (uuids_drawn w1))
             /\ lookup "title" listing = Some (VStr (ListingDetails.title d))
             /\ lookup "price" listing = Some (VFloat (ListingDetails.price d))
             /\ lookup "quantity" listing = Some (VInt (ListingDetails.quantity d)).
Proof.
  intros d w w1 created listing_id Hcreate Hid.
  destruct (add_item_payload_fields d) as (item0 & Hpayload & Ht & Hp & Hq).
  unfold EbayService.create_listing, try_except in Hcreate.
  match type of Hcreate with
  | context [match ?m w with _ => _ end] => destruct (m w) as [[e | r] w'] eqn:Hrun
  end; [unfold raise in Hcreate; discriminate |].
  inversion Hcreate; subst r w'. clear Hcreate.
  step_inv Hrun. apply lift_inv in Hstep. destruct Hstep as [Hsent ->].
  rewrite Hpayload in Hsent. inversion Hsent; subst a. clear Hsent.
  step_inv Hrun. rename a into answer. rename Hstep into Hadd.
  step_inv Hrun. apply lift_inv in Hstep. destruct Hstep as [_ ->].
  destruct (eq_str a "Success");
    [| unfold EbayService.api_error in Hrun; step_inv Hrun; discriminate].
  step_inv Hrun. apply lift_inv in Hstep. destruct Hstep as [Hitem ->].
  step_inv Hrun. apply lift_inv in Hstep. destruct Hstep as [_ ->].
  apply ret_inv in Hrun. destruct Hrun as [<- ->].
  cbn [lookup String.eqb Ascii.eqb Bool.eqb] in Hid. inversion Hid; subst a0. clear Hid.
  unfold EbayService.execute in Hadd.
  destruct (sdk_execute "trading" "AddItem" (VDict [("Item", VDict item0)]) (market w))
    as [r m1] eqn:Hsdk.
  inversion Hadd; subst r w0. clear Hadd. cbn [market sdk_calls listings clock_reads uuids_drawn] in *.
  exists (VDict [("Item", VDict item0)]), item0, answer.
  split; [reflexivity |]. split; [reflexivity |].
  split; [exact Ht |]. split; [exact Hp |]. split; [exact Hq |].
  split; [cbn [market]; exact Hsdk |]. split; [exact Hitem |].
  intros response m2 Hget Hecho.
  destruct Hecho as (item & fields & stored & amount & sent_price & price_value
                     & sent_quantity & quantity_value
                     & Hs & -> & Hack & Hshown & Hwf & Htitle & Hsp & Hsps & Hvalue
                     & Hfloat & Hsq & Hsqs & Hint).
  inversion Hs; subst item. clear Hs.
  rewrite Hp in Hsp. inversion Hsp; subst sent_price.
  rewrite Hq in Hsq. inversion Hsq; subst sent_quantity.
  rewrite Ht in Htitle.
  destruct (parse_listing_reads stored amount _ price_value quantity_value
              (ListingDetails.price d) (ListingDetails.quantity d)
              Hwf Htitle Hsps Hvalue Hfloat Hsqs Hint)
    as (listing & Hparse & Hfields).
  exists listing. split; [| exact Hfields].
  unfold EbayService.get_listing.
  apply try_except_ok.
  unfold bind at 1. unfold EbayService.execute.
  cbn [market sdk_calls listings clock_reads uuids_drawn]. rewrite Hget.
  unfold bind, lift. cbn [py_get]. unfold get. rewrite Hack.
  cbn [eq_str]. rewrite String.eqb_refl.
  cbn [py_getitem]. unfold getitem. rewrite Hshown.
  rewrite Hparse. reflexivity.
Qed.

End AdapterFacts.

(** ** Claims about search *)

Section SearchClaims.

Context {P : Platform} {R : AgentRuntime}.

Lemma filter_all {A} (f : A -> bool) (l : list A) :
  (forall x, f x = true) -> filter f l = l.
Proof.
  intros Hf. induction l as [| x l IH]; simpl; [reflexivity |].
  now rewrite Hf, IH.
Qed.

(** C7: the merged list of a search is the marketplace results followed by
    the local results, nothing is dropped: its length is the sum of the two
    lengths, every entry of either source is in it, and for any test on
    entries (such as carrying a given listing id) the merged list has as
    many entries passing it as the two sources together. The handler
    returns that list with its length as [count]; with an empty keyword, or
    none, and no other filter, the local results are the whole table. *)
Theorem search_merges_by_concatenation :
  (forall ebay local : list value,
     EbayListingAgent._merge_listings ebay local = ebay ++ local
     /\ List.length (EbayListingAgent._merge_listings ebay local)
        = (List.length ebay + List.length local)%nat
     /\ (forall x, In x (EbayListingAgent._merge_listings ebay local)
                   <-> In x ebay \/ In x local)
     /\ (forall f : value -> bool,
           List.length (filter f (EbayListingAgent._merge_listings ebay local))
           = (List.length (filter f ebay) + List.length (filter f local))%nat))
  /\ (forall criteria w,
        let query := ListingSearchCriteria.dict_exclude_none criteria in
        match EbayService.search_listings query w with
        | (inr ebay, w1) =>
            let local :=
              map (VObj "Listing")
                  (filter (DatabaseService.selected query) (listings w1)) in
            EbayListingAgent.search_listings criteria w =
            (inr [ ("success", VBool true);
                   ("count", VInt (Z.of_nat (List.length ebay + List.length local)));
                   ("listings", VList (ebay ++ local));
                   ("message",
                    VStr ("Found "
                          ++ str_of_nat (List.length ebay + List.length local)
                          ++ " listings")) ],
             w1)
        | (inl e, w1) =>
            EbayListingAgent.search_listings criteria w =
            (inr [ ("success", VBool false);
                   ("error", VStr (exn_str e));
                   ("message", VStr "Search failed") ],
             w1)
        end)
  /\ (forall w,
        DatabaseService.search_listings
          (ListingSearchCriteria.dict_exclude_none
             (ListingSearchCriteria.make (Some "") None None None None)) w
        = (inr (listings w), w))
  /\ (forall w,
        DatabaseService.search_listings
          (ListingSearchCriteria.dict_exclude_none
             (ListingSearchCriteria.make None None None None None)) w
        = (inr (listings w), w)).
Proof.
  repeat split.
  - unfold EbayListingAgent._merge_listings. apply length_app.
  - unfold EbayListingAgent._merge_listings. apply in_app_or.
  - unfold EbayListingAgent._merge_listings. apply in_or_app.
  - unfold EbayListingAgent._merge_listings. intros f.
    now rewrite filter_app, length_app.
  - intros criteria w query.
    unfold EbayListingAgent.search_listings, EbayListingAgent.search_listings_try,
      try_except, bind.
    fold query.
    destruct (EbayService.search_listings query w) as [[e | ebay] w1]; [reflexivity |].
    unfold DatabaseService.search_listings, DatabaseService.table, bind, ret,
      EbayListingAgent._merge_listings.
    cbv zeta. now rewrite length_app.
  - intros w. unfold DatabaseService.search_listings, DatabaseService.table, bind, ret.
    now rewrite filter_all.
  - intros w. unfold DatabaseService.search_listings, DatabaseService.table, bind, ret.
    now rewrite filter_all.
Qed.

End SearchClaims.

(** ** Claims about the persistence layer *)

Section StoreFacts.

Context {P : Platform}.

Lemma lookup_dict_set k v d k' :
  lookup k' (dict_set k v d) = if String.eqb k' k then Some v else lookup k' d.
Proof.
  induction d as [| [k0 v0] d IH]; simpl.
  - reflexivity.
  - destruct (String.eqb k k0) eqn:Hk; simpl.
    + apply String.eqb_eq in Hk. subst k0.
      now destruct (String.eqb k' k).
    + destruct (String.eqb k' k0) eqn:Hk0.
      * apply String.eqb_eq in Hk0. subst k0.
        destruct (String.eqb k' k) eqn:Hk'; [| reflexivity].
        apply String.eqb_eq in Hk'. subst k'.
        rewrite String.eqb_refl in Hk. discriminate.
      * exact IH.
Qed.

Lemma getattr_set listing k v a :
  Listing.getattr (Listing.set listing k v) a =
  if String.eqb a k then v else Listing.getattr listing a.
Proof.
  unfold Listing.getattr, Listing.set, get. rewrite lookup_dict_set.
  now destruct (String.eqb a k).
Qed.

(** Assigning to a column is a plain write of that column. *)
Lemma setattr_column listing k v :
  Listing.mem k Listing.columns = true ->
  Listing.setattr listing k v = inr (Listing.set listing k v).
Proof. intros Hk. unfold Listing.setattr. now rewrite Hk. Qed.

Lemma plain_attribute k :
  Listing.plain k = true -> Listing.attribute k = true ->
  Listing.mem k Listing.columns = true.
Proof.
  unfold Listing.plain. intros Hplain Hattr. rewrite Hattr in Hplain.
  now rewrite orb_false_r in Hplain.
Qed.

(** A relationship is an attribute and is no column. *)
Lemma relationship_attribute k :
  Listing.mem k Listing.relationships = true ->
  Listing.attribute k = true /\ Listing.mem k Listing.columns = false.
Proof.
  intros Hk. split.
  - unfold Listing.attribute. rewrite Hk. now rewrite orb_true_r.
  - cbn [Listing.mem Listing.relationships] in Hk.
    destruct (String.eqb k "user") eqn:Hu.
    + apply String.eqb_eq in Hu. now subst k.
    + destruct (String.eqb k "analytics") eqn:Ha; [| discriminate].
      apply String.eqb_eq in Ha. now subst k.
Qed.

(** Reading a column, or a name that is no attribute, never raises. *)
Lemma hasattr_plain listing k :
  Listing.plain k = true ->
  Listing.hasattr listing k = inr (Listing.attribute k).
Proof.
  intros Hplain. unfold Listing.hasattr.
  destruct (Listing.mem k Listing.relationships) eqn:Hk; [| reflexivity].
  destruct (relationship_attribute k Hk) as [Hattr Hcolumn].
  unfold Listing.plain in Hplain. rewrite Hattr, Hcolumn in Hplain. discriminate.
Qed.




(** An attribute whose name is not a key of the updates, or is not an
    attribute of [Listing], is left as it was by a loop of plain writes. *)
Lemma apply_updates_frame updates listing applied a :
  (forall k, In k (keys updates) -> Listing.plain k = true) ->
  DatabaseService.apply_updates listing updates = inr applied ->
  ~ In a (keys updates) \/ Listing.attribute a = false ->
  Listing.getattr applied a = Listing.getattr listing a.
Proof.
  revert listing. induction updates as [| [k v] updates IH];
    intros listing Hplain Happlied Ha; simpl in Happlied.
  - now inversion Happlied.
  - assert (Hrest : forall k', In k' (keys updates) -> Listing.plain k' = true)
      by (intros k' Hin; apply Hplain; simpl; now right).
    assert (Ha' : ~ In a (keys updates) \/ Listing.attribute a = false).
    { destruct Ha as [Ha | Ha]; [left | now right].
      intros Hin. apply Ha. simpl. now right. }
    rewrite hasattr_plain in Happlied by (apply Hplain; simpl; now left).
    cbn [rbind] in Happlied.
    destruct (Listing.attribute k) eqn:Hk; [| now apply (IH listing)].
    rewrite setattr_column in Happlied
      by (apply plain_attribute; [apply Hplain; simpl; now left | exact Hk]).
    simpl in Happlied.
    rewrite (IH _ Hrest Happlied Ha'). rewrite getattr_set.
    destruct (String.eqb a k) eqn:Hak; [| reflexivity].
    apply String.eqb_eq in Hak. subst k.
    destruct Ha as [Ha | Ha]; [| congruence].
    exfalso. apply Ha. simpl. now left.
Qed.


(** With the keys of a dictionary of plain writes distinct, an attribute
    among them ends up with the value given for it. *)
Lemma apply_updates_sets updates listing applied k v :
  (forall k', In k' (keys updates) -> Listing.plain k' = true) ->
  DatabaseService.apply_updates listing updates = inr applied ->
  NoDup (keys updates) ->
  In (k, v) updates ->
  Listing.attribute k = true ->
  Listing.getattr applied k = v.
Proof.
  revert listing. induction updates as [| [k0 v0] updates IH];
    intros listing Hplain Happlied Hnodup Hin Hattr; simpl in Happlied.
  - destruct Hin.
  - assert (Hrest : forall k', In k' (keys updates) -> Listing.plain k' = true)
      by (intros k' Hin'; apply Hplain; simpl; now right).
    rewrite hasattr_plain in Happlied by (apply Hplain; simpl; now left).
    cbn [rbind] in Happlied.
    inversion Hnodup as [| ? ? Hnotin Hnodup']; subst.
    destruct Hin as [Heq | Hin].
    + inversion Heq; subst k0 v0. rewrite Hattr in Happlied.
      rewrite setattr_column in Happlied
        by (apply plain_attribute; [apply Hplain; simpl; now left | exact Hattr]).
      simpl in Happlied.
      rewrite (apply_updates_frame _ _ _ k Hrest Happlied); [| now left].
      rewrite getattr_set. now rewrite String.eqb_refl.
    + destruct (Listing.attribute k0) eqn:Hk0; [| now apply (IH listing)].
      rewrite setattr_column in Happlied
        by (apply plain_attribute; [apply Hplain; simpl; now left | exact Hk0]).
      simpl in Happlied. now apply (IH _ Hrest Happlied).
Qed.




End StoreFacts.

(** ** Claims about creation *)

Section CreationFacts.

Context {P : Platform} {R : AgentRuntime}.

Lemma create_listing_listings listing_data w :
  listings (snd (EbayService.create_listing listing_data w)) = listings w.
Proof.
  unfold EbayService.create_listing, try_except, bind, lift, raise, ret,
    EbayService.api_error.
  destruct (EbayService.add_item_payload listing_data) as [e | item]; [reflexivity |].
  pose proof (execute_listings "trading" "AddItem" item w) as Hl.
  destruct (EbayService.execute "trading" "AddItem" item w) as [[e | r] w1];
    simpl in Hl; [exact Hl |].
  destruct (py_get r "Ack" VNone) as [e | ack]; [exact Hl |].
  destruct (eq_str ack "Success").
  - destruct (py_getitem r "ItemID") as [e | item_id]; [exact Hl |].
    destruct (py_get r "Fees" (VDict [])) as [e | fees]; exact Hl.
  - unfold bind, lift.
    destruct (py_get r "Errors" (VStr "Unknown error")) as [e | errors]; exact Hl.
Qed.

(** What the marketplace adapter returns has no title, so storing it
    fails on the first field that [store_listing] requires. *)
Lemma store_of_acknowledgement item_id url fees w :
  DatabaseService.store_listing
    [("listing_id", item_id); ("listing_url", url); ("fees", fees)] w
  = (inl (KeyError "title"), w).
Proof. reflexivity. Qed.

(** The creation handler never stores a row: when the marketplace has
    created the listing, the handler fails on the title that the
    acknowledgement does not carry, and reports a failure. *)
Lemma create_listing_stores_nothing (details : ListingDetails.t) (w : World) :
  match EbayService.create_listing (ListingDetails.dict details) w with
  | (inr created, w1) =>
      EbayListingAgent.create_listing details w =
      (inr [ ("success", VBool false);
             ("error", VStr "'title'");
             ("message", VStr "Failed to create listing") ],
       w1)
      /\ listings w1 = listings w
  | (inl e, w1) =>
      EbayListingAgent.create_listing details w =
      (inr [ ("success", VBool false);
             ("error", VStr (exn_str e));
             ("message", VStr "Failed to create listing") ],
       w1)
      /\ listings w1 = listings w
  end.
Proof.
  pose proof (create_listing_listings (ListingDetails.dict details) w) as Hl.
  unfold EbayListingAgent.create_listing, EbayListingAgent.create_listing_try,
    EbayListingAgent._validate_listing.
  destruct (EbayService.create_listing (ListingDetails.dict details) w)
    as [[e | created] w1] eqn:Hcreate; simpl in Hl; (split; [| exact Hl]).
  - rewrite (try_except_caught _ _ w e w1); [reflexivity |].
    rewrite (bind_ok _ _ w details w eq_refl).
    now rewrite (bind_raise _ _ w e w1 Hcreate).
  - rewrite (try_except_caught _ _ w (KeyError "title") w1); [reflexivity |].
    rewrite (bind_ok _ _ w details w eq_refl).
    rewrite (bind_ok _ _ w created w1 Hcreate).
    destruct (create_listing_returns _ _ _ _ Hcreate) as ((item_id & fees & ->) & _).
    now rewrite (bind_raise _ _ w1 (KeyError "title") w1 (store_of_acknowledgement _ _ _ _)).
Qed.

(** The persistence layer itself, given the fields of a listing, writes a
    row with status [active], a [listed_at] timestamp and the title, price
    and quantity it was given. *)
Lemma store_listing_writes_an_active_row listing_data w
    title description price quantity category_id condition :
  lookup "title" listing_data = Some title ->
  lookup "description" listing_data = Some description ->
  lookup "price" listing_data = Some price ->
  lookup "quantity" listing_data = Some quantity ->
  lookup "category_id" listing_data = Some category_id ->
  lookup "condition" listing_data = Some condition ->
  exists listing w3,
    Listing.getattr listing "status" = VStr "active"
    /\ Listing.getattr listing "listed_at" = VDateTime (utc_clock (clock_reads w))
    /\ Listing.getattr listing "title" = title
    /\ Listing.getattr listing "price" = price
    /\ Listing.getattr listing "quantity" = quantity
    /\ listings w3 = listings w
    /\ match commit_error (listings w) (listings w ++ [listing]) with
       | None =>
           DatabaseService.store_listing listing_data w =
           (inr listing,
            mkWorld (market w3) (listings w ++ [listing]) (sdk_calls w3)
                    (clock_reads w3) (uuids_drawn w3))
       | Some e => DatabaseService.store_listing listing_data w = (inl e, w3)
       end.
Proof.
  intros Ht Hd Hp Hq Hc Hn.
  unfold DatabaseService.store_listing, bind, lift, getitem.
  rewrite Ht, Hd, Hp, Hq, Hc, Hn.
  generalize (get listing_data "listing_id" VNone) as ebay_listing_id.
  generalize (get listing_data "user_id" VNone) as user_id.
  generalize (get listing_data "images" (VList [])) as images.
  generalize (get listing_data "item_specifics" (VDict [])) as item_specifics.
  generalize (get listing_data "shipping_options" (VList [])) as shipping_options.
  intros shipping_options item_specifics images user_id ebay_listing_id.
  unfold DatabaseService.commit, DatabaseService.with_defaults,
    DatabaseService.unset, DatabaseService.table, new_uuid, utcnow, bind, ret.
  cbn -[commit_error utc_clock uuid4].
  match goal with
  | |- context [commit_error (listings w) (listings w ++ [?stored])] => exists stored
  end.
  exists (mkWorld (market w) (listings w) (sdk_calls w)
                  (S (S (S (clock_reads w)))) (S (uuids_drawn w))).
  repeat (split; [reflexivity |]).
  destruct (commit_error _ _); reflexivity.
Qed.

End CreationFacts.

(** ** The claims on the in-memory marketplace *)

Section FixtureRuns.

Import Fixture.

(** C1 does not hold as worded. An id given twice is recorded twice by
    [bulk_update], and the delete branch of the protocol server reports
    neither [successful] nor [failed]. *)
Lemma bulk_report_not_as_specified :
  (exists d w',
     EbayListingAgent.bulk_update ["110"; "110"] [("price", VFloat 5%float)] stocked
     = (inr d, w')
     /\ ~ Report.as_specified ["110"; "110"] d)
  /\ (exists d w',
        EbayMCPServer._bulk_operations
          [("operation", VStr "delete"); ("listing_ids", VList [VStr "110"])] stocked
        = (inr d, w')
        /\ lookup "successful" d = None
        /\ lookup "failed" d = None
        /\ ~ Report.as_specified ["110"] d).
Proof.
  split.
  - eexists. eexists. split; [vm_compute; reflexivity |].
    intros (total & successful & failed & results & _ & _ & _ & _ & _ & Hr & Honce).
    vm_compute in Hr. inversion Hr; subst results. clear Hr.
    specialize (Honce "110" (or_introl eq_refl)).
    vm_compute in Honce. discriminate.
  - eexists. eexists. split; [vm_compute; reflexivity |].
    split; [reflexivity |]. split; [reflexivity |].
    intros (total & successful & failed & results & _ & Hs & _).
    vm_compute in Hs. discriminate.
Qed.

(** C3 does not hold as worded. The assistant handler of the protocol
    server returns a dictionary with neither [success] nor [message], and
    an exception of its body (here the missing [query]) is not turned into
    an envelope: it leaves the handler. *)
Lemma assistant_handler_has_no_envelope :
  fst (EbayMCPServer._ai_assistant [("query", VStr "hello")] world)
  = inr [ ("query", VStr "hello");
          ("response", VStr "Done.");
          ("timestamp", VStr "1700000000") ]
  /\ ~ Envelope.enveloped (EbayMCPServer._ai_assistant [("query", VStr "hello")])
  /\ EbayMCPServer._ai_assistant [] world = (inl (KeyError "query"), world).
Proof.
  split; [vm_compute; reflexivity |]. split; [| reflexivity].
  intros H. destruct (H world) as (d & w' & Hrun & flag & message & Hs & _).
  vm_compute in Hrun. inversion Hrun; subst d. discriminate.
Qed.

(** C8 on the scenario of the specification: the camera is created on the
    marketplace as item 110, and yet the handler reports a failure and the
    listings table has no row, because the handler hands the marketplace
    acknowledgement, which has no title, to [store_listing]. *)
Theorem vintage_camera_is_listed_but_not_stored :
  fst (EbayListingAgent.create_listing camera_details world)
  = inr [ ("success", VBool false);
          ("error", VStr "'title'");
          ("message", VStr "Failed to create listing") ]
  /\ listings (snd (EbayListingAgent.create_listing camera_details world)) = []
  /\ map fst (items (market (snd (EbayListingAgent.create_listing camera_details world))))
     = ["110"]
  /\ map (fun c => snd (fst c))
         (sdk_calls (snd (EbayListingAgent.create_listing camera_details world)))
     = ["AddItem"].
Proof. repeat split; vm_compute; reflexivity. Qed.

(** C2 on a name that no tool has. *)
Lemma unknown_tool_witness :
  EbayMCPServer.registered "translate_listing" = false
  /\ EbayMCPServer.handle_call_tool
       (EbayMCPServer.mkCallToolRequest "translate_listing" []) world
     = (inr (EbayMCPServer.mkToolResult
               [ EbayMCPServer.mkTextContent "text"
                   (json_text None
                      (VDict [ ("error", VStr "Unknown tool: translate_listing");
                               ("tool", VStr "translate_listing");
                               ("timestamp", VStr "1700000000") ])) ]
               true),
        mkWorld empty [] [] 1 0).
Proof.
  split; [reflexivity |].
  apply (unknown_tool_is_an_error_result
           (EbayMCPServer.mkCallToolRequest "translate_listing" []) world).
  reflexivity.
Defined.

(** C4 on the camera offered for nothing, and on half a camera owed. *)
Lemma invalid_listing_witness :
  (Payload.nonpositive_price free_camera
   /\ (exists e,
         function EbayListingAgent.create_listing_tool [VDict free_camera] world
         = (inl e, world)
         /\ exn_class e = "ValidationError")
   /\ sdk_calls (snd (function EbayListingAgent.create_listing_tool
                        [VDict free_camera] world)) = [])
  /\ (Payload.negative_quantity owed_camera
      /\ (exists e,
            Main.create_listing owed_camera world = (inl e, world)
            /\ exn_class e = "RequestValidationError")).
Proof.
  assert (Hprice : Payload.nonpositive_price free_camera).
  { exists (VFloat 0%float). split; reflexivity. }
  assert (Hquantity : Payload.negative_quantity owed_camera).
  { exists (VFloat (-0.5)%float). split; reflexivity. }
  split; [split; [exact Hprice | split] | split; [exact Hquantity |]].
  - exact (proj1 (invalid_listing_is_rejected_at_the_boundary
                    free_camera world (or_introl Hprice))).
  - reflexivity.
  - exact (proj1 (proj2 (invalid_listing_is_rejected_at_the_boundary
                           owed_camera world (or_intror Hquantity)))).
Defined.

(** C5 on the stocked marketplace: 110 and 111 are listed, 999 is not. *)
Lemma bulk_update_witness :
  EbayListingAgent.bulk_update ["110"; "999"; "111"] [("price", VFloat 5%float)] stocked
  = (inr [ ("success", VBool true);
           ("total", VInt 3);
           ("successful", VInt 2);
           ("failed", VInt 1);
           ("results",
            VList [ VDict [("listing_id", VStr "110"); ("success", VBool true)];
                    VDict [("listing_id", VStr "999"); ("success", VBool false);
                           ("error",
                            VStr "Failed to update listing: eBay API error: Item not found")];
                    VDict [("listing_id", VStr "111"); ("success", VBool true)] ]);
           ("message", VStr "Updated 2 of 3 listings") ],
     snd (EbayListingAgent.bulk_update ["110"; "999"; "111"]
            [("price", VFloat 5%float)] stocked)).
Proof.
  destruct (bulk_update_records_each_failure [("price", VFloat 5%float)])
    as (_ & _ & _ & Hscenario).
  eapply eq_trans.
  - eapply Hscenario; vm_compute; reflexivity.
  - vm_compute. reflexivity.
Defined.

(** C6 on the camera: created as item 110, then read back. *)
Lemma created_listing_witness :
  exists listing w2,
    EbayService.get_listing "110"
      (snd (EbayService.create_listing (ListingDetails.dict camera_details) world))
    = (inr listing, w2)
    /\ lookup "title" listing = Some (VStr "Vintage Camera")
    /\ lookup "price" listing = Some (VFloat price_49_99)
    /\ lookup "quantity" listing = Some (VInt 1).
Proof.
  destruct (created_listing_reads_back camera_details world
              (snd (EbayService.create_listing (ListingDetails.dict camera_details) world))
              [ ("listing_id", VStr "110");
                ("listing_url", VStr "https://www.ebay.com/itm/110");
                ("fees", VDict []) ]
              "110")
    as (sent & item & answer & Hcalls & _ & _ & _ & _ & _ & _ & Hback).
  - vm_compute. reflexivity.
  - reflexivity.
  - vm_compute in Hcalls. inversion Hcalls; subst sent. clear Hcalls.
    edestruct Hback as (listing & Hrun & Hfields).
    + vm_compute. reflexivity.
    + unfold RoundTrip.echoes. do 8 eexists.
      split; [reflexivity |]. split; [reflexivity |].
      split; [reflexivity |]. split; [reflexivity |].
      split.
      { intros k [<- | [<- | [<- | [<- | []]]]]; eexists; reflexivity. }
      repeat (split; [reflexivity |]). reflexivity.
    + exists listing. eexists. split; [exact Hrun | exact Hfields].
Defined.


End FixtureRuns.

(** * Further properties of the code *)

(** ** Who touches what *)

Section FrameFacts.

Context {P : Platform}.

Import Frame.

Lemma marketplace_only_ret {A} (a : A) : marketplace_only (ret a).
Proof. intros w. simpl. repeat split. exists []. now rewrite app_nil_r. Qed.

Lemma marketplace_only_raise {A} e : marketplace_only (@raise P A e).
Proof. intros w. simpl. repeat split. exists []. now rewrite app_nil_r. Qed.

Lemma marketplace_only_lift {A} (r : result A) : marketplace_only (lift r).
Proof. intros w. simpl. repeat split. exists []. now rewrite app_nil_r. Qed.

Lemma marketplace_only_bind {A B} (m : M A) (k : A -> M B) :
  marketplace_only m -> (forall a, marketplace_only (k a)) ->
  marketplace_only (bind m k).
Proof.
  intros Hm Hk w. unfold bind. specialize (Hm w).
  destruct (m w) as [[e | a] w1]; simpl in *; [exact Hm |].
  destruct Hm as (Hl & Hc & Hu & calls & Hs).
  destruct (Hk a w1) as (Hl' & Hc' & Hu' & calls' & Hs').
  repeat split; try congruence.
  exists (calls ++ calls'). rewrite Hs', Hs. now rewrite app_assoc.
Qed.

Lemma marketplace_only_try {A} (m : M A) (h : exn -> M A) :
  marketplace_only m -> (forall e, marketplace_only (h e)) ->
  marketplace_only (try_except m h).
Proof.
  intros Hm Hh w. unfold try_except. specialize (Hm w).
  destruct (m w) as [[e | a] w1]; simpl in *; [| exact Hm].
  destruct Hm as (Hl & Hc & Hu & calls & Hs).
  destruct (Hh e w1) as (Hl' & Hc' & Hu' & calls' & Hs').
  repeat split; try congruence.
  exists (calls ++ calls'). rewrite Hs', Hs. now rewrite app_assoc.
Qed.

Lemma marketplace_only_execute api verb data :
  marketplace_only (EbayService.execute api verb data).
Proof.
  intros w. unfold EbayService.execute.
  destruct (sdk_execute api verb data (market w)) as [r m]. simpl.
  repeat split. now exists [(api, verb, data)].
Qed.

Ltac marketplace_only_steps :=
  repeat first
    [ apply marketplace_only_ret
    | apply marketplace_only_raise
    | apply marketplace_only_lift
    | apply marketplace_only_execute
    | apply marketplace_only_try; [| intros ?]
    | apply marketplace_only_bind; [| intros ?]
    | match goal with
      | |- marketplace_only (if ?c then _ else _) => destruct c
      end ].

(** X1: the seven operations of the marketplace adapter leave the listings
    table, the clock and the identifier counter as they found them, whether
    they return or raise, and never remove an entry from the log of SDK
    calls. *)
Theorem adapter_works_on_the_marketplace_only :
  (forall listing_data, marketplace_only (EbayService.create_listing listing_data))
  /\ (forall listing_id updates,
        marketplace_only (EbayService.update_listing listing_id updates))
  /\ (forall listing_id, marketplace_only (EbayService.get_listing listing_id))
  /\ (forall criteria, marketplace_only (EbayService.search_listings criteria))
  /\ (forall listing_id, marketplace_only (EbayService.delete_listing listing_id))
  /\ (forall listing_id,
        marketplace_only (EbayService.get_listing_analytics listing_id))
  /\ (forall title description,
        marketplace_only (EbayService.get_category_suggestions title description)).
Proof.
  unfold EbayService.create_listing, EbayService.update_listing,
    EbayService.get_listing, EbayService.search_listings,
    EbayService.delete_listing, EbayService.get_listing_analytics,
    EbayService.get_category_suggestions, EbayService.api_error.
  split; [intros; marketplace_only_steps |].
  split; [intros; marketplace_only_steps |].
  split; [intros; marketplace_only_steps |].
  split; [intros; marketplace_only_steps |].
  split; [intros; marketplace_only_steps |].
  split; intros; marketplace_only_steps.
Qed.

End FrameFacts.

Section StoreFrameFacts.

Context {P : Platform}.

Import Frame.

Lemma store_only_ret {A} (a : A) : store_only (ret a).
Proof. intros w. now split. Qed.

Lemma store_only_lift {A} (r : result A) : store_only (lift r).
Proof. intros w. now split. Qed.

Lemma store_only_bind {A B} (m : M A) (k : A -> M B) :
  store_only m -> (forall a, store_only (k a)) -> store_only (bind m k).
Proof.
  intros Hm Hk w. unfold bind. specialize (Hm w).
  destruct (m w) as [[e | a] w1]; simpl in *; [exact Hm |].
  destruct Hm as (Hm1 & Hm2). destruct (Hk a w1) as (Hk1 & Hk2).
  split; congruence.
Qed.

Lemma store_only_commit table : store_only (DatabaseService.commit table).
Proof.
  intros w. unfold DatabaseService.commit.
  now destruct (commit_error (listings w) table).
Qed.

Lemma store_only_table : store_only DatabaseService.table.
Proof. intros w. now split. Qed.

Lemma store_only_utcnow : store_only utcnow.
Proof. intros w. now split. Qed.

Lemma store_only_new_uuid : store_only new_uuid.
Proof. intros w. now split. Qed.

Ltac store_only_steps :=
  repeat first
    [ apply store_only_ret
    | apply store_only_lift
    | apply store_only_commit
    | apply store_only_table
    | apply store_only_utcnow
    | apply store_only_new_uuid
    | apply store_only_bind; [| intros ?]
    | match goal with
      | |- store_only (if ?c then _ else _) => destruct c
      | |- store_only (match ?x with Some _ => _ | None => _ end) => destruct x
      end ].

(** X2: the four operations of the persistence layer on listings make no
    SDK call and leave the marketplace as they found it, whether they
    return or raise. *)
Theorem persistence_never_calls_the_marketplace :
  (forall listing_data, store_only (DatabaseService.store_listing listing_data))
  /\ (forall listing_id updates,
        store_only (DatabaseService.update_listing listing_id updates))
  /\ (forall listing_id, store_only (DatabaseService.delete_listing listing_id))
  /\ (forall criteria, store_only (DatabaseService.search_listings criteria)).
Proof.
  unfold DatabaseService.store_listing, DatabaseService.update_listing,
    DatabaseService.delete_listing, DatabaseService.search_listings,
    DatabaseService.with_defaults.
  split; [intros; store_only_steps |].
  split; [intros; store_only_steps |].
  split; intros; store_only_steps.
Qed.

(** A body guarded by [except Exception as e: raise Exception(prefix + str(e))]. *)
Lemma rewrapped_try {A} (body : M A) prefix :
  rewrapped prefix
    (try_except body (fun e => raise (Exception (prefix ++ exn_str e)))).
Proof.
  intros w e w'. unfold try_except, raise.
  destruct (body w) as [[e0 | a] w1]; intros H; inversion H; subst.
  now exists (exn_str e0).
Qed.

(** X3: an operation of the marketplace adapter that fails raises a plain
    [Exception] whose text is the operation's own prefix followed by the
    text of the cause. For each of the seven operations, an error [e] raised
    by its SDK call gives the prefix followed by [str(e)]. For
    [create_listing], [update_listing] and [get_listing], an answer whose
    [Ack] is not [Success] gives the prefix followed by [eBay API error: ]
    and the [Errors] of the answer ([Unknown error] without them). For
    [get_listing], an acknowledged answer whose item is missing or cannot
    be parsed gives the prefix followed by the text of that error. For
    [create_listing], an error [e] raised while the payload is built (a
    missing title gives [KeyError('title')]) gives the prefix followed by
    [str(e)], and no call is made. *)
Theorem adapter_failures_are_rewrapped :
  ((forall listing_data,
      rewrapped "Failed to create listing: " (EbayService.create_listing listing_data))
   /\ (forall listing_id updates,
         rewrapped "Failed to update listing: "
                   (EbayService.update_listing listing_id updates))
   /\ (forall listing_id,
         rewrapped "Failed to get listing: " (EbayService.get_listing listing_id))
   /\ (forall criteria,
         rewrapped "Failed to search listings: " (EbayService.search_listings criteria))
   /\ (forall listing_id,
         rewrapped "Failed to end listing: " (EbayService.delete_listing listing_id))
   /\ (forall listing_id,
         rewrapped "Failed to get analytics: "
                   (EbayService.get_listing_analytics listing_id))
   /\ (forall title description,
         rewrapped "Failed to get category suggestions: "
                   (EbayService.get_category_suggestions title description)))
  /\ (forall (w : World) (e : exn) (m : Market),
        (forall listing_data sent,
           EbayService.add_item_payload listing_data = inr sent ->
           sdk_execute "trading" "AddItem" sent (market w) = (inl e, m) ->
           fails_with (EbayService.create_listing listing_data) w
             "trading" "AddItem" sent m
             "Failed to create listing: " (exn_str e))
        /\ (forall listing_id updates,
              sdk_execute "trading" "ReviseItem"
                (EbayService.revision listing_id updates) (market w) = (inl e, m) ->
              fails_with (EbayService.update_listing listing_id updates) w
                "trading" "ReviseItem" (EbayService.revision listing_id updates) m
                "Failed to update listing: " (exn_str e))
        /\ (forall listing_id,
              sdk_execute "trading" "GetItem"
                (VDict [("ItemID", VStr listing_id)]) (market w) = (inl e, m) ->
              fails_with (EbayService.get_listing listing_id) w
                "trading" "GetItem" (VDict [("ItemID", VStr listing_id)]) m
                "Failed to get listing: " (exn_str e))
        /\ (forall criteria,
              sdk_execute "finding" "findItemsAdvanced"
                (EbayService.search_params criteria) (market w) = (inl e, m) ->
              fails_with (EbayService.search_listings criteria) w
                "finding" "findItemsAdvanced" (EbayService.search_params criteria) m
                "Failed to search listings: " (exn_str e))
        /\ (forall listing_id,
              sdk_execute "trading" "EndItem"
                (VDict [("ItemID", VStr listing_id);
                        ("EndingReason", VStr "NotAvailable")]) (market w)
              = (inl e, m) ->
              fails_with (EbayService.delete_listing listing_id) w
                "trading" "EndItem"
                (VDict [("ItemID", VStr listing_id);
                        ("EndingReason", VStr "NotAvailable")]) m
                "Failed to end listing: " (exn_str e))
        /\ (forall listing_id,
              sdk_execute "trading" "GetItem"
                (VDict [("ItemID", VStr listing_id);
                        ("IncludeWatchCount", VBool true)]) (market w)
              = (inl e, m) ->
              fails_with (EbayService.get_listing_analytics listing_id) w
                "trading" "GetItem"
                (VDict [("ItemID", VStr listing_id);
                        ("IncludeWatchCount", VBool true)]) m
                "Failed to get analytics: " (exn_str e))
        /\ (forall title description,
              sdk_execute "trading" "GetSuggestedCategories"
                (VDict [("Query", VStr (EbayService.query_of title))]) (market w)
              = (inl e, m) ->
              fails_with (EbayService.get_category_suggestions title description) w
                "trading" "GetSuggestedCategories"
                (VDict [("Query", VStr (EbayService.query_of title))]) m
                "Failed to get category suggestions: " (exn_str e)))
  /\ (forall (w : World) (fields : dict) (m : Market),
        eq_str (get fields "Ack" VNone) "Success" = false ->
        let text :=
          ("eBay API error: "
           ++ py_str (get fields "Errors" (VStr "Unknown error")))%string in
        (forall listing_data sent,
           EbayService.add_item_payload listing_data = inr sent ->
           sdk_execute "trading" "AddItem" sent (market w) = (inr (VDict fields), m) ->
           fails_with (EbayService.create_listing listing_data) w
             "trading" "AddItem" sent m "Failed to create listing: " text)
        /\ (forall listing_id updates,
              sdk_execute "trading" "ReviseItem"
                (EbayService.revision listing_id updates) (market w)
              = (inr (VDict fields), m) ->
              fails_with (EbayService.update_listing listing_id updates) w
                "trading" "ReviseItem" (EbayService.revision listing_id updates) m
                "Failed to update listing: " text)
        /\ (forall listing_id,
              sdk_execute "trading" "GetItem"
                (VDict [("ItemID", VStr listing_id)]) (market w)
              = (inr (VDict fields), m) ->
              fails_with (EbayService.get_listing listing_id) w
                "trading" "GetItem" (VDict [("ItemID", VStr listing_id)]) m
                "Failed to get listing: " text))
  /\ (forall (w : World) (fields : dict) (m : Market) (listing_id : string) (e : exn),
        sdk_execute "trading" "GetItem"
          (VDict [("ItemID", VStr listing_id)]) (market w)
        = (inr (VDict fields), m) ->
        eq_str (get fields "Ack" VNone) "Success" = true ->
        (let? item := getitem fields "Item" in EbayService._parse_listing item) = inl e ->
        fails_with (EbayService.get_listing listing_id) w
          "trading" "GetItem" (VDict [("ItemID", VStr listing_id)]) m
          "Failed to get listing: " (exn_str e))
  /\ (forall (listing_data : dict) (w : World),
        (forall e,
           EbayService.add_item_payload listing_data = inl e ->
           EbayService.create_listing listing_data w
           = (inl (Exception ("Failed to create listing: " ++ exn_str e)), w))
        /\ (lookup "title" listing_data = None ->
            EbayService.add_item_payload listing_data = inl (KeyError "title"))).
Proof.
  split.
  { repeat (split; [intros; apply rewrapped_try |]).
    intros. apply rewrapped_try. }
  split.
  { intros w e m.
    unfold fails_with, called, EbayService.create_listing,
      EbayService.update_listing, EbayService.get_listing,
      EbayService.search_listings, EbayService.delete_listing,
      EbayService.get_listing_analytics, EbayService.get_category_suggestions,
      try_except, bind, lift, raise, EbayService.execute.
    split; [intros listing_data sent -> ->; reflexivity |].
    repeat (split; [intros; match goal with H : sdk_execute _ _ _ _ = _ |- _ =>
                              rewrite H end; reflexivity |]).
    intros title description ->. reflexivity. }
  split.
  { intros w fields m Hack text.
    unfold fails_with, called, EbayService.create_listing,
      EbayService.update_listing, EbayService.get_listing,
      EbayService.api_error, try_except, bind, lift, raise, EbayService.execute.
    split; [intros listing_data sent -> ->; cbn [py_get]; rewrite Hack; reflexivity |].
    split; [intros listing_id updates ->; cbn [py_get]; rewrite Hack; reflexivity |].
    intros listing_id ->. cbn [py_get]. rewrite Hack. reflexivity. }
  split.
  { intros w fields m listing_id e Hcall Hack Hparse.
    unfold fails_with, called, EbayService.get_listing,
      try_except, bind, lift, raise, EbayService.execute.
    rewrite Hcall. cbn [py_get py_getitem]. rewrite Hack.
    destruct (getitem fields "Item") as [e0 | item]; cbn [rbind] in Hparse.
    - now inversion Hparse.
    - now rewrite Hparse. }
  intros listing_data w. split.
  - intros e He. unfold EbayService.create_listing, try_except, bind, lift, raise.
    now rewrite He.
  - intros Htitle. unfold EbayService.add_item_payload, getitem.
    now rewrite Htitle.
Qed.

End StoreFrameFacts.

(** ** The payloads of the marketplace adapter *)

Section PayloadFacts.

Context {P : Platform}.

Lemma lookup_filter_key (f : string -> bool) (d : dict) k :
  lookup k (filter (fun kv => f (fst kv)) d) = if f k then lookup k d else None.
Proof.
  induction d as [| [k0 v0] d IH]; simpl.
  - now destruct (f k).
  - destruct (f k0) eqn:Hk0; simpl.
    + destruct (String.eqb k k0) eqn:Hk.
      * apply String.eqb_eq in Hk. subst k0. now rewrite Hk0.
      * exact IH.
    + rewrite IH. destruct (String.eqb k k0) eqn:Hk; [| reflexivity].
      apply String.eqb_eq in Hk. subst k0. now rewrite Hk0.
Qed.

(** X4: the revision sent by [update_listing] of the adapter depends on the
    mapped keys of the update only (title, description, price, quantity,
    images): any other key, such as [category_id] or [condition], is
    dropped, and an update without a mapped key sends a revision that
    carries the item id and nothing else. *)
Theorem revision_forwards_the_mapped_fields_only :
  forall (listing_id : string) (updates : dict),
    EbayService.revision listing_id updates
    = EbayService.revision listing_id (Revision.forwarded updates)
    /\ (Revision.forwarded updates = [] ->
        EbayService.revision listing_id updates
        = VDict [("Item", VDict [("ItemID", VStr listing_id)])]).
Proof.
  intros listing_id updates.
  assert (Hsame : EbayService.revision listing_id updates
                  = EbayService.revision listing_id (Revision.forwarded updates)).
  { unfold EbayService.revision, Revision.forwarded.
    now rewrite !lookup_filter_key. }
  split; [exact Hsame |].
  intros Hnone. rewrite Hsame, Hnone. reflexivity.
Qed.

Lemma shipping_services_length idx options services :
  EbayService.shipping_services idx options = inr services ->
  List.length services = List.length options.
Proof.
  revert idx services. induction options as [| o rest IH]; intros idx services; simpl.
  - intros H. inversion H. reflexivity.
  - destruct (EbayService.shipping_service idx o) as [e | s]; simpl; [discriminate |].
    destruct (EbayService.shipping_services (S idx) rest) as [e | ss] eqn:Hrest;
      simpl; [discriminate |].
    intros H. inversion H. simpl. f_equal. now apply (IH (S idx)).
Qed.

Lemma shipping_services_nth idx (options : list dict) :
  exists services,
    EbayService.shipping_services idx (map VDict options) = inr services
    /\ forall i o,
         nth_error options i = Some o ->
         nth_error services i
         = Some (VDict [ ("ShippingService", get o "service" (VStr "USPSPriority"));
                         ("ShippingServiceCost", get o "cost" (VInt 0));
                         ("ShippingServicePriority", VInt (Z.of_nat (idx + i) + 1));
                         ("FreeShipping", get o "free_shipping" (VBool false)) ]).
Proof.
  revert idx. induction options as [| o rest IH]; intros idx; simpl.
  - exists []. split; [reflexivity |]. intros [| i] o H; discriminate.
  - destruct (IH (S idx)) as (services & Hrest & Hnth). rewrite Hrest. simpl.
    eexists. split; [reflexivity |].
    intros [| i] o' H; simpl in *.
    + inversion H; subst. now rewrite Nat.add_0_r.
    + rewrite (Hnth i o' H). repeat f_equal. lia.
Qed.

(** X5: for a list of shipping options, [_prepare_shipping_details] returns
    a flat-rate block with one service per option, in the order given; the
    service at position [i] has priority [i + 1], and a service, cost or
    free-shipping flag that the option does not give defaults to
    [USPSPriority], 0 and [False]. An entry that is not a dictionary makes
    it raise. *)
Theorem shipping_details_follow_the_options :
  (forall options : list dict,
     exists services,
       EbayService._prepare_shipping_details (VList (map VDict options))
       = inr (VDict [ ("ShippingType", VStr "Flat");
                      ("ShippingServiceOptions", VList services) ])
       /\ List.length services = List.length options
       /\ forall i o,
            nth_error options i = Some o ->
            nth_error services i
            = Some (VDict
                      [ ("ShippingService", get o "service" (VStr "USPSPriority"));
                        ("ShippingServiceCost", get o "cost" (VInt 0));
                        ("ShippingServicePriority", VInt (Z.of_nat i + 1));
                        ("FreeShipping", get o "free_shipping" (VBool false)) ]))
  /\ (forall (before : list dict) (entry : value) (after : list value),
        (forall d, entry <> VDict d) ->
        exists e,
          EbayService._prepare_shipping_details
            (VList (map VDict before ++ entry :: after)) = inl e).
Proof.
  split.
  - intros options. unfold EbayService._prepare_shipping_details. simpl.
    destruct (shipping_services_nth 0 options) as (services & Hs & Hnth).
    rewrite Hs. simpl. exists services. split; [reflexivity |].
    split.
    + apply shipping_services_length in Hs. now rewrite length_map in Hs.
    + exact Hnth.
  - intros before entry after Hentry.
    unfold EbayService._prepare_shipping_details. simpl.
    generalize 0%nat as idx.
    induction before as [| o rest IH]; intros idx; simpl.
    + assert (Hbad : exists e, EbayService.shipping_service idx entry = inl e).
      { unfold EbayService.shipping_service.
        destruct entry; simpl; eauto. exfalso. now apply (Hentry items). }
      destruct Hbad as (e & ->). simpl. eauto.
    + destruct (IH (S idx)) as (e & He).
      destruct (EbayService.shipping_services (S idx) (map VDict rest ++ entry :: after))
        as [e' | ss]; simpl in *; eauto.
      discriminate.
Qed.

End PayloadFacts.

(** ** Analytics, suggestions and search of the marketplace adapter *)

Section AnalyticsFacts.

Context {P : Platform}.

(** A float greater than zero is not equal to zero. *)
Lemma positive_not_zero (f : float) :
  PrimFloat.ltb 0%float f = true -> PrimFloat.eqb f 0%float = false.
Proof.
  rewrite ltb_spec, eqb_spec. unfold SFltb, SFeqb.
  replace (Prim2SF 0%float) with (S754_zero false) by reflexivity.
  destruct (Prim2SF f) as [[] | [] | | [] m e]; simpl; congruence.
Qed.

Lemma gt0_not_zero v :
  py_gt0 v = inr true -> is_zero v = false.
Proof.
  destruct v; simpl; try discriminate; intros H; inversion H as [H0].
  - now subst.
  - apply Z.ltb_lt in H0. apply Z.eqb_neq. lia.
  - now apply positive_not_zero.
Qed.

Lemma numeric_error v e :
  numeric v = inl e -> exn_class e <> "ZeroDivisionError".
Proof.
  destruct v; simpl; intros H; try (inversion H; discriminate);
    unfold Z_to_float in H;
    match type of H with
    | (if ?c then _ else _) = _ => destruct c; inversion H; discriminate
    end.
Qed.

(** A division by an operand that is not zero raises no [ZeroDivisionError]. *)
Lemma truediv_guarded a b e :
  is_zero b = false -> py_truediv a b = inl e ->
  exn_class e <> "ZeroDivisionError".
Proof.
  intros Hnz. unfold py_truediv.
  assert (Hfloats :
            (let? x := numeric a in
             let? y := numeric b in
             if is_zero b then inl (ZeroDivisionError "float division by zero")
             else inr (PrimFloat.div x y)) = inl e ->
            exn_class e <> "ZeroDivisionError").
  { rewrite Hnz.
    destruct (numeric a) as [e1 | x] eqn:Hx; cbn [rbind].
    - intros H. inversion H; subst. now apply (numeric_error a).
    - destruct (numeric b) as [e2 | y] eqn:Hy; cbn [rbind]; [| discriminate].
      intros H. inversion H; subst. now apply (numeric_error b). }
  destruct (integer a) as [x |] eqn:Ha; [| exact Hfloats].
  destruct (integer b) as [y |] eqn:Hb; [| exact Hfloats].
  assert (Hy : (y =? 0) = false).
  { destruct b; simpl in Hb, Hnz; inversion Hb; subst; [| exact Hnz].
    now destruct b. }
  rewrite Hy. unfold Z_truediv. cbv zeta.
  match goal with
  | |- (if ?c then _ else _) = _ -> _ => destruct c
  end; intros H; inversion H; discriminate.
Qed.

(** X6: [_calculate_conversion_rate] never divides by zero: whatever the
    item holds, it does not raise [ZeroDivisionError]; an item without a hit
    count, or with a hit count that is an integer at most zero, has rate
    [0.0]. *)
Theorem conversion_rate_is_guarded :
  forall item : dict,
    (forall e,
       EbayService._calculate_conversion_rate (VDict item) = inl e ->
       exn_class e <> "ZeroDivisionError")
    /\ (lookup "HitCount" item = None ->
        EbayService._calculate_conversion_rate (VDict item) = inr (VFloat 0%float))
    /\ (forall z,
          lookup "HitCount" item = Some (VInt z) -> z <= 0 ->
          EbayService._calculate_conversion_rate (VDict item) = inr (VFloat 0%float)).
Proof.
  intros item. unfold EbayService._calculate_conversion_rate. cbn [py_get rbind].
  split; [| split].
  - intros e.
    destruct (py_gt0 (get item "HitCount" (VInt 0))) as [e0 | positive] eqn:Hgt;
      cbn [rbind].
    + intros H. inversion H; subst.
      destruct (get item "HitCount" (VInt 0)); simpl in Hgt; inversion Hgt;
        discriminate.
    + destruct positive; [| discriminate].
      destruct (py_truediv (get item "QuantitySold" (VInt 0))
                           (get item "HitCount" (VInt 0))) as [e1 | ratio] eqn:Hdiv;
        cbn [rbind]; [| discriminate].
      intros H. inversion H; subst.
      exact (truediv_guarded _ _ _ (gt0_not_zero _ Hgt) Hdiv).
  - intros Hnone. unfold get at 1. rewrite Hnone. reflexivity.
  - intros z Hz Hle. unfold get at 1. rewrite Hz. simpl.
    destruct (0 <? z) eqn:Hpos; [| reflexivity].
    apply Z.ltb_lt in Hpos. lia.
Qed.

Lemma rmap_length {A B} (f : A -> result B) l l' :
  rmap f l = inr l' -> List.length l' = List.length l.
Proof.
  revert l'. induction l as [| a l IH]; intros l'; simpl.
  - intros H. inversion H. reflexivity.
  - destruct (f a) as [e | b]; simpl; [discriminate |].
    destruct (rmap f l) as [e | bs]; simpl; [discriminate |].
    intros H. inversion H. simpl. f_equal. now apply IH.
Qed.




(** X8: [search_listings] of the adapter parses the items of the response
    one by one, in order, and returns the parsed entries, or rewraps the
    first parsing error; an answer without [searchResult], or whose
    [searchResult] has no [item], gives the empty list rather than an
    error. *)
Theorem search_results_follow_the_response :
  forall (criteria : dict) (w : World),
    match sdk_execute "finding" "findItemsAdvanced"
            (EbayService.search_params criteria) (market w) with
    | (inr (VDict fields), _) =>
        (lookup "searchResult" fields = None ->
         fst (EbayService.search_listings criteria w) = inr [])
        /\ (forall found,
              lookup "searchResult" fields = Some (VDict found) ->
              lookup "item" found = None ->
              fst (EbayService.search_listings criteria w) = inr [])
        /\ (forall found items,
              lookup "searchResult" fields = Some (VDict found) ->
              lookup "item" found = Some (VList items) ->
              match rmap EbayService._parse_search_result items with
              | inr results =>
                  fst (EbayService.search_listings criteria w) = inr results
                  /\ List.length results = List.length items
              | inl e =>
                  fst (EbayService.search_listings criteria w)
                  = inl (Exception ("Failed to search listings: " ++ exn_str e))
              end)
    | _ => exists e, fst (EbayService.search_listings criteria w) = inl e
    end.
Proof.
  intros criteria w.
  unfold EbayService.search_listings, try_except, bind, lift, EbayService.execute.
  destruct (sdk_execute "finding" "findItemsAdvanced"
              (EbayService.search_params criteria) (market w))
    as [[e | result] m]; simpl; [eauto |].
  destruct result; simpl; eauto.
  unfold get.
  split; [| split].
  - intros ->. reflexivity.
  - intros found -> Hitem. simpl. unfold get. rewrite Hitem. reflexivity.
  - intros found listed -> Hitem. simpl. unfold get. rewrite Hitem. simpl.
    destruct (rmap EbayService._parse_search_result listed) as [e | results] eqn:Hmap;
      simpl; [reflexivity |].
    split; [reflexivity |]. now apply rmap_length in Hmap.
Qed.

End AnalyticsFacts.

(** ** Storing, finding and deleting rows *)

Section RowFacts.

Context {P : Platform}.

(** A missing key stops [store_listing] at once. *)
Lemma store_listing_missing_key listing_data w k :
  Stored.first_missing listing_data = Some k ->
  DatabaseService.store_listing listing_data w = (inl (KeyError k), w).
Proof.
  unfold Stored.first_missing, Stored.required_keys, has_key. cbn [find].
  unfold DatabaseService.store_listing, bind, lift, getitem.
  destruct (lookup "title" listing_data) as [title |]; cbn [negb];
    [| intros H; now inversion H].
  destruct (lookup "description" listing_data) as [description |]; cbn [negb];
    [| intros H; now inversion H].
  destruct (lookup "price" listing_data) as [price |]; cbn [negb];
    [| intros H; now inversion H].
  destruct (lookup "quantity" listing_data) as [quantity |]; cbn [negb];
    [| intros H; now inversion H].
  destruct (lookup "category_id" listing_data) as [category_id |]; cbn [negb];
    [| intros H; now inversion H].
  destruct (lookup "condition" listing_data) as [condition |]; cbn [negb];
    [| intros H; now inversion H].
  discriminate.
Qed.

(** [store_listing] on a dictionary that has the six keys. *)
Lemma store_listing_runs listing_data w :
  Stored.first_missing listing_data = None ->
  let listing := Written.row_in listing_data w in
  let counted :=
    mkWorld (market w) (listings w) (sdk_calls w)
            (S (S (S (clock_reads w)))) (S (uuids_drawn w)) in
  DatabaseService.store_listing listing_data w =
  match commit_error (listings w) (listings w ++ [listing]) with
  | None => (inr listing, Written.with_table (listings w ++ [listing]) counted)
  | Some e => (inl e, counted)
  end.
Proof.
  unfold Stored.first_missing, Stored.required_keys, has_key. cbn [find].
  destruct (lookup "title" listing_data) as [title |] eqn:Ht; cbn [negb];
    [| discriminate].
  destruct (lookup "description" listing_data) as [description |] eqn:Hd; cbn [negb];
    [| discriminate].
  destruct (lookup "price" listing_data) as [price |] eqn:Hp; cbn [negb];
    [| discriminate].
  destruct (lookup "quantity" listing_data) as [quantity |] eqn:Hq; cbn [negb];
    [| discriminate].
  destruct (lookup "category_id" listing_data) as [category_id |] eqn:Hc; cbn [negb];
    [| discriminate].
  destruct (lookup "condition" listing_data) as [condition |] eqn:Hn; cbn [negb];
    [| discriminate].
  intros _. cbv zeta.
  unfold Written.row_in, Written.row_of, Written.with_table.
  assert (Hgt : get listing_data "title" VNone = title) by (unfold get; now rewrite Ht).
  assert (Hgd : get listing_data "description" VNone = description)
    by (unfold get; now rewrite Hd).
  assert (Hgp : get listing_data "price" VNone = price) by (unfold get; now rewrite Hp).
  assert (Hgq : get listing_data "quantity" VNone = quantity)
    by (unfold get; now rewrite Hq).
  assert (Hgc : get listing_data "category_id" VNone = category_id)
    by (unfold get; now rewrite Hc).
  assert (Hgn : get listing_data "condition" VNone = condition)
    by (unfold get; now rewrite Hn).
  rewrite Hgt, Hgd, Hgp, Hgq, Hgc, Hgn.
  unfold DatabaseService.store_listing, bind, lift, getitem.
  rewrite Ht, Hd, Hp, Hq, Hc, Hn.
  generalize (get listing_data "listing_id" VNone) as ebay_listing_id.
  generalize (get listing_data "user_id" VNone) as user_id.
  generalize (get listing_data "images" (VList [])) as images.
  generalize (get listing_data "item_specifics" (VDict [])) as item_specifics.
  generalize (get listing_data "shipping_options" (VList [])) as shipping_options.
  intros shipping_options item_specifics images user_id ebay_listing_id.
  unfold DatabaseService.commit, DatabaseService.with_defaults,
    DatabaseService.unset, DatabaseService.table, new_uuid, utcnow, bind, ret.
  cbn -[commit_error utc_clock uuid4].
  destruct (commit_error _ _); reflexivity.
Qed.

Lemma first_missing_of_stored listing_data w listing w' :
  DatabaseService.store_listing listing_data w = (inr listing, w') ->
  Stored.first_missing listing_data = None.
Proof.
  intros Hstore.
  destruct (Stored.first_missing listing_data) as [k |] eqn:Hk; [| reflexivity].
  rewrite (store_listing_missing_key _ _ _ Hk) in Hstore. discriminate.
Qed.

(** X9: [store_listing] raises [KeyError] for the first of title,
    description, price, quantity, category_id and condition that the
    dictionary lacks, before it reads the clock or writes anything; with
    all six present it fails only when the store refuses the commit, with
    the error of the store and the table unchanged. *)
Theorem store_listing_needs_its_six_keys :
  forall (listing_data : dict) (w : World),
    match Stored.first_missing listing_data with
    | Some k => DatabaseService.store_listing listing_data w = (inl (KeyError k), w)
    | None =>
        forall e w',
          DatabaseService.store_listing listing_data w = (inl e, w') ->
          listings w' = listings w
          /\ exists table, commit_error (listings w) table = Some e
    end.
Proof.
  intros listing_data w.
  destruct (Stored.first_missing listing_data) as [k |] eqn:Hk.
  - now apply store_listing_missing_key.
  - intros e w'. rewrite (store_listing_runs _ _ Hk).
    destruct (commit_error _ _) as [e' |] eqn:Hcommit; intros H; inversion H; subst.
    split; [reflexivity | eauto].
Qed.

(** X10: a listing that [store_listing] has stored is the last row of the
    table, has status [active], a fresh identifier and the title, price
    and quantity of the dictionary; a search without criteria returns the
    whole table with it, a search for status [active] returns it, and it is
    the row that its identifier matches. *)
Theorem stored_listing_is_found :
  forall (listing_data : dict) (w w' : World) (listing : row),
    DatabaseService.store_listing listing_data w = (inr listing, w') ->
    listing = Written.row_in listing_data w
    /\ listings w' = listings w ++ [listing]
    /\ Listing.getattr listing "status" = VStr "active"
    /\ Listing.getattr listing "id" = VStr (uuid4 (uuids_drawn w))
    /\ Listing.getattr listing "title" = get listing_data "title" VNone
    /\ Listing.getattr listing "price" = get listing_data "price" VNone
    /\ Listing.getattr listing "quantity" = get listing_data "quantity" VNone
    /\ DatabaseService.search_listings [] w' = (inr (listings w ++ [listing]), w')
    /\ In listing
          (filter (DatabaseService.selected [("status", VStr "active")]) (listings w'))
    /\ DatabaseService.matches (uuid4 (uuids_drawn w)) listing = true.
Proof.
  intros listing_data w w' listing Hstore.
  pose proof (first_missing_of_stored _ _ _ _ Hstore) as Hkeys.
  rewrite (store_listing_runs _ _ Hkeys) in Hstore.
  destruct (commit_error _ _); inversion Hstore; subst. clear Hstore.
  split; [reflexivity |]. split; [reflexivity |].
  split; [reflexivity |]. split; [reflexivity |].
  split; [reflexivity |]. split; [reflexivity |]. split; [reflexivity |].
  split; [| split].
  - unfold DatabaseService.search_listings, DatabaseService.table, bind, ret.
    cbn [Written.with_table listings]. now rewrite filter_all.
  - cbn [Written.with_table listings]. rewrite filter_app. apply in_or_app. right.
    cbn. now left.
  - unfold DatabaseService.matches, Written.row_in, Written.row_of. cbn.
    now rewrite String.eqb_refl.
Qed.

Lemma no_match_after_delete listing_id (rows : list row) :
  filter (DatabaseService.matches listing_id)
         (filter (fun r => negb (DatabaseService.matches listing_id r)) rows) = [].
Proof.
  induction rows as [| r rows IH]; simpl; [reflexivity |].
  destruct (DatabaseService.matches listing_id r) eqn:Hm; simpl; [exact IH |].
  now rewrite Hm.
Qed.

(** X11: [delete_listing] of the persistence layer. With no matching row it
    returns [False] and changes nothing. With one matching row and a commit
    that the store accepts it returns [True] and the table is the old one
    without that row, the other rows in their order; a second deletion then
    returns [False], and an update of the same id finds no row. If the
    store refuses the commit, or several rows match, it raises and the
    table is unchanged. *)
Theorem delete_listing_removes_the_row :
  forall (listing_id : string) (w : World),
    match filter (DatabaseService.matches listing_id) (listings w) with
    | [] => DatabaseService.delete_listing listing_id w = (inr false, w)
    | [old] =>
        let table :=
          filter (fun r => negb (DatabaseService.matches listing_id r)) (listings w) in
        match commit_error (listings w) table with
        | None =>
            let w' := Written.with_table table w in
            DatabaseService.delete_listing listing_id w = (inr true, w')
            /\ DatabaseService.delete_listing listing_id w' = (inr false, w')
            /\ (forall updates,
                  DatabaseService.update_listing listing_id updates w' = (inr None, w'))
            /\ (forall r, In r table <->
                          In r (listings w) /\ DatabaseService.matches listing_id r = false)
        | Some e => DatabaseService.delete_listing listing_id w = (inl e, w)
        end
    | _ :: _ :: _ =>
        exists e, DatabaseService.delete_listing listing_id w = (inl e, w)
    end.
Proof.
  intros listing_id w.
  unfold DatabaseService.delete_listing, DatabaseService.update_listing,
    DatabaseService.table, bind, ret, lift.
  destruct (filter (DatabaseService.matches listing_id) (listings w))
    as [| old [| another rest]] eqn:Hfound; simpl.
  - reflexivity.
  - unfold DatabaseService.commit.
    destruct (commit_error _ _); [reflexivity |].
    cbn [Written.with_table listings]. rewrite no_match_after_delete. simpl.
    split; [reflexivity |]. split; [reflexivity |].
    split; [intros; reflexivity |].
    intros r. rewrite filter_In, negb_true_iff. tauto.
  - eauto.
Qed.

Lemma replaced_row_is_there listing_id (new : row) rows old :
  In old rows -> DatabaseService.matches listing_id old = true ->
  In new (DatabaseService.replace_matching listing_id new rows).
Proof.
  intros Hin Hm. unfold DatabaseService.replace_matching.
  apply in_map_iff. exists old. now rewrite Hm.
Qed.

(** X12: when exactly one row matches, the loop over the updates returns
    and the store accepts the commit, [update_listing] of the persistence
    layer returns the row it wrote, which is the result of the loop with
    [updated_at] set to the clock; that row is in the table, which has as
    many rows as before. When moreover the keys of the update are distinct
    and each is a column or no attribute at all, each key of the update that
    is an attribute of [Listing], [updated_at] apart, holds the value given
    for it. *)
Theorem update_listing_writes_the_given_values :
  forall (listing_id : string) (updates : dict) (w : World) (old applied : row),
    filter (DatabaseService.matches listing_id) (listings w) = [old] ->
    DatabaseService.apply_updates old updates = inr applied ->
    commit_error (listings w)
      (DatabaseService.replace_matching listing_id
         (Listing.set applied "updated_at" (VDateTime (utc_clock (clock_reads w))))
         (listings w)) = None ->
    exists new w',
      DatabaseService.update_listing listing_id updates w = (inr (Some new), w')
      /\ new = Listing.set applied "updated_at" (VDateTime (utc_clock (clock_reads w)))
      /\ In new (listings w')
      /\ List.length (listings w') = List.length (listings w)
      /\ (NoDup (keys updates) ->
          (forall k, In k (keys updates) -> Listing.plain k = true) ->
          forall k v,
            In (k, v) updates -> Listing.attribute k = true -> k <> "updated_at" ->
            Listing.getattr new k = v).
Proof.
  intros listing_id updates w old applied Hfound Happlied Hcommit.
  assert (Hold : In old (listings w) /\ DatabaseService.matches listing_id old = true).
  { apply filter_In. rewrite Hfound. now left. }
  destruct Hold as [Hin Hm].
  eexists. eexists. split.
  - unfold DatabaseService.update_listing, DatabaseService.table, bind, ret, lift.
    rewrite Hfound. cbn [DatabaseService.scalar_one_or_none]. rewrite Happlied.
    unfold utcnow, DatabaseService.commit. cbn [listings clock_reads].
    rewrite Hcommit. reflexivity.
  - cbn [listings]. split; [reflexivity |].
    split; [now apply (replaced_row_is_there _ _ _ old) |].
    split; [unfold DatabaseService.replace_matching; apply length_map |].
    intros Hnodup Hplain k v Hkv Hattr Hne.
    rewrite getattr_set. apply String.eqb_neq in Hne. rewrite Hne.
    now apply (apply_updates_sets updates old).
Qed.

Lemma eq_str_true v s : eq_str v s = true -> v = VStr s.
Proof.
  destruct v; simpl; try discriminate.
  intros H. apply String.eqb_eq in H. now subst.
Qed.

Lemma nonempty_truthy s : s <> "" -> truthy (VStr s) = true.
Proof.
  intros Hs. simpl. apply negb_true_iff. now apply String.eqb_neq.
Qed.

(** X13: a search of the local table leaves the world as it is and returns
    rows of the table only; with a non-empty status among the criteria every
    row returned has exactly that status, and with the status as the only
    criterion every row of the table with that status is returned. A
    non-empty category among the criteria selects on [category_id] in the
    same way: every row returned has exactly that category, and with the
    category as the only criterion every row of the table with that
    category is returned. *)
Theorem local_search_filters_exactly :
  forall (criteria : dict) (w : World),
    exists rows,
      DatabaseService.search_listings criteria w = (inr rows, w)
      /\ (forall r, In r rows -> In r (listings w))
      /\ (forall s r,
            lookup "status" criteria = Some (VStr s) -> s <> "" ->
            In r rows -> Listing.getattr r "status" = VStr s)
      /\ (forall s r,
            lookup "category" criteria = Some (VStr s) -> s <> "" ->
            In r rows -> Listing.getattr r "category_id" = VStr s)
      /\ (forall s r,
            criteria = [("status", VStr s)] ->
            In r (listings w) -> Listing.getattr r "status" = VStr s ->
            In r rows)
      /\ (forall s r,
            criteria = [("category", VStr s)] ->
            In r (listings w) -> Listing.getattr r "category_id" = VStr s ->
            In r rows).
Proof.
  intros criteria w. eexists. split; [reflexivity |].
  split; [| split; [| split; [| split]]].
  - intros r Hin. now apply filter_In in Hin.
  - intros s r Hstatus Hs Hin. apply filter_In in Hin. destruct Hin as [_ Hsel].
    unfold DatabaseService.selected in Hsel.
    apply andb_prop in Hsel. destruct Hsel as [Hsel _].
    apply andb_prop in Hsel. destruct Hsel as [Hsel _].
    apply andb_prop in Hsel. destruct Hsel as [_ Hsel].
    unfold DatabaseService.where_, get in Hsel. rewrite Hstatus in Hsel.
    rewrite (nonempty_truthy _ Hs) in Hsel. now apply eq_str_true.
  - intros s r Hcategory Hs Hin. apply filter_In in Hin. destruct Hin as [_ Hsel].
    unfold DatabaseService.selected in Hsel.
    apply andb_prop in Hsel. destruct Hsel as [Hsel _].
    apply andb_prop in Hsel. destruct Hsel as [_ Hsel].
    unfold DatabaseService.where_, get in Hsel. rewrite Hcategory in Hsel.
    rewrite (nonempty_truthy _ Hs) in Hsel. now apply eq_str_true.
  - intros s r -> Hin Hstatus. apply filter_In. split; [exact Hin |].
    unfold DatabaseService.selected, DatabaseService.where_, get. simpl.
    rewrite Hstatus. simpl. rewrite String.eqb_refl.
    now destruct (String.eqb s "").
  - intros s r -> Hin Hcategory. apply filter_In. split; [exact Hin |].
    unfold DatabaseService.selected, DatabaseService.where_, get. simpl.
    rewrite Hcategory. simpl. rewrite String.eqb_refl.
    now destruct (String.eqb s "").
Qed.

End RowFacts.

(** ** The REST routes, the webhook and the agent, end to end *)

Section RouteFacts.

Context {P : Platform} {R : AgentRuntime}.

Import Status Reading Creation.

Lemma closed_route {A} (body : M A) :
  only_500 (try_except body Routes.internal_error).
Proof.
  intros w e w'. unfold try_except, Routes.internal_error, raise.
  destruct (body w) as [[e0 | a] w1]; intros H; inversion H; subst; eauto.
Qed.

Lemma closed_handler {A} (body : M A) :
  only_500 (try_except body (fun e => raise (Main.HTTPException 500 (exn_str e)))).
Proof. apply (closed_route body). Qed.

(** The update tool run on the payload that the route builds. *)
Lemma update_tool_run listing_id updates w :
  function EbayListingAgent.update_listing_tool
    [VDict [("listing_id", VStr listing_id); ("updates", VDict updates)]] w
  = EbayListingAgent.update_listing (ListingUpdate.make listing_id updates) w.
Proof. reflexivity. Qed.

Lemma check_failure (message : string) (e : exn) w :
  Routes.check [ ("success", VBool false);
                 ("error", VStr (exn_str e));
                 ("message", VStr message) ] w
  = (inl (Main.HTTPException 400 message), w).
Proof. reflexivity. Qed.

Lemma parse_listing_shape item listing :
  EbayService._parse_listing item = inr listing -> parsed listing.
Proof.
  unfold EbayService._parse_listing. intros H.
  repeat match type of H with
         | rbind ?r _ = inr _ =>
             let a := fresh "a" in
             let Ha := fresh "Ha" in
             apply rbind_inv in H; destruct H as (a & Ha & H)
         end.
  inversion H; subst. unfold parsed. do 13 eexists. reflexivity.
Qed.

Lemma get_listing_shape listing_id w listing w1 :
  EbayService.get_listing listing_id w = (inr listing, w1) -> parsed listing.
Proof.
  unfold EbayService.get_listing, try_except.
  match goal with
  | |- context [match ?m w with _ => _ end] => destruct (m w) as [[e | r] w'] eqn:Hrun
  end; [unfold raise; discriminate |].
  intros H. inversion H; subst. clear H.
  step_inv Hrun. step_inv Hrun. apply lift_inv in Hstep0. destruct Hstep0 as [_ ->].
  destruct (eq_str a0 "Success").
  - step_inv Hrun. apply lift_inv in Hstep0. destruct Hstep0 as [_ ->].
    apply lift_inv in Hrun. destruct Hrun as [Hparse _].
    now apply parse_listing_shape in Hparse.
  - unfold EbayService.api_error in Hrun. step_inv Hrun. discriminate.
Qed.

(** X15: [GET /api/listings/{listing_id}] hands on the listing that the
    adapter read, or answers 500 with the text of the adapter's error. It
    never answers 404: what the adapter returns is never empty, so the test
    [if not listing] never fires, and an item the marketplace does not have
    is an error of the adapter. *)
Theorem unknown_listing_is_not_a_404 :
  forall (listing_id : string) (w : World),
    match EbayService.get_listing listing_id w with
    | (inr listing, w1) =>
        Routes.get_listing listing_id w = (inr (VDict listing), w1)
    | (inl e, w1) =>
        Routes.get_listing listing_id w
        = (inl (Main.HTTPException 500 (exn_str e)), w1)
    end
    /\ forall e w1,
         Routes.get_listing listing_id w = (inl e, w1) ->
         e <> Main.HTTPException 404 "Listing not found".
Proof.
  intros listing_id w.
  assert (Hroute :
    match EbayService.get_listing listing_id w with
    | (inr listing, w1) =>
        Routes.get_listing listing_id w = (inr (VDict listing), w1)
    | (inl e, w1) =>
        Routes.get_listing listing_id w
        = (inl (Main.HTTPException 500 (exn_str e)), w1)
    end).
  { destruct (EbayService.get_listing listing_id w) as [[e | listing] w1] eqn:Hget.
    - unfold Routes.get_listing.
      rewrite (try_except_caught _ _ w e w1); [reflexivity |].
      now rewrite (bind_raise _ _ w e w1 Hget).
    - destruct (get_listing_shape _ _ _ _ Hget)
        as (? & ? & ? & ? & ? & ? & ? & ? & ? & ? & ? & ? & ? & ->).
      unfold Routes.get_listing.
      apply try_except_ok. now rewrite (bind_ok _ _ w _ w1 Hget). }
  split; [exact Hroute |].
  intros e w1 Hfail.
  destruct (closed_route _ w e w1 Hfail) as (detail & ->).
  unfold Main.HTTPException. intros Heq. inversion Heq.
Qed.

Lemma delete_listing_answer listing_id w (response : dict) (m : Market) :
  sdk_execute "trading" "EndItem"
    (VDict [("ItemID", VStr listing_id); ("EndingReason", VStr "NotAvailable")])
    (market w) = (inr (VDict response), m) ->
  EbayService.delete_listing listing_id w
  = (inr (eq_str (get response "Ack" VNone) "Success"),
     mkWorld m (listings w)
       (sdk_calls w
        ++ [("trading", "EndItem",
             VDict [("ItemID", VStr listing_id); ("EndingReason", VStr "NotAvailable")])])
       (clock_reads w) (uuids_drawn w)).
Proof.
  intros Hsdk.
  unfold EbayService.delete_listing, try_except, bind, EbayService.execute.
  rewrite Hsdk. reflexivity.
Qed.

(** X16: when the marketplace answers the [EndItem] call with a
    dictionary, whatever its acknowledgement, and no row of the table
    matches the id, [DELETE /api/listings/{listing_id}] and a turn of the
    delete loop of [perform_bulk_operation] both report a success. The
    adapter returned whether [Ack] was [Success], which neither of them
    reads, and the table is as it was. *)
Theorem deletion_ignores_the_acknowledgement :
  forall (listing_id : string) (w : World) (response : dict) (m : Market),
    sdk_execute "trading" "EndItem"
      (VDict [("ItemID", VStr listing_id); ("EndingReason", VStr "NotAvailable")])
      (market w) = (inr (VDict response), m) ->
    filter (DatabaseService.matches listing_id) (listings w) = [] ->
    let w' :=
      mkWorld m (listings w)
        (sdk_calls w
         ++ [("trading", "EndItem",
              VDict [("ItemID", VStr listing_id); ("EndingReason", VStr "NotAvailable")])])
        (clock_reads w) (uuids_drawn w) in
    EbayService.delete_listing listing_id w
    = (inr (eq_str (get response "Ack" VNone) "Success"), w')
    /\ Routes.delete_listing listing_id w
       = (inr (VDict [("success", VBool true); ("message", VStr "Listing deleted")]), w')
    /\ Main.delete_item listing_id w
       = (inr [("listing_id", VStr listing_id); ("success", VBool true)], w').
Proof.
  intros listing_id w response m Hsdk Hnone w'.
  pose proof (delete_listing_answer listing_id w response m Hsdk) as Hend.
  fold w' in Hend.
  assert (Hlocal : DatabaseService.delete_listing listing_id w' = (inr false, w')).
  { unfold DatabaseService.delete_listing, DatabaseService.table, bind, lift.
    change (listings w') with (listings w). now rewrite Hnone. }
  split; [exact Hend |]. split.
  - unfold Routes.delete_listing. apply try_except_ok.
    rewrite (bind_ok _ _ w _ w' Hend). now rewrite (bind_ok _ _ w' _ w' Hlocal).
  - unfold Main.delete_item. apply try_except_ok.
    unfold Main.delete_both.
    rewrite (bind_ok _ _ w false w'); [reflexivity |].
    rewrite (bind_ok _ _ w _ w' Hend). exact Hlocal.
Qed.

(** X17: [perform_bulk_operation] raises [ValueError] with the text
    [Unsupported operation: <operation>], the world unchanged, for every
    operation that is not [delete], unless it is [update] with data that is
    not empty: so for [relist], and for [update] with no data or with an
    empty dictionary. *)
Theorem bulk_helper_supports_update_and_delete_only :
  forall (operation : string) (listing_ids : list string) (data : option dict)
         (user_id : string) (w : World),
    operation <> "delete" ->
    operation <> "update" \/ data = None \/ data = Some [] ->
    Main.perform_bulk_operation operation listing_ids data user_id w
    = (inl (ValueError ("Unsupported operation: " ++ operation)), w).
Proof.
  intros operation listing_ids data user_id w Hdelete Hupdate.
  unfold Main.perform_bulk_operation.
  apply String.eqb_neq in Hdelete. rewrite Hdelete.
  destruct Hupdate as [Hupdate | [-> | ->]].
  - apply String.eqb_neq in Hupdate. now rewrite Hupdate.
  - now rewrite andb_false_r.
  - now rewrite andb_false_r.
Qed.

Lemma slice_page {A} (l : list A) (offset limit : Z) :
  0 <= offset -> 0 <= limit ->
  Routes.slice l offset (offset + limit)
  = firstn (Z.to_nat limit) (skipn (Z.to_nat offset) l).
Proof.
  intros Hoffset Hlimit. unfold Routes.slice, Routes.slice_index.
  destruct (Z.ltb_spec offset 0) as [? | _]; [lia |].
  destruct (Z.ltb_spec (offset + limit) 0) as [? | _]; [lia |].
  destruct (Z_le_gt_dec (Z.of_nat (List.length l)) offset) as [Hout | Hin].
  - rewrite (Z.min_r offset) by lia. rewrite (Z.min_r (offset + limit)) by lia.
    rewrite Z.sub_diag. simpl.
    rewrite (skipn_all2 l) by lia. now rewrite firstn_nil.
  - rewrite (Z.min_l offset) by lia.
    destruct (Z_le_gt_dec (offset + limit) (Z.of_nat (List.length l))) as [Hfits | Hlong].
    + rewrite Z.min_l by lia. f_equal. lia.
    + rewrite Z.min_r by lia.
      rewrite !firstn_all2; [reflexivity | |]; rewrite length_skipn; lia.
Qed.

Lemma search_tool_run keyword status category w :
  function EbayListingAgent.search_listings_tool
    [VDict [ ("keyword", Routes.param keyword);
             ("status", Routes.param status);
             ("category", Routes.param category) ]] w
  = EbayListingAgent.search_listings
      (ListingSearchCriteria.make keyword status category None None) w.
Proof. destruct keyword, status, category; reflexivity. Qed.

Lemma search_handler_returns criteria w ebay w1 :
  EbayService.search_listings (ListingSearchCriteria.dict_exclude_none criteria) w
  = (inr ebay, w1) ->
  let all :=
    ebay ++ map (VObj "Listing")
              (filter (DatabaseService.selected
                         (ListingSearchCriteria.dict_exclude_none criteria))
                      (listings w1)) in
  EbayListingAgent.search_listings criteria w
  = (inr [ ("success", VBool true);
           ("count", VInt (Z.of_nat (List.length all)));
           ("listings", VList all);
           ("message", VStr ("Found " ++ str_of_nat (List.length all) ++ " listings")) ],
     w1).
Proof.
  intros Hsearch all.
  unfold EbayListingAgent.search_listings, EbayListingAgent.search_listings_try,
    try_except, bind.
  rewrite Hsearch. reflexivity.
Qed.

(** X18: with an offset and a limit that are not negative, when the search
    of the marketplace succeeds, [GET /api/listings] returns the slice of
    the merged list (marketplace results, then local rows) that skips
    [offset] entries and keeps at most [limit]; [total] is the length of
    the whole merged list, not of the page, and the page is a segment of
    the merged list that starts after [min offset total] entries. *)
Theorem search_route_pages_the_merged_list :
  forall (keyword status category : option string) (limit offset : Z)
         (w w1 : World) (ebay : list value),
    0 <= offset -> 0 <= limit ->
    EbayService.search_listings
      (ListingSearchCriteria.dict_exclude_none
         (ListingSearchCriteria.make keyword status category None None)) w
    = (inr ebay, w1) ->
    let all :=
      ebay ++ map (VObj "Listing")
                (filter (DatabaseService.selected
                           (ListingSearchCriteria.dict_exclude_none
                              (ListingSearchCriteria.make keyword status category
                                 None None)))
                        (listings w1)) in
    let page := firstn (Z.to_nat limit) (skipn (Z.to_nat offset) all) in
    Routes.search_listings keyword status category limit offset w
    = (inr (VDict [ ("total", VInt (Z.of_nat (List.length all)));
                    ("limit", VInt limit);
                    ("offset", VInt offset);
                    ("listings", VList page) ]),
       w1)
    /\ (List.length page <= Z.to_nat limit)%nat
    /\ exists before after,
         all = before ++ page ++ after
         /\ List.length before = Nat.min (Z.to_nat offset) (List.length all).
Proof.
  intros keyword status category limit offset w w1 ebay Hoffset Hlimit Hsearch all page.
  split; [| split].
  - unfold Routes.search_listings. apply try_except_ok.
    rewrite (bind_ok (Main.tool_at 2) _ w EbayListingAgent.search_listings_tool w eq_refl).
    rewrite (bind_ok _ _ w _ w1
               (eq_trans (search_tool_run keyword status category w)
                         (search_handler_returns _ w ebay w1 Hsearch))).
    fold all. unfold bind, Routes.check, lift, ret. cbn [getitem lookup String.eqb Ascii.eqb Bool.eqb truthy negb Routes.py_slice].
    rewrite slice_page by assumption. reflexivity.
  - unfold page. apply firstn_le_length.
  - exists (firstn (Z.to_nat offset) all),
           (skipn (Z.to_nat limit) (skipn (Z.to_nat offset) all)).
    split.
    + unfold page. now rewrite firstn_skipn, firstn_skipn.
    + apply length_firstn.
Qed.

Lemma optimize_handler_returns listing_id w current w1 :
  EbayService.get_listing listing_id w = (inr current, w1) ->
  EbayListingAgent.optimize_listing listing_id w
  = (inr [ ("success", VBool true);
           ("listing_id", VStr listing_id);
           ("optimizations",
            VDict [ ("title", get current "title" VNone);
                    ("description", get current "description" VNone);
                    ("keywords", VList []);
                    ("pricing",
                     VDict [("suggested_price", get current "price" VNone)]);
                    ("images",
                     VList [VStr "Add more product angles"; VStr "Improve lighting"]) ]);
           ("message", VStr "Optimization suggestions generated") ],
     w1).
Proof.
  intros Hget.
  destruct (get_listing_shape _ _ _ _ Hget)
    as (? & ? & ? & ? & ? & ? & ? & ? & ? & ? & ? & ? & ? & ->).
  unfold EbayListingAgent.optimize_listing, EbayListingAgent.optimize_listing_try.
  apply try_except_ok. now rewrite (bind_ok _ _ w _ w1 Hget).
Qed.

(** X19: when the listing can be read,
    [POST /api/listings/{listing_id}/optimize] without [apply] returns
    optimizations whose title, description and suggested price are the
    ones just read; with [apply] the update it hands to the update tool
    sets title, description and price to those same values, and the route
    returns the optimizations with the [success] flag of that update as
    [applied]. *)
Theorem applied_optimizations_are_the_current_values :
  forall (listing_id : string) (w w1 : World) (current : dict),
    EbayService.get_listing listing_id w = (inr current, w1) ->
    let optimizations :=
      VDict [ ("title", get current "title" VNone);
              ("description", get current "description" VNone);
              ("keywords", VList []);
              ("pricing", VDict [("suggested_price", get current "price" VNone)]);
              ("images",
               VList [VStr "Add more product angles"; VStr "Improve lighting"]) ] in
    let update :=
      ListingUpdate.make listing_id
        [ ("title", get current "title" VNone);
          ("description", get current "description" VNone);
          ("price", get current "price" VNone) ] in
    Routes.optimize_listing listing_id false w = (inr optimizations, w1)
    /\ exists envelope flag w2,
         EbayListingAgent.update_listing update w1 = (inr envelope, w2)
         /\ lookup "success" envelope = Some (VBool flag)
         /\ Routes.optimize_listing listing_id true w
            = (inr (VDict [("optimizations", optimizations); ("applied", VBool flag)]),
               w2).
Proof.
  intros listing_id w w1 current Hget optimizations update.
  pose proof (optimize_handler_returns _ _ _ _ Hget) as Hopt.
  fold optimizations in Hopt.
  split.
  - unfold Routes.optimize_listing. apply try_except_ok.
    rewrite (bind_ok (Main.tool_at 6) _ w EbayListingAgent.optimize_listing_tool w eq_refl).
    now rewrite (bind_ok _ _ w _ w1 Hopt).
  - destruct (guarded_enveloped _ _ _ (update_listing_guarded update) w1)
      as (envelope & w2 & Hupdate & flag & message & Hflag & _).
    exists envelope, flag, w2.
    split; [exact Hupdate |]. split; [exact Hflag |].
    unfold Routes.optimize_listing. apply try_except_ok.
    rewrite (bind_ok (Main.tool_at 6) _ w EbayListingAgent.optimize_listing_tool w eq_refl).
    rewrite (bind_ok _ _ w _ w1 Hopt).
    rewrite (bind_ok _ _ w1 tt w1 eq_refl).
    rewrite (bind_ok _ _ w1 optimizations w1 eq_refl).
    rewrite (bind_ok _ _ w1 (ListingUpdate.updates update) w1 eq_refl).
    rewrite (bind_ok (Main.tool_at 1) _ w1 EbayListingAgent.update_listing_tool w1 eq_refl).
    rewrite (bind_ok _ _ w1 envelope w2 Hupdate).
    unfold bind, lift, getitem. now rewrite Hflag.
Qed.

Lemma report_of_type (report_type : ReportType.t) (date_range : value) w :
  exists d,
    EbayMCPServer._generate_report
      [ ("report_type", VStr (ReportType.value_of report_type));
        ("date_range", date_range) ] w
    = (inr d, w)
    /\ lookup "report_type" d = Some (VStr (ReportType.value_of report_type))
    /\ lookup "error" d = None.
Proof. destruct report_type; eexists; (split; [reflexivity |]); split; reflexivity. Qed.

Lemma unknown_report args t w :
  lookup "report_type" args = Some (VStr t) ->
  (forall report_type, t <> ReportType.value_of report_type) ->
  EbayMCPServer._generate_report args w
  = (inr [("error", VStr "Unknown report type")], w).
Proof.
  intros Hargs Hunknown.
  unfold EbayMCPServer._generate_report, bind, lift, getitem. rewrite Hargs.
  cbn [eq_str].
  pose proof (Hunknown ReportType.SALES) as H1.
  pose proof (Hunknown ReportType.PERFORMANCE) as H2.
  pose proof (Hunknown ReportType.INVENTORY) as H3.
  pose proof (Hunknown ReportType.ANALYTICS) as H4.
  apply String.eqb_neq in H1, H2, H3, H4. cbn [ReportType.value_of] in H1, H2, H3, H4.
  now rewrite H1, H2, H3, H4.
Qed.

(** X20: for each of the four report types of the schema,
    [POST /api/reports] returns, the world unchanged, a report that names
    this type and has no [error] key. A report type that is none of the
    four makes [_generate_report] return [{error: Unknown report type}],
    which the dispatcher of the protocol server hands on as a result that
    is not an error; a missing [report_type] raises [KeyError]. *)
Theorem reports_by_type :
  (forall (report_type : ReportType.t) (date_range : option (Z * Z)) (w : World),
     exists d,
       Routes.generate_report report_type date_range w = (inr (VDict d), w)
       /\ lookup "report_type" d = Some (VStr (ReportType.value_of report_type))
       /\ lookup "error" d = None)
  /\ (forall (args : dict) (t : string) (w : World),
        lookup "report_type" args = Some (VStr t) ->
        (forall report_type, t <> ReportType.value_of report_type) ->
        EbayMCPServer._generate_report args w
        = (inr [("error", VStr "Unknown report type")], w)
        /\ EbayMCPServer.handle_call_tool
             (EbayMCPServer.mkCallToolRequest "generate_report" args) w
           = (inr (EbayMCPServer.mkToolResult
                     [ EbayMCPServer.mkTextContent "text"
                         (json_text (Some 2%nat)
                            (VDict [("error", VStr "Unknown report type")])) ]
                     false),
              w))
  /\ (forall (args : dict) (w : World),
        lookup "report_type" args = None ->
        EbayMCPServer._generate_report args w = (inl (KeyError "report_type"), w)).
Proof.
  split; [| split].
  - intros report_type date_range w.
    destruct (report_of_type report_type
                match date_range with
                | Some (start, end_) =>
                    VDict [("start", VDateTime start); ("end", VDateTime end_)]
                | None => VDict []
                end w) as (d & Hreport & Htype & Herror).
    exists d. split; [| split; assumption].
    unfold Routes.generate_report. apply try_except_ok.
    now rewrite (bind_ok _ _ w d w Hreport).
  - intros args t w Hargs Hunknown.
    pose proof (unknown_report args t w Hargs Hunknown) as Hreport.
    split; [exact Hreport |].
    unfold EbayMCPServer.handle_call_tool. apply try_except_ok.
    cbn [EbayMCPServer.request_name EbayMCPServer.arguments].
    change (EbayMCPServer.call "generate_report" args)
      with (EbayMCPServer._generate_report args).
    now rewrite (bind_ok _ _ w _ w Hreport).
  - intros args w Hargs.
    unfold EbayMCPServer._generate_report, bind, lift, getitem. now rewrite Hargs.
Qed.


(** X22: asked for any operation other than [update] on a list of ids,
    [_bulk_operations] of the protocol server leaves the world as it is (no
    SDK call, no change of the table) and returns the operation, the
    number of ids and, for [delete] and [relist], one success entry per
    id; for any other operation the results are empty. *)
Theorem protocol_bulk_delete_does_nothing :
  forall (args : dict) (operation : string) (ids : list value) (w : World),
    lookup "operation" args = Some (VStr operation) ->
    lookup "listing_ids" args = Some (VList ids) ->
    operation <> "update" ->
    EbayMCPServer._bulk_operations args w
    = (inr [ ("operation", VStr operation);
             ("total", VInt (Z.of_nat (List.length ids)));
             ("results",
              VList (if String.eqb operation "delete" || String.eqb operation "relist"
                     then EbayMCPServer.recorded ids else [])) ],
       w).
Proof.
  intros args operation ids w Hoperation Hids Hupdate.
  unfold EbayMCPServer._bulk_operations, bind, lift, getitem.
  rewrite Hoperation, Hids. cbn [eq_str].
  apply String.eqb_neq in Hupdate. rewrite Hupdate.
  destruct (String.eqb operation "delete"); [reflexivity |].
  destruct (String.eqb operation "relist"); reflexivity.
Qed.

(** X23: the seven tools of the agent are registered under distinct
    names, in the order create, update, search, analyze, bulk update,
    suggest categories, optimize. So looking a tool up by its name, as the
    protocol server does, and taking it by its position, as the REST layer
    does, give the same tool; a name that no tool has raises
    [StopIteration]. *)
Theorem tools_by_name_and_by_position :
  map name EbayListingAgent.tools
  = [ "create_listing"; "update_listing"; "search_listings"; "analyze_listing";
      "bulk_update"; "suggest_categories"; "optimize_listing" ]
  /\ NoDup (map name EbayListingAgent.tools)
  /\ (forall (i : nat) (t : Tool),
        nth_error EbayListingAgent.tools i = Some t ->
        EbayMCPServer.agent_tool (name t) = ret t /\ Main.tool_at i = ret t)
  /\ (forall wanted : string,
        ~ In wanted (map name EbayListingAgent.tools) ->
        EbayMCPServer.agent_tool wanted = raise (Raise "StopIteration" "")).
Proof.
  split; [reflexivity |]. split; [| split].
  - cbn [map EbayListingAgent.tools name EbayListingAgent.create_listing_tool
         EbayListingAgent.update_listing_tool EbayListingAgent.search_listings_tool
         EbayListingAgent.analyze_listing_tool EbayListingAgent.bulk_update_tool
         EbayListingAgent.get_category_suggestions_tool
         EbayListingAgent.optimize_listing_tool].
    repeat (constructor; [cbn [In]; intuition discriminate |]).
    constructor.
  - intros i t Hnth.
    do 7 (destruct i as [| i];
          [cbn in Hnth; inversion Hnth; subst t; split; reflexivity |]).
    destruct i; discriminate.
  - intros wanted Hnone. unfold EbayMCPServer.agent_tool.
    destruct (find _ _) as [t |] eqn:Hfind; [| reflexivity].
    exfalso. apply find_some in Hfind. destruct Hfind as [Hin Hname].
    apply String.eqb_eq in Hname. apply Hnone. rewrite <- Hname.
    now apply in_map.
Qed.

Lemma rows_are_not_serializable (ebay : list value) (rows : list row) :
  rows <> [] ->
  forallb json_serializable (ebay ++ map (VObj "Listing") rows) = false.
Proof.
  intros Hrows. rewrite forallb_app.
  destruct rows as [| r rows]; [congruence |].
  apply andb_false_r.
Qed.

(** X24: when the arguments of a [search_listings] call validate, the
    search of the marketplace succeeds and at least one row of the table is
    selected, the handler of the protocol server returns a success
    envelope, and yet the dispatcher answers with an error result: the
    rows are ORM objects, which [json.dumps] refuses with a [TypeError].
    Only the clock has moved since the search. *)
Theorem protocol_search_cannot_dump_local_rows :
  forall (args : dict) (criteria : ListingSearchCriteria.t) (w w1 : World)
         (ebay : list value),
    ListingSearchCriteria.parse
      [ ("keyword", get args "keyword" VNone);
        ("status", get args "status" VNone);
        ("category", get args "category" VNone) ] = inr criteria ->
    EbayService.search_listings (ListingSearchCriteria.dict_exclude_none criteria) w
    = (inr ebay, w1) ->
    filter (DatabaseService.selected (ListingSearchCriteria.dict_exclude_none criteria))
           (listings w1) <> [] ->
    (exists result,
       EbayMCPServer._search_listings args w = (inr result, w1)
       /\ lookup "success" result = Some (VBool true))
    /\ exists e,
         exn_class e = "TypeError"
         /\ EbayMCPServer.handle_call_tool
              (EbayMCPServer.mkCallToolRequest "search_listings" args) w
            = (inr (EbayMCPServer.mkToolResult
                      [ EbayMCPServer.mkTextContent "text"
                          (json_text None
                             (EbayMCPServer.error_envelope e "search_listings"
                                (local_clock (clock_reads w1)))) ]
                      true),
               mkWorld (market w1) (listings w1) (sdk_calls w1)
                       (S (clock_reads w1)) (uuids_drawn w1)).
Proof.
  intros args criteria w w1 ebay Hparse Hsearch Hrows.
  pose proof (search_handler_returns criteria w ebay w1 Hsearch) as Hhandler.
  cbv zeta in Hhandler.
  assert (Htool :
    EbayMCPServer._search_listings args w
    = EbayListingAgent.search_listings criteria w).
  { unfold EbayMCPServer._search_listings.
    rewrite (bind_ok (EbayMCPServer.agent_tool "search_listings") _ w
               EbayListingAgent.search_listings_tool w eq_refl).
    cbn [function EbayListingAgent.search_listings_tool EbayListingAgent.with_model].
    unfold bind, lift. now rewrite Hparse. }
  split.
  - eexists. split; [rewrite Htool; exact Hhandler | reflexivity].
  - exists (TypeError "Object is not JSON serializable"). split; [reflexivity |].
    unfold EbayMCPServer.handle_call_tool.
    cbn [EbayMCPServer.request_name EbayMCPServer.arguments].
    rewrite (try_except_caught _ _ w (TypeError "Object is not JSON serializable") w1).
    + reflexivity.
    + change (EbayMCPServer.call "search_listings" args)
        with (EbayMCPServer._search_listings args).
      rewrite (bind_ok _ _ w _ w1 (eq_trans Htool Hhandler)).
      unfold bind, lift, json_dumps.
      cbn [json_serializable forallb snd andb].
      now rewrite (rows_are_not_serializable ebay _ Hrows).
Qed.








Lemma has_key_lookup k (d : dict) :
  has_key k d = true -> exists v, lookup k d = Some v.
Proof. unfold has_key. destruct (lookup k d); [eauto | discriminate]. Qed.


Lemma parsed_columns listing k :
  parsed listing -> In k read_columns ->
  has_key k listing = true /\ Listing.attribute k = true /\ k <> "updated_at".
Proof.
  intros (? & ? & ? & ? & ? & ? & ? & ? & ? & ? & ? & ? & ? & ->) Hk.
  cbn [read_columns In] in Hk.
  decompose [or] Hk; try contradiction; subst k;
    (split; [reflexivity | split; [reflexivity | discriminate]]).
Qed.



(** X26: the search handler of the agent gives the same result whatever
    the dates of the criteria, which take no part; the search of the
    marketplace does not depend on the status either; and the local search
    is never restricted to a user, because the criteria cannot name one. *)
Theorem search_ignores_dates_and_users :
  forall (keyword status category : option string) (date_from date_to : option Z)
         (w : World),
    let criteria :=
      ListingSearchCriteria.make keyword status category date_from date_to in
    EbayListingAgent.search_listings criteria w
    = EbayListingAgent.search_listings
        (ListingSearchCriteria.make keyword status category None None) w
    /\ EbayService.search_listings (ListingSearchCriteria.dict_exclude_none criteria) w
       = EbayService.search_listings
           (ListingSearchCriteria.dict_exclude_none
              (ListingSearchCriteria.make keyword None category None None)) w
    /\ forall r : row,
         DatabaseService.where_ (ListingSearchCriteria.dict_exclude_none criteria)
           "user_id" "user_id" r = true.
Proof.
  intros keyword status category date_from date_to w criteria. unfold criteria.
  split; [| split].
  - destruct keyword, status, category, date_from, date_to; reflexivity.
  - destruct keyword, status, category, date_from, date_to; reflexivity.
  - intros r. destruct keyword, status, category, date_from, date_to; reflexivity.
Qed.

Lemma suggestions_of title images (listing : dict) w :
  lookup "title" listing = Some (VStr title) ->
  lookup "images" listing = Some (VList images) ->
  exists suggestions,
    EbayListingAgent._get_suggestions listing w = (inr (VList suggestions), w)
    /\ (In (VStr "Consider adding more keywords to your title") suggestions
        <-> (String.length title < 50)%nat)
    /\ (In (VStr "Add more images to increase buyer confidence") suggestions
        <-> (List.length images < 3)%nat)
    /\ (List.length suggestions <= 2)%nat.
Proof.
  intros Htitle Himages.
  unfold EbayListingAgent._get_suggestions, bind, lift, ret, get.
  rewrite Htitle, Himages. cbn [py_len].
  destruct (Nat.ltb_spec (String.length title) 50) as [Ht | Ht];
    destruct (Nat.ltb_spec (List.length images) 3) as [Hi | Hi];
    eexists; (split; [reflexivity |]); cbn [app In List.length];
    (split; [| split; [| lia]]); split; intros H;
    try (decompose [or] H; try discriminate; try contradiction);
    try assumption; try lia; auto.
Qed.

(** X27: when the listing and its analytics can be read,
    [analyze_listing] fails with [Analysis failed] if the reading has no
    title (the key is there with [None], so the default does not apply
    and [len] raises). With a title and a list of images it succeeds: the
    suggestions are at most two, the one about keywords is made exactly
    when the title has fewer than 50 characters, the one about images
    exactly when there are fewer than 3 images, and the suggested price is
    the current price. *)
Theorem analysis_suggestions_follow_the_thresholds :
  forall (listing_id : string) (w w1 w2 : World) (current analytics : dict),
    EbayService.get_listing listing_id w = (inr current, w1) ->
    EbayService.get_listing_analytics listing_id w1 = (inr analytics, w2) ->
    (lookup "title" current = Some VNone ->
     exists error,
       EbayListingAgent.analyze_listing listing_id w
       = (inr [ ("success", VBool false);
                ("error", VStr error);
                ("message", VStr "Analysis failed") ],
          w2))
    /\ (forall (title : string) (images : list value),
          lookup "title" current = Some (VStr title) ->
          lookup "images" current = Some (VList images) ->
          exists insights suggestions,
            EbayListingAgent.analyze_listing listing_id w
            = (inr [ ("success", VBool true);
                     ("listing_id", VStr listing_id);
                     ("insights", VDict insights);
                     ("message", VStr "Analysis complete") ],
               w2)
            /\ lookup "optimization_suggestions" insights = Some (VList suggestions)
            /\ (In (VStr "Consider adding more keywords to your title") suggestions
                <-> (String.length title < 50)%nat)
            /\ (In (VStr "Add more images to increase buyer confidence") suggestions
                <-> (List.length images < 3)%nat)
            /\ (List.length suggestions <= 2)%nat
            /\ lookup "price_competitiveness" insights
               = Some (VDict [ ("competitive", VBool true);
                               ("suggested_price", get current "price" VNone) ])).
Proof.
  intros listing_id w w1 w2 current analytics Hget Hanalytics.
  pose proof (get_listing_shape _ _ _ _ Hget) as Hparsed.
  split.
  - intros Htitle.
    destruct Hparsed as (? & t & ? & ? & ? & ? & ? & ? & ? & ? & ? & ? & ? & ->).
    cbn in Htitle. inversion Htitle; subst t.
    eexists.
    unfold EbayListingAgent.analyze_listing, EbayListingAgent.analyze_listing_try.
    erewrite try_except_caught; [reflexivity |].
    rewrite (bind_ok _ _ w _ w1 Hget). rewrite (bind_ok _ _ w1 _ w2 Hanalytics).
    reflexivity.
  - intros title images Htitle Himages.
    destruct (suggestions_of title images current w2 Htitle Himages)
      as (suggestions & Hsuggestions & Hkeywords & Hmore & Hbound).
    destruct (has_key_lookup "price" current) as (price & Hprice).
    { apply (parsed_columns current "price" Hparsed). cbn [read_columns In]. tauto. }
    eexists. exists suggestions. split; [| split; [| split; [| split; [| split]]]].
    + unfold EbayListingAgent.analyze_listing, EbayListingAgent.analyze_listing_try.
      apply try_except_ok.
      rewrite (bind_ok _ _ w _ w1 Hget). rewrite (bind_ok _ _ w1 _ w2 Hanalytics).
      unfold bind at 1. unfold EbayListingAgent._analyze_pricing, bind at 1, lift, getitem.
      rewrite Hprice. unfold ret at 1.
      unfold bind at 1. rewrite Hsuggestions.
      reflexivity.
    + reflexivity.
    + exact Hkeywords.
    + exact Hmore.
    + exact Hbound.
    + unfold get. now rewrite Hprice.
Qed.

Lemma str_specifics field (specifics : list (string * string)) :
  rmap (fun kv => let? s := str_field field (snd kv) in inr (fst kv, s))
       (map (fun kv => (fst kv, VStr (snd kv))) specifics)
  = inr specifics.
Proof.
  induction specifics as [| [k v] rest IH]; simpl.
  - reflexivity.
  - unfold rbind in *. now rewrite IH.
Qed.

Lemma dict_options field (options : list ShippingOption.t) :
  rmap (dict_field field) (map (fun o => VDict (ShippingOption.dict o)) options)
  = inr (map ShippingOption.dict options).
Proof.
  induction options as [| o rest IH]; simpl.
  - reflexivity.
  - unfold rbind in *. now rewrite IH.
Qed.

(** The fields that the two models read alike. *)
Lemma details_fields payload l :
  ListingCreate.parse payload = inr l ->
  ListingDetails.parse (ListingCreate.dict l)
  = let? images :=
      list_field "images" str_field (VList (map ListingCreate.Url (ListingCreate.images l))) in
    inr (ListingDetails.make
           (ListingCreate.title l) (ListingCreate.description l) (ListingCreate.price l)
           (ListingCreate.quantity l) (ListingCreate.category_id l)
           (ItemCondition.value_of (ListingCreate.condition l))
           images (ListingCreate.item_specifics l)
           (map ShippingOption.dict (ListingCreate.shipping_options l))).
Proof.
  intros Hparse. apply ListingCreate_parse_sound in Hparse.
  destruct Hparse as (_ & Hprice & _ & Hquantity).
  unfold ListingDetails.parse, ListingCreate.dict, required, get.
  cbn [lookup String.eqb Ascii.eqb Bool.eqb rbind str_field float_field int_field
       py_float py_int].
  unfold gt0, ge0. rewrite Hprice.
  apply Z.leb_le in Hquantity. rewrite Hquantity.
  cbn [rbind str_dict_field].
  destruct (list_field "images" str_field
              (VList (map ListingCreate.Url (ListingCreate.images l))))
    as [e | images]; cbn [rbind]; [reflexivity |].
  unfold list_field. now rewrite str_specifics, dict_options.
Qed.

Lemma details_of_create payload l :
  ListingCreate.parse payload = inr l ->
  ListingCreate.images l = [] ->
  ListingDetails.parse (ListingCreate.dict l) = inr (details_of l).
Proof.
  intros Hparse Himages. rewrite (details_fields payload l Hparse).
  unfold details_of. rewrite Himages. reflexivity.
Qed.

(** A URL object is no string: details with an image do not validate. *)
Lemma details_refuse_urls payload l :
  ListingCreate.parse payload = inr l ->
  ListingCreate.images l <> [] ->
  ListingDetails.parse (ListingCreate.dict l)
  = inl (ValidationError "images: str type expected").
Proof.
  intros Hparse Himages. rewrite (details_fields payload l Hparse).
  destruct (ListingCreate.images l) as [| url urls]; [contradiction |].
  reflexivity.
Qed.

(** X28: [POST /api/listings] never answers with a listing. A body that
    does not validate is refused with a request validation error, the world
    unchanged. A body that validates without images gives details that the
    agent's tool accepts (same title, price, quantity, the condition by its
    name), and then, since the creation handler of the agent always reports
    a failure, the route answers 500 with the text of the 400 exception as
    detail; the listings table is as it was. A body that validates with
    images gives URL objects, which the tool's model refuses as image
    strings: the route answers 500 with the text of that validation error,
    the handler does not run and the world is unchanged. *)
Theorem rest_creation_never_answers_with_a_listing :
  forall (body : dict) (w : World),
    match ListingCreate.parse body with
    | inl e =>
        Main.create_listing body w = (inl (Main.RequestValidationError e), w)
    | inr l =>
        match ListingCreate.images l with
        | [] =>
            ListingDetails.parse (ListingCreate.dict l) = inr (details_of l)
            /\ exists w',
                 Main.create_listing body w
                 = (inl (Main.HTTPException 500
                           (exn_str (Main.HTTPException 400 "Failed to create listing"))),
                    w')
                 /\ listings w' = listings w
        | _ :: _ =>
            ListingDetails.parse (ListingCreate.dict l)
            = inl (ValidationError "images: str type expected")
            /\ Main.create_listing body w
               = (inl (Main.HTTPException 500
                         (exn_str (ValidationError "images: str type expected"))),
                  w)
        end
    end.
Proof.
  intros body w. unfold Main.create_listing.
  destruct (ListingCreate.parse body) as [e | l] eqn:Hparse; [reflexivity |].
  destruct (ListingCreate.images l) as [| url urls] eqn:Himages.
  - pose proof (details_of_create body l Hparse Himages) as Hdetails.
    split; [exact Hdetails |].
    pose proof (create_listing_stores_nothing (details_of l) w) as Hhandler.
    assert (Hrun : exists error w',
               EbayListingAgent.create_listing (details_of l) w
               = (inr [ ("success", VBool false);
                        ("error", VStr error);
                        ("message", VStr "Failed to create listing") ], w')
               /\ listings w' = listings w).
    { destruct (EbayService.create_listing (ListingDetails.dict (details_of l)) w)
        as [[e | created] w1]; destruct Hhandler as [Hh Hl]; eauto. }
    destruct Hrun as (error & w' & Hrun & Hl).
    exists w'. split; [| exact Hl].
    rewrite (try_except_caught _ _ w (Main.HTTPException 400 "Failed to create listing") w');
      [reflexivity |].
    rewrite (bind_ok (Main.tool_at 0) _ w EbayListingAgent.create_listing_tool w eq_refl).
    rewrite (bind_ok _ _ w [ ("success", VBool false);
                             ("error", VStr error);
                             ("message", VStr "Failed to create listing") ] w').
    + reflexivity.
    + cbn [function EbayListingAgent.create_listing_tool EbayListingAgent.with_model].
      unfold bind at 1. unfold lift. rewrite Hdetails. exact Hrun.
  - assert (Hdetails : ListingDetails.parse (ListingCreate.dict l)
                       = inl (ValidationError "images: str type expected")).
    { apply (details_refuse_urls body l Hparse). rewrite Himages. discriminate. }
    split; [exact Hdetails |].
    rewrite (try_except_caught _ _ w (ValidationError "images: str type expected") w);
      [reflexivity |].
    rewrite (bind_ok (Main.tool_at 0) _ w EbayListingAgent.create_listing_tool w eq_refl).
    unfold bind at 1.
    cbn [function EbayListingAgent.create_listing_tool EbayListingAgent.with_model].
    unfold bind at 1. unfold lift. now rewrite Hdetails.
Qed.

(** X29: every member of [ItemCondition] has an entry of its own in the
    condition map, so [_get_condition_id] tells the six conditions apart;
    a condition that is none of the six is given the id of [New]. *)
Theorem every_condition_has_its_own_id :
  (forall c : ItemCondition.t,
     exists id,
       EbayService.assoc (ItemCondition.value_of c) EbayService.condition_map = Some id
       /\ EbayService._get_condition_id (VStr (ItemCondition.value_of c)) = inr id)
  /\ (forall c c' : ItemCondition.t,
        EbayService._get_condition_id (VStr (ItemCondition.value_of c))
        = EbayService._get_condition_id (VStr (ItemCondition.value_of c')) ->
        c = c')
  /\ (forall s : string,
        (forall c, s <> ItemCondition.value_of c) ->
        EbayService._get_condition_id (VStr s)
        = EbayService._get_condition_id (VStr (ItemCondition.value_of ItemCondition.NEW))).
Proof.
  split; [| split].
  - intros c. destruct c; eexists; split; reflexivity.
  - intros c c'. destruct c, c'; intros H; try reflexivity; discriminate.
  - intros s Hunknown.
    pose proof (Hunknown ItemCondition.NEW) as H1.
    pose proof (Hunknown ItemCondition.LIKE_NEW) as H2.
    pose proof (Hunknown ItemCondition.VERY_GOOD) as H3.
    pose proof (Hunknown ItemCondition.GOOD) as H4.
    pose proof (Hunknown ItemCondition.ACCEPTABLE) as H5.
    pose proof (Hunknown ItemCondition.FOR_PARTS) as H6.
    apply String.eqb_neq in H1, H2, H3, H4, H5, H6.
    cbn [ItemCondition.value_of] in H1, H2, H3, H4, H5, H6.
    unfold EbayService._get_condition_id, EbayService.condition_map.
    cbn [EbayService.assoc]. now rewrite H1, H2, H3, H4, H5, H6.
Qed.

Lemma rmap_inv {A B} (f : A -> result B) (l : list A) (r : list B) :
  rmap f l = inr r -> Forall2 (fun a b => f a = inr b) l r.
Proof.
  revert r. induction l as [| a l IH]; simpl; intros r H.
  - inversion H. constructor.
  - apply rbind_inv in H. destruct H as (b & Hb & H).
    apply rbind_inv in H. destruct H as (bs & Hbs & H).
    inversion H; subst. constructor; [exact Hb | now apply IH].
Qed.

Lemma url_field_inv field v s :
  ListingCreate.url_field field v = inr s -> http_url s = true.
Proof.
  unfold ListingCreate.url_field. intros Hv.
  apply rbind_inv in Hv. destruct Hv as (s' & _ & Hurl).
  destruct (http_url s') eqn:Hok; [| discriminate]. now inversion Hurl; subst.
Qed.

Lemma url_items field (items : list value) (urls : list string) :
  rmap (ListingCreate.url_field field) items = inr urls ->
  rmap (ListingCreate.url_field field) (map ListingCreate.Url urls) = inr urls.
Proof.
  intros H. apply rmap_inv in H.
  induction H as [| v s items urls Hv _ IH]; [reflexivity |].
  assert (Hs : ListingCreate.url_field field (ListingCreate.Url s) = inr s).
  { apply url_field_inv in Hv. unfold ListingCreate.url_field.
    cbn [ListingCreate.Url ListingCreate.as_url String.eqb Ascii.eqb Bool.eqb andb rbind].
    now rewrite Hv. }
  cbn [map rmap]. rewrite Hs. cbn [rbind]. rewrite IH. reflexivity.
Qed.

Lemma shipping_option_again field (o : ShippingOption.t) :
  ShippingOption.parse field (VDict (ShippingOption.dict o)) = inr o.
Proof. destruct o. reflexivity. Qed.

Lemma shipping_options_again field (options : list ShippingOption.t) :
  rmap (ShippingOption.parse field)
       (map (fun o => VDict (ShippingOption.dict o)) options)
  = inr options.
Proof.
  induction options as [| o rest IH]; [reflexivity |].
  cbn [map rmap]. rewrite shipping_option_again. cbn [rbind]. rewrite IH. reflexivity.
Qed.

Lemma condition_again field (c : ItemCondition.t) :
  ItemCondition.parse field (VStr (ItemCondition.value_of c)) = inr c.
Proof. destruct c; reflexivity. Qed.

Lemma min_length_inv field n s s' :
  ListingCreate.min_length field n s = inr s' ->
  s' = s /\ Nat.leb n (String.length s) = true.
Proof.
  unfold ListingCreate.min_length. destruct (Nat.leb n (String.length s)); [| discriminate].
  intros H. inversion H. auto.
Qed.

Lemma max_length_inv field n s s' :
  ListingCreate.max_length field n s = inr s' ->
  s' = s /\ Nat.leb (String.length s) n = true.
Proof.
  unfold ListingCreate.max_length. destruct (Nat.leb (String.length s) n); [| discriminate].
  intros H. inversion H. auto.
Qed.

Lemma max_items_inv {A} field n (l l' : list A) :
  ListingCreate.max_items field n l = inr l' ->
  l' = l /\ Nat.leb (List.length l) n = true.
Proof.
  unfold ListingCreate.max_items. destruct (Nat.leb (List.length l) n); [| discriminate].
  intros H. inversion H. auto.
Qed.

Ltac parse_as H x Hx :=
  apply rbind_inv in H; destruct H as (x & Hx & H).

(** X30: a creation request that [ListingCreate] accepted satisfies the
    constraints of the schema (title of 1 to 80 characters, non-empty
    description, price above zero, quantity at least zero, at most 12
    images, each a URL), and its [dict()] validates again to the same
    request. *)
Theorem validated_listing_validates_again :
  forall (body : dict) (l : ListingCreate.t),
    ListingCreate.parse body = inr l ->
    ListingCreate.parse (ListingCreate.dict l) = inr l
    /\ (1 <= String.length (ListingCreate.title l) <= 80)%nat
    /\ (1 <= String.length (ListingCreate.description l))%nat
    /\ PrimFloat.ltb 0%float (ListingCreate.price l) = true
    /\ 0 <= ListingCreate.quantity l
    /\ (List.length (ListingCreate.images l) <= 12)%nat
    /\ Forall (fun url => http_url url = true) (ListingCreate.images l).
Proof.
  intros body l Hparse.
  unfold ListingCreate.parse in Hparse.
  parse_as Hparse title0 Htitle0.
  parse_as Hparse title1 Htmin. apply min_length_inv in Htmin. destruct Htmin as [-> Htmin].
  parse_as Hparse title Htmax. apply max_length_inv in Htmax. destruct Htmax as [-> Htmax].
  parse_as Hparse text0 Htext0.
  parse_as Hparse text Hdmin.
  apply min_length_inv in Hdmin. destruct Hdmin as [-> Hdmin].
  parse_as Hparse price0 Hprice0.
  parse_as Hparse price Hprice. apply gt0_inv in Hprice. destruct Hprice as [-> Hprice].
  parse_as Hparse quantity0 Hquantity0.
  parse_as Hparse quantity Hquantity.
  apply ge0_inv in Hquantity. destruct Hquantity as [-> Hquantity].
  parse_as Hparse category_id Hcategory_id.
  parse_as Hparse condition Hcondition.
  parse_as Hparse images0 Himages0.
  parse_as Hparse images Himax. apply max_items_inv in Himax. destruct Himax as [-> Himax].
  parse_as Hparse item_specifics Hitem_specifics.
  parse_as Hparse shipping_options Hshipping_options.
  inversion Hparse; subst l. clear Hparse.
  cbn [ListingCreate.title ListingCreate.description ListingCreate.price
       ListingCreate.quantity ListingCreate.images].
  assert (Hitems : exists items,
            rmap (ListingCreate.url_field "images") items = inr images0).
  { unfold list_field in Himages0.
    destruct (get body "images" (VList [])); try discriminate. eauto. }
  destruct Hitems as (items & Hitems).
  split; [| split; [| split; [| split; [| split; [| split]]]]].
  - unfold ListingCreate.parse, ListingCreate.dict, required, get.
    cbn [lookup String.eqb Ascii.eqb Bool.eqb rbind str_field float_field int_field
         py_float py_int ListingCreate.title ListingCreate.description
         ListingCreate.price ListingCreate.quantity ListingCreate.category_id
         ListingCreate.condition ListingCreate.images ListingCreate.item_specifics
         ListingCreate.shipping_options].
    unfold ListingCreate.min_length, ListingCreate.max_length.
    rewrite Htmin. cbn [rbind]. rewrite Htmax. cbn [rbind]. rewrite Hdmin. cbn [rbind].
    unfold gt0, ge0. rewrite Hprice. cbn [rbind].
    assert (Hq : (0 <=? quantity0) = true) by (apply Z.leb_le; lia).
    rewrite Hq. cbn [rbind].
    rewrite condition_again. cbn [rbind list_field].
    rewrite (url_items _ _ _ Hitems). cbn [rbind].
    unfold ListingCreate.max_items. rewrite Himax.
    cbn [rbind str_dict_field]. rewrite str_specifics. cbn [rbind].
    rewrite shipping_options_again. reflexivity.
  - apply Nat.leb_le in Htmin, Htmax. lia.
  - now apply Nat.leb_le in Hdmin.
  - exact Hprice.
  - exact Hquantity.
  - now apply Nat.leb_le in Himax.
  - apply rmap_inv in Hitems. clear Himax Himages0.
    induction Hitems as [| v s items urls Hv _ IH]; constructor; [| exact IH].
    now apply url_field_inv in Hv.
Qed.

End RouteFacts.

Section WebhookFacts.

Context {P : Platform} {R : AgentRuntime}.

Variable json_loads : string -> result value.

Import Status.

(** X14: every route of the REST layer, and both handlers of the webhook,
    fail with an [HTTPException] of status 500 and with nothing else: the
    400 and 404 that a route raises inside its [try] are caught by the
    [except Exception] of the same [try] and raised again as 500. So when
    the update handler of the agent reports a failure, the update route
    answers 500, with the text of the 400 exception as its detail. *)
Theorem routes_answer_failures_with_500 :
  (forall listing_id updates, only_500 (Routes.update_listing listing_id updates))
  /\ (forall keyword status category limit offset,
        only_500 (Routes.search_listings keyword status category limit offset))
  /\ (forall listing_id, only_500 (Routes.get_listing listing_id))
  /\ (forall listing_id, only_500 (Routes.delete_listing listing_id))
  /\ (forall listing_id, only_500 (Routes.analyze_listing listing_id))
  /\ (forall report_type date_range,
        only_500 (Routes.generate_report report_type date_range))
  /\ (forall query, only_500 (Routes.query_agent query))
  /\ (forall title description, only_500 (Routes.suggest_categories title description))
  /\ (forall listing_id apply, only_500 (Routes.optimize_listing listing_id apply))
  /\ (forall body, only_500 (MCPWebhookHandler.handle_webhook json_loads body))
  /\ (forall body, only_500 (MCPWebhookHandler.handle_natural_query body))
  /\ (forall listing_id updates w e w',
        EbayListingAgent.update_listing_try (ListingUpdate.make listing_id updates) w
        = (inl e, w') ->
        Routes.update_listing listing_id updates w
        = (inl (Main.HTTPException 500
                  (exn_str (Main.HTTPException 400 "Failed to update listing"))),
           w')).
Proof.
  split; [intros; apply closed_route |].
  split; [intros; apply closed_route |].
  split; [intros; apply closed_route |].
  split; [intros; apply closed_route |].
  split; [intros; apply closed_route |].
  split; [intros; apply closed_route |].
  split; [intros; apply closed_route |].
  split; [intros; apply closed_route |].
  split; [intros; apply closed_route |].
  split; [intros; apply closed_handler |].
  split; [intros; apply closed_handler |].
  intros listing_id updates w e w' Htry.
  unfold Routes.update_listing.
  rewrite (try_except_caught _ _ w (Main.HTTPException 400 "Failed to update listing") w');
    [reflexivity |].
  rewrite (bind_ok (Main.tool_at 1) _ w EbayListingAgent.update_listing_tool w eq_refl).
  rewrite (bind_ok _ _ w [ ("success", VBool false);
                 ("error", VStr (exn_str e));
                 ("message", VStr "Failed to update listing") ] w').
  - unfold bind. now rewrite check_failure.
  - rewrite update_tool_run. unfold EbayListingAgent.update_listing.
    now rewrite (try_except_caught _ _ w e w' Htry).
Qed.


End WebhookFacts.

Section FurtherRuns.

Import Fixture Shelf Reading.

(** X10 on the camera kept for item 110. *)
Lemma stored_listing_witness :
  DatabaseService.store_listing camera_110 stocked = (inr kept_row, kept)
  /\ listings kept = [kept_row]
  /\ DatabaseService.matches "uuid-0" kept_row = true.
Proof.
  assert (Hstore : DatabaseService.store_listing camera_110 stocked = (inr kept_row, kept))
    by (vm_compute; reflexivity).
  split; [exact Hstore |].
  destruct (stored_listing_is_found camera_110 stocked kept kept_row Hstore)
    as (_ & Htable & _ & _ & _ & _ & _ & _ & _ & Hmatches).
  split; [exact Htable | exact Hmatches].
Defined.

(** X12 on the kept camera: its price is set to 5. *)
Lemma update_listing_witness :
  filter (DatabaseService.matches "110") (listings kept) = [kept_row]
  /\ DatabaseService.apply_updates kept_row [("price", VFloat 5%float)]
     = inr (Listing.set kept_row "price" (VFloat 5%float))
  /\ exists new w',
       DatabaseService.update_listing "110" [("price", VFloat 5%float)] kept
       = (inr (Some new), w')
       /\ Listing.getattr new "price" = VFloat 5%float.
Proof.
  assert (Hkeys : NoDup (keys [("price", VFloat 5%float)])).
  { repeat constructor. simpl. tauto. }
  assert (Hplain : forall k, In k (keys [("price", VFloat 5%float)]) ->
                             Listing.plain k = true).
  { intros k [<- | []]. reflexivity. }
  assert (Hfound : filter (DatabaseService.matches "110") (listings kept) = [kept_row])
    by (vm_compute; reflexivity).
  assert (Happlied : DatabaseService.apply_updates kept_row [("price", VFloat 5%float)]
                     = inr (Listing.set kept_row "price" (VFloat 5%float)))
    by reflexivity.
  split; [exact Hfound |]. split; [exact Happlied |].
  destruct (update_listing_writes_the_given_values
              "110" [("price", VFloat 5%float)] kept kept_row
              (Listing.set kept_row "price" (VFloat 5%float))
              Hfound Happlied eq_refl)
    as (new & w' & Hrun & _ & _ & _ & Hvalues).
  exists new, w'. split; [exact Hrun |].
  apply (Hvalues Hkeys Hplain); [now left | reflexivity | discriminate].
Defined.

(** X16 on an item that the marketplace does not have. *)
Lemma deletion_witness :
  fst (EbayService.delete_listing "999" world) = inr false
  /\ fst (Routes.delete_listing "999" world)
     = inr (VDict [("success", VBool true); ("message", VStr "Listing deleted")])
  /\ fst (Main.delete_item "999" world)
     = inr [("listing_id", VStr "999"); ("success", VBool true)].
Proof.
  destruct (deletion_ignores_the_acknowledgement
              "999" world
              [("Ack", VStr "Failure"); ("Errors", VStr "Item not found")] empty
              eq_refl eq_refl)
    as (Hend & Hroute & Hitem).
  rewrite Hend, Hroute, Hitem. split; [reflexivity |]. split; reflexivity.
Defined.

(** X17 on the third operation that a bulk request may name. *)
Lemma unsupported_operation_witness :
  Main.perform_bulk_operation "relist" ["110"] None "seller" stocked
  = (inl (ValueError "Unsupported operation: relist"), stocked).
Proof.
  apply (bulk_helper_supports_update_and_delete_only
           "relist" ["110"] None "seller" stocked).
  - discriminate.
  - left. discriminate.
Defined.

(** X18 on the second page of size one, of two marketplace items and one row. *)
Lemma search_page_witness :
  EbayService.search_listings
    (ListingSearchCriteria.dict_exclude_none
       (ListingSearchCriteria.make None None None None None)) kept
  = (inr found, searched)
  /\ exists page,
       fst (Routes.search_listings None None None 1 1 kept)
       = inr (VDict [ ("total", VInt 3); ("limit", VInt 1); ("offset", VInt 1);
                      ("listings", VList page) ])
       /\ List.length page = 1%nat.
Proof.
  assert (Hsearch :
    EbayService.search_listings
      (ListingSearchCriteria.dict_exclude_none
         (ListingSearchCriteria.make None None None None None)) kept
    = (inr found, searched)) by (vm_compute; reflexivity).
  split; [exact Hsearch |].
  destruct (search_route_pages_the_merged_list
              None None None 1 1 kept searched found
              ltac:(lia) ltac:(lia) Hsearch)
    as (Hroute & _ & _).
  eexists. split; [rewrite Hroute; vm_compute; reflexivity | reflexivity].
Defined.

(** X19 on item 110: what is applied is what was read. *)
Lemma applied_optimizations_witness :
  EbayService.get_listing "110" kept = (inr reading, read)
  /\ get reading "title" VNone = VStr "Vintage Camera"
  /\ get reading "price" VNone = VFloat price_49_99
  /\ exists optimizations flag,
       fst (Routes.optimize_listing "110" true kept)
       = inr (VDict [("optimizations", optimizations); ("applied", VBool flag)])
       /\ py_getitem optimizations "title" = inr (VStr "Vintage Camera").
Proof.
  assert (Hget : EbayService.get_listing "110" kept = (inr reading, read))
    by (vm_compute; reflexivity).
  split; [exact Hget |].
  split; [vm_compute; reflexivity |]. split; [vm_compute; reflexivity |].
  destruct (applied_optimizations_are_the_current_values "110" kept read reading Hget)
    as (_ & envelope & flag & w2 & _ & _ & Hroute).
  eexists. exists flag. split; [rewrite Hroute; reflexivity |].
  vm_compute. reflexivity.
Defined.

(** X22 on a deletion asked of the protocol server. *)
Lemma protocol_bulk_delete_witness :
  EbayMCPServer._bulk_operations
    [("operation", VStr "delete"); ("listing_ids", VList [VStr "110"])] kept
  = (inr [ ("operation", VStr "delete");
           ("total", VInt 1);
           ("results",
            VList [VDict [("listing_id", VStr "110"); ("success", VBool true)]]) ],
     kept).
Proof.
  apply (protocol_bulk_delete_does_nothing
           [("operation", VStr "delete"); ("listing_ids", VList [VStr "110"])]
           "delete" [VStr "110"] kept).
  - reflexivity.
  - reflexivity.
  - discriminate.
Defined.

(** X24 on a search without criteria, which finds the kept row. *)
Lemma protocol_search_witness :
  filter (DatabaseService.selected
            (ListingSearchCriteria.dict_exclude_none
               (ListingSearchCriteria.make None None None None None)))
         (listings searched) <> []
  /\ exists r w',
       EbayMCPServer.handle_call_tool
         (EbayMCPServer.mkCallToolRequest "search_listings" []) kept = (inr r, w')
       /\ EbayMCPServer.is_error r = true.
Proof.
  assert (Hrows :
    filter (DatabaseService.selected
              (ListingSearchCriteria.dict_exclude_none
                 (ListingSearchCriteria.make None None None None None)))
           (listings searched) <> []) by (vm_compute; discriminate).
  split; [exact Hrows |].
  assert (Hsearch :
    EbayService.search_listings
      (ListingSearchCriteria.dict_exclude_none
         (ListingSearchCriteria.make None None None None None)) kept
    = (inr found, searched)) by (vm_compute; reflexivity).
  destruct (protocol_search_cannot_dump_local_rows
              [] (ListingSearchCriteria.make None None None None None)
              kept searched found eq_refl Hsearch Hrows)
    as (_ & e & _ & Hcall).
  eexists. eexists. split; [exact Hcall | reflexivity].
Defined.

(** X27 on item 110: a short title and no image. *)
Lemma analysis_witness :
  EbayService.get_listing "110" kept = (inr reading, read)
  /\ exists insights,
       fst (EbayListingAgent.analyze_listing "110" kept)
       = inr [ ("success", VBool true);
               ("listing_id", VStr "110");
               ("insights", VDict insights);
               ("message", VStr "Analysis complete") ]
       /\ lookup "optimization_suggestions" insights
          = Some (VList [ VStr "Consider adding more keywords to your title";
                          VStr "Add more images to increase buyer confidence" ]).
Proof.
  assert (Hget : EbayService.get_listing "110" kept = (inr reading, read))
    by (vm_compute; reflexivity).
  split; [exact Hget |].
  destruct (analysis_suggestions_follow_the_thresholds
              "110" kept read (snd (EbayService.get_listing_analytics "110" read))
              reading
              match fst (EbayService.get_listing_analytics "110" read) with
              | inr analytics => analytics
              | inl _ => []
              end
              Hget ltac:(vm_compute; reflexivity))
    as (_ & Hsuggestions).
  destruct (Hsuggestions "Vintage Camera" [] ltac:(vm_compute; reflexivity)
              ltac:(vm_compute; reflexivity))
    as (insights & suggestions & Hrun & _).
  exists insights. split; [rewrite Hrun; reflexivity |].
  vm_compute in Hrun. inversion Hrun. reflexivity.
Defined.

(** X30 on the camera. *)
Lemma validated_listing_witness :
  ListingCreate.parse camera = inr camera_listing
  /\ ListingCreate.parse (ListingCreate.dict camera_listing) = inr camera_listing.
Proof.
  assert (Hparse : ListingCreate.parse camera = inr camera_listing)
    by (vm_compute; reflexivity).
  split; [exact Hparse |].
  exact (proj1 (validated_listing_validates_again camera camera_listing Hparse)).
Defined.


End FurtherRuns.
